(** * Excel Analytics Platform: column classification, chart synthesis
      and chart persistence

    A shallow embedding of the chart routes of the backend
    ([backend/routes/charts.js], [backend/routes/files.js]) and of the
    chart schema ([backend/models/Chart.js]), with the properties the
    specification states about them.

    Layout:
    - [JS]      the fragment of JavaScript the routes rely on: primitive
                values, the conversions [Number(v)] and [String(v)],
                truthiness, strict equality, sparse arrays and ordinary
                objects used as dictionaries;
    - [Synth]   the pure part of the routes: column classification,
                data cleaning, configuration synthesis;
    - [Store]   the document store (files, charts, uploaded bytes) and
                the schema validation run by [save];
    - [Routes]  the request handlers, in a state monad with exceptions;
    - [Spec]    the vocabulary of the properties, the loop of the bulk
                route as a function of the state, and sample data;
    - [Rest]    the other routes of the two files (the list and the
                deletion of charts, the columns of a file), the share
                list of the chart model, the creation form of the
                frontend, and the invariant of the store;
    - the properties, route by route, then the properties of the store
      as a whole.

    What is taken from outside the sources: the spreadsheet reader is
    seen through its result (the rows of the first sheet, or a thrown
    error); database operations succeed, except that [save] validates
    against the chart schema and [findById] throws on a string that is
    no ObjectId; the upload middleware is seen through its file filter,
    its verdict on the size of the file and the file it stores. *)

From Stdlib Require Import ZArith NArith List String Ascii Bool Lia Arith Sorted.
From Stdlib Require Import PrimFloat FloatOps SpecFloat DecimalString.
Import ListNotations.

Set Implicit Arguments.

(* ================================================================== *)
(** * The JavaScript fragment *)
(* ================================================================== *)

Module JS.

Local Open Scope string_scope.

(** JavaScript numbers are IEEE 754 binary64 values: the kernel's
    primitive floats.  Strings are sequences of code units; the
    development covers the strings whose code units are below 256. *)
Definition number := PrimFloat.float.

(** A primitive value, or an object of which only its conversion to a
    string is kept (enough for [+], [String] and [Number] to act on
    it).  Spreadsheet cells are never objects. *)
Inductive value : Type :=
| Undefined
| Null
| Bool (b : bool)
| Num (n : number)
| Str (s : string)
| Obj (text : string).

Definition NaN : number := PrimFloat.nan.

(** The global [isNaN], on an argument that already is a number. *)
Definition isNaN (n : number) : bool := PrimFloat.is_nan n.

(** ** Strings *)

Definition chars (s : string) : list ascii := list_ascii_of_string s.
Definition of_chars (l : list ascii) : string := string_of_list_ascii l.

Definition code (a : ascii) : nat := nat_of_ascii a.

(** White space and line terminators among the first 256 code units. *)
Definition is_white (a : ascii) : bool :=
  let n := code a in
  (9 <=? n)%nat && (n <=? 13)%nat || (n =? 32)%nat || (n =? 160)%nat.

Fixpoint trim_start (l : list ascii) : list ascii :=
  match l with
  | a :: l' => if is_white a then trim_start l' else l
  | [] => []
  end.

(** [s.trim()] *)
Definition trim (s : string) : string :=
  of_chars (rev (trim_start (rev (trim_start (chars s))))).

Fixpoint starts_with (p l : list ascii) : bool :=
  match p, l with
  | [], _ => true
  | a :: p', b :: l' => Ascii.eqb a b && starts_with p' l'
  | _ :: _, [] => false
  end.

Fixpoint includes_chars (p l : list ascii) : bool :=
  starts_with p l ||
  match l with
  | [] => false
  | _ :: l' => includes_chars p l'
  end.

(** [s.includes(p)] *)
Definition includes (s p : string) : bool := includes_chars (chars p) (chars s).

Fixpoint replace_chars (p r l : list ascii) : list ascii :=
  if starts_with p l then r ++ skipn (List.length p) l
  else match l with
       | [] => []
       | a :: l' => a :: replace_chars p r l'
       end.

(** [s.replace(p, r)] with a string pattern: the first occurrence only. *)
Definition replace (s p r : string) : string :=
  of_chars (replace_chars (chars p) (chars r) (chars s)).

Definition string_of_N (n : N) : string :=
  NilZero.string_of_uint (N.to_uint n).

Definition string_of_Z (z : Z) : string :=
  match z with
  | Zneg p => "-" ++ string_of_N (Npos p)
  | _ => string_of_N (Z.to_N z)
  end.

(** ** Decimal literals to numbers *)

(** [m * 10^e], rounded to the nearest binary64 value, ties to even. *)
Definition round_decimal (neg : bool) (m : Z) (e : Z) : number :=
  match m with
  | Zpos p =>
      match e with
      | Zneg k =>
          SF2Prim (SFdiv prec emax (S754_finite neg p 0)
                                   (S754_finite false (Pos.pow 10 k) 0))
      | _ => SF2Prim (binary_normalize prec emax
                        (if neg then Z.opp (m * 10 ^ e) else m * 10 ^ e) 0 neg)
      end
  | _ => if neg then PrimFloat.neg_zero else PrimFloat.zero
  end.

Definition digit_in (base : nat) (a : ascii) : option Z :=
  let n := code a in
  let d := if (48 <=? n)%nat && (n <=? 57)%nat then Some (n - 48)%nat
           else if (97 <=? n)%nat && (n <=? 102)%nat then Some (n - 87)%nat
           else if (65 <=? n)%nat && (n <=? 70)%nat then Some (n - 55)%nat
           else None in
  match d with
  | Some k => if (k <? base)%nat then Some (Z.of_nat k) else None
  | None => None
  end.

(** The longest prefix of digits of [l]: its value above [acc], how many
    digits it has, and what follows it. *)
Fixpoint read_digits (base : nat) (l : list ascii) (acc : Z) (count : nat)
  : Z * nat * list ascii :=
  match l with
  | a :: l' =>
      match digit_in base a with
      | Some d => read_digits base l' (acc * Z.of_nat base + d) (S count)
      | None => (acc, count, l)
      end
  | [] => (acc, count, [])
  end.

(** [ExponentPart], optional; [None] when what is left is no exponent. *)
Definition read_exponent (l : list ascii) : option Z :=
  match l with
  | [] => Some 0%Z
  | a :: l' =>
      if Ascii.eqb a "e" || Ascii.eqb a "E" then
        let '(neg, l'') :=
          match l' with
          | b :: t => if Ascii.eqb b "-" then (true, t)
                      else if Ascii.eqb b "+" then (false, t) else (false, l')
          | [] => (false, l')
          end in
        match read_digits 10 l'' 0 0 with
        | (_, O, _) => None
        | (x, _, []) => Some (if neg then Z.opp x else x)
        | _ => None
        end
      else None
  end.

(** [StrUnsignedDecimalLiteral] *)
Definition unsigned_decimal (neg : bool) (l : list ascii) : number :=
  if list_eq_dec Ascii.ascii_dec l (chars "Infinity")
  then (if neg then PrimFloat.neg_infinity else PrimFloat.infinity)
  else
    let '(ip, ni, r1) := read_digits 10 l 0 0 in
    let '(m, nf, r2) :=
      match r1 with
      | a :: t => if Ascii.eqb a "." then read_digits 10 t ip 0 else (ip, O, r1)
      | [] => (ip, O, r1)
      end in
    match (ni + nf)%nat with
    | O => NaN
    | _ => match read_exponent r2 with
           | Some x => round_decimal neg m (x - Z.of_nat nf)
           | None => NaN
           end
    end.

(** [0x], [0o] and [0b] literals: no sign, at least one digit. *)
Definition radix_literal (l : list ascii) : option number :=
  match l with
  | z :: p :: t =>
      if Ascii.eqb z "0" then
        let base := if Ascii.eqb p "x" || Ascii.eqb p "X" then Some 16%nat
                    else if Ascii.eqb p "o" || Ascii.eqb p "O" then Some 8%nat
                    else if Ascii.eqb p "b" || Ascii.eqb p "B" then Some 2%nat
                    else None in
        match base with
        | Some b =>
            Some match read_digits b t 0 0 with
                 | (_, O, _) => NaN
                 | (x, _, []) => round_decimal false x 0
                 | _ => NaN
                 end
        | None => None
        end
      else None
  | _ => None
  end.

(** [StringToNumber]: what [Number(s)] returns for a string. *)
Definition StringToNumber (s : string) : number :=
  let l := chars (trim s) in
  match l with
  | [] => PrimFloat.zero
  | a :: t =>
      match radix_literal l with
      | Some n => n
      | None =>
          if Ascii.eqb a "-" then unsigned_decimal true t
          else if Ascii.eqb a "+" then unsigned_decimal false t
          else unsigned_decimal false l
      end
  end.

(** ** Numbers to strings *)

Fixpoint pow10_above (fuel : nat) (m d : Z) (j : Z) : Z :=
  match fuel with
  | O => j
  | S fuel' => if (d <=? m * 10 ^ j)%Z then j else pow10_above fuel' m d (j + 1)
  end.

(** The [n] with [10^(n-1) <= num/den < 10^n], for [num/den > 0]. *)
Definition decimal_exponent (num den : Z) : Z :=
  let q := (num / den)%Z in
  if (0 <? q)%Z then Z.of_nat (String.length (string_of_Z q))
  else (1 - pow10_above 400 num den 1)%Z.

(** The candidates with [k] digits next to [num/den]: the value scaled
    by [10^(k-n)] is cut to an integer [s], and [s], [s+1] are offered,
    the closer one first. *)
Definition candidates (num den n : Z) (k : Z) : list Z :=
  let p := (k - n)%Z in
  let a := (if (0 <=? p) then num * 10 ^ p else num)%Z in
  let b := (if (0 <=? p) then den else den * 10 ^ (- p))%Z in
  let s := (a / b)%Z in
  let r := (a mod b)%Z in
  if (r =? 0)%Z then [s]
  else if (2 * r <? b)%Z then [s; s + 1]%Z
  else if (b <? 2 * r)%Z then [s + 1; s]%Z
  else if Z.even s then [s; s + 1]%Z else [s + 1; s]%Z.

Fixpoint shortest (fuel : nat) (x : number) (num den n : Z) (k : Z) : Z * Z :=
  let ok := filter (fun s => PrimFloat.eqb (round_decimal false s (n - k)) x)
                   (candidates num den n k) in
  match ok, fuel with
  | s :: _, _ => (s, k)
  | [], S fuel' => shortest fuel' x num den n (k + 1)
  | [], O => (0, k)%Z
  end.

Definition zeros (n : Z) : string := of_chars (repeat "0"%char (Z.to_nat n)).

(** [Number::toString(x)] in radix 10, for a finite [x > 0] whose
    shortest digits are [digits] ([k] of them) with the decimal point
    after the [n]th. *)
Definition format_decimal (digits : string) (k n : Z) : string :=
  if (k <=? n)%Z && (n <=? 21)%Z then digits ++ zeros (n - k)
  else if (0 <? n)%Z && (n <=? 21)%Z then
    substring 0 (Z.to_nat n) digits ++ "." ++
    substring (Z.to_nat n) (Z.to_nat (k - n)) digits
  else if (-6 <? n)%Z && (n <=? 0)%Z then "0." ++ zeros (- n) ++ digits
  else
    let e := (n - 1)%Z in
    let sign := if (e <? 0)%Z then "-" else "+" in
    let mant := if (k =? 1)%Z then digits
                else substring 0 1 digits ++ "." ++
                     substring 1 (Z.to_nat (k - 1)) digits in
    mant ++ "e" ++ sign ++ string_of_Z (Z.abs e).

Definition NumberToString (x : number) : string :=
  match Prim2SF x with
  | S754_nan => "NaN"
  | S754_zero _ => "0"
  | S754_infinity s => if s then "-Infinity" else "Infinity"
  | S754_finite s m e =>
      let num := (if (0 <=? e) then Zpos m * 2 ^ e else Zpos m)%Z in
      let den := (if (0 <=? e) then 1 else 2 ^ (- e))%Z in
      let n0 := decimal_exponent num den in
      let '(d, k) := shortest 17 (PrimFloat.abs x) num den n0 1 in
      (* a carry into a new leading digit moves the decimal point *)
      let '(d, n) := if (d =? 10 ^ k)%Z then (10 ^ (k - 1), n0 + 1)%Z
                     else (d, n0) in
      (if s then "-" else "") ++ format_decimal (string_of_Z d) k n
  end.

(** ** Conversions, truthiness, equality *)

(** [Number(v)] *)
Definition ToNumber (v : value) : number :=
  match v with
  | Undefined => NaN
  | Null => PrimFloat.zero
  | Bool b => if b then PrimFloat.one else PrimFloat.zero
  | Num n => n
  | Str s => StringToNumber s
  | Obj text => StringToNumber text
  end.

(** [String(v)], also the conversion inside a template literal. *)
Definition ToString (v : value) : string :=
  match v with
  | Undefined => "undefined"
  | Null => "null"
  | Bool b => if b then "true" else "false"
  | Num n => NumberToString n
  | Str s => s
  | Obj text => text
  end.

(** [ToBoolean]: what [!v], [v || w] and [filter(Boolean)] test. *)
Definition truthy (v : value) : bool :=
  match v with
  | Undefined | Null => false
  | Bool b => b
  | Num n => negb (PrimFloat.is_nan n || PrimFloat.is_zero n)
  | Str s => negb (String.eqb s "")
  | Obj _ => true
  end.

(** [n || 0] on a number *)
Definition or_zero (n : number) : number :=
  if truthy (Num n) then n else PrimFloat.zero.

(** [v === w].  Two objects are equal when they are the same object,
    which a request body and a sheet never share. *)
Definition strict_eq (v w : value) : bool :=
  match v, w with
  | Undefined, Undefined => true
  | Null, Null => true
  | Bool a, Bool b => Bool.eqb a b
  | Num a, Num b => PrimFloat.eqb a b
  | Str a, Str b => String.eqb a b
  | _, _ => false
  end.

Definition is_number (v : value) : bool :=
  match v with Num _ => true | _ => false end.

Definition is_string (v : value) : bool :=
  match v with Str _ => true | _ => false end.

(** [v + w]: concatenation as soon as one side is a string (or an
    object, whose primitive is its text), addition of numbers otherwise. *)
Definition plus (v w : value) : value :=
  match v, w with
  | (Str _ | Obj _), _ | _, (Str _ | Obj _) => Str (ToString v ++ ToString w)
  | _, _ => Num (PrimFloat.add (ToNumber v) (ToNumber w))
  end.

(** ** Arrays *)

(** An array may have holes (a sheet row has one for each empty cell):
    an element is [None] for a hole. *)
Definition array := list (option value).

(** [a[i]] *)
Definition get (a : array) (i : nat) : value :=
  match nth_error a i with
  | Some (Some v) => v
  | _ => Undefined
  end.

(** [a.indexOf(v)]: strict equality, holes are skipped. *)
Fixpoint indexOf_from (a : array) (v : value) (i : nat) : option nat :=
  match a with
  | [] => None
  | Some w :: a' => if strict_eq w v then Some i else indexOf_from a' v (S i)
  | None :: a' => indexOf_from a' v (S i)
  end.

Definition indexOf (a : array) (v : value) : option nat := indexOf_from a v 0.

(** [a.map((x, i) => f x i)] on a sparse array: holes stay holes and
    the callback is not run for them. *)
Fixpoint mapi_from {B : Type} (f : value -> nat -> B) (a : array) (i : nat)
  : list (option B) :=
  match a with
  | [] => []
  | Some v :: a' => Some (f v i) :: mapi_from f a' (S i)
  | None :: a' => None :: mapi_from f a' (S i)
  end.

Definition mapi {B : Type} (f : value -> nat -> B) (a : array) : list (option B) :=
  mapi_from f a 0.

(** [a.filter(p)] on a sparse array: holes are dropped. *)
Fixpoint filter_present {B : Type} (p : B -> bool) (a : list (option B)) : list B :=
  match a with
  | [] => []
  | Some b :: a' => if p b then b :: filter_present p a' else filter_present p a'
  | None :: a' => filter_present p a'
  end.

(** [a.slice(0, n)] on a dense list *)
Definition slice0 {A : Type} (n : nat) (l : list A) : list A := firstn n l.

(** ** Ordinary objects used as dictionaries *)

(** The own properties of an object literal, in creation order. *)
Definition object := list (string * value).

Fixpoint own (o : object) (k : string) : option value :=
  match o with
  | [] => None
  | (k', v) :: o' => if String.eqb k' k then Some v else own o' k
  end.

(** What an object literal inherits from [Object.prototype]: reading
    [o[k]] finds these when [o] has no own [k].  Each is a function,
    kept as the text V8 converts it to; [__proto__] reads as the
    prototype object itself. *)
Definition inherited_methods : list string :=
  [ "__defineGetter__"; "__defineSetter__"; "hasOwnProperty";
    "__lookupGetter__"; "__lookupSetter__"; "isPrototypeOf";
    "propertyIsEnumerable"; "toString"; "valueOf"; "toLocaleString" ].

Definition native (name : string) : value :=
  Obj ("function " ++ name ++ "() { [native code] }").

Definition inherited (k : string) : option value :=
  if String.eqb k "constructor" then Some (native "Object")
  else if String.eqb k "__proto__" then Some (Obj "[object Object]")
  else if existsb (String.eqb k) inherited_methods then Some (native k)
  else None.

(** [o[k]] *)
Definition lookup (o : object) (k : string) : value :=
  match own o k with
  | Some v => v
  | None => match inherited k with
            | Some v => v
            | None => Undefined
            end
  end.

Fixpoint put (o : object) (k : string) (v : value) : object :=
  match o with
  | [] => [(k, v)]
  | (k', v') :: o' => if String.eqb k' k then (k', v) :: o'
                      else (k', v') :: put o' k v
  end.

(** [o[k] = v].  [__proto__] is an accessor of the prototype: its
    setter ignores a primitive, and no own property is created. *)
Definition assign (o : object) (k : string) (v : value) : object :=
  if String.eqb k "__proto__" then o else put o k v.

(** An array index: the canonical decimal form of an integer below
    [2^32 - 1]. *)
Definition array_index (k : string) : option N :=
  match read_digits 10 (chars k) 0 0 with
  | (n, S _, []) =>
      if String.eqb (string_of_Z n) k && (n <=? 4294967294)%Z
      then Some (Z.to_N n) else None
  | _ => None
  end.

Fixpoint insert_index {A : Type} (i : N) (a : A) (l : list (N * A)) : list (N * A) :=
  match l with
  | [] => [(i, a)]
  | (j, b) :: l' => if (i <? j)%N then (i, a) :: l
                    else (j, b) :: insert_index i a l'
  end.

Fixpoint index_entries (o : object) : list (N * (string * value)) :=
  match o with
  | [] => []
  | (k, v) :: o' =>
      match array_index k with
      | Some i => insert_index i (k, v) (index_entries o')
      | None => index_entries o'
      end
  end.

Definition is_index_key (kv : string * value) : bool :=
  match array_index (fst kv) with Some _ => true | None => false end.

(** The own properties in the order [Object.keys] and [Object.values]
    visit them: array indices by ascending value, then the other
    keys in creation order. *)
Definition entries (o : object) : list (string * value) :=
  map snd (index_entries o) ++ filter (fun kv => negb (is_index_key kv)) o.

(** [Object.keys(o)] *)
Definition keys (o : object) : list string := map fst (entries o).

(** [Object.values(o)] *)
Definition values (o : object) : list value := map snd (entries o).

End JS.

(* ================================================================== *)
(** * Column classification and chart synthesis *)
(* ================================================================== *)

Module Synth.

Import JS.
Local Open Scope string_scope.

(** What [XLSX.utils.sheet_to_json(sheet, { header: 1 })] returns for
    the first sheet: one array per row, the header row first. *)
Definition sheet := list array.

(** [val !== null && val !== undefined && val !== ''] *)
Definition present (val : value) : bool :=
  negb (strict_eq val Null) && negb (strict_eq val Undefined)
  && negb (strict_eq val (Str "")).

(** [json.slice(1).filter(row => row && row.length > 0)] *)
Definition dataRows (json : sheet) : list array :=
  filter (fun row => (0 <? List.length row)%nat) (skipn 1 json).

(** ** The column classifier ([columnAnalysis] of [POST /autogen]) *)

Inductive columnType := empty | numeric | categorical.

Definition columnType_eqb (a b : columnType) : bool :=
  match a, b with
  | empty, empty | numeric, numeric | categorical, categorical => true
  | _, _ => false
  end.

Record column := {
  index : nat;
  header : value;
  numericCount : option nat;
  stringCount : option nat;
  totalValues : option nat;
  hasData : bool;
  type : columnType
}.

(** [typeof val === 'number' || !isNaN(Number(val))] *)
Definition countsAsNumeric (val : value) : bool :=
  is_number val || negb (isNaN (ToNumber val)).

(** [typeof val === 'string' && isNaN(Number(val))] *)
Definition countsAsString (val : value) : bool :=
  is_string val && isNaN (ToNumber val).

(** [rows.map(row => row[index]).filter(val => ...)] *)
Definition columnValues (rows : list array) (index : nat) : list value :=
  filter present (map (fun row => get row index) rows).

(** The callback of [headers.map((header, index) => ...)]. *)
Definition analyse (rows : list array) (header : value) (index : nat) : column :=
  let values := columnValues rows index in
  if (List.length values =? 0)%nat then
    {| index := index; header := header;
       numericCount := None; stringCount := None; totalValues := None;
       hasData := false; type := empty |}
  else
    let numericCount := List.length (filter countsAsNumeric values) in
    let stringCount := List.length (filter countsAsString values) in
    {| index := index; header := header;
       numericCount := Some numericCount;
       stringCount := Some stringCount;
       totalValues := Some (List.length values);
       hasData := (0 <? List.length values)%nat;
       type := if (stringCount <? numericCount)%nat then numeric else categorical |}.

Definition columnAnalysis (headers : array) (rows : list array) : list (option column) :=
  mapi (analyse rows) headers.

Definition categoricalColumns (analysis : list (option column)) : list column :=
  filter_present (fun col => columnType_eqb (type col) categorical && hasData col) analysis.

Definition numericColumns (analysis : list (option column)) : list column :=
  filter_present (fun col => columnType_eqb (type col) numeric && hasData col) analysis.

(** ** Data cleaning *)

Record point := { x : value; y : number }.

Definition autogenCap : nat := 20.
Definition manualCap : nat := 50.

(** [cleanData] of [POST /autogen] *)
Definition cleanDataAuto (rows : list array) (xIndex yIndex : nat) : list point :=
  slice0 autogenCap
    (filter (fun item => present (x item) && negb (isNaN (y item)))
       (map (fun row => {| x := get row xIndex;
                           y := or_zero (ToNumber (get row yIndex)) |}) rows)).

Definition isPieLike (chartType : string) : bool :=
  String.eqb chartType "pie" || String.eqb chartType "doughnut".

(** [cleanData] of [POST /] *)
Definition cleanDataManual (chartType : string) (rows : list array) (xIdx yIdx : nat)
  : list point :=
  slice0 manualCap
    (filter (fun item =>
               let hasValidX := present (x item) in
               let hasValidY := negb (isNaN (y item))
                                && negb (strict_eq (Num (y item)) Null) in
               hasValidX && hasValidY)
       (map (fun row => {| x := get row xIdx;
                           y := if isPieLike chartType
                                then or_zero (ToNumber (get row yIdx))
                                else or_zero (ToNumber (get row yIdx)) |}) rows)).

(** ** Chart configurations *)

Inductive colour :=
| One (c : string)
| Each (cs : list string).

Record dataset := {
  label : value;
  data : list value;
  backgroundColor : colour;
  borderColor : colour;
  borderWidth : number;
  fill : value
}.

Record chartConfig := {
  labels : list value;
  datasets : list dataset
}.

Definition blue50 := "rgba(53, 162, 235, 0.5)".
Definition blue := "rgba(53, 162, 235, 1)".
Definition red50 := "rgba(255, 99, 132, 0.5)".
Definition red := "rgba(255, 99, 132, 1)".

(** [chartConfig] of [POST /autogen] *)
Definition autogenConfig (yHeader : value) (cleanData : list point) : chartConfig :=
  {| labels := map (fun item => Str (ToString (x item))) cleanData;
     datasets :=
       [ {| label := if truthy yHeader then yHeader else Str "Values";
            data := map (fun item => Num (y item)) cleanData;
            backgroundColor := One blue50;
            borderColor := One blue;
            borderWidth := PrimFloat.one;
            fill := Undefined |} ] |}.

(** [cleanData.reduce((acc, item) => { ... }, {})] *)
Definition aggregatedData (cleanData : list point) : object :=
  fold_left
    (fun acc item =>
       let key := ToString (x item) in
       let seen := lookup acc key in
       assign acc key (plus (if truthy seen then seen else Num PrimFloat.zero)
                            (Num (y item))))
    cleanData [].

Definition colors : list string :=
  [ "rgba(255, 99, 132, 0.5)"; "rgba(54, 162, 235, 0.5)";
    "rgba(255, 206, 86, 0.5)"; "rgba(75, 192, 192, 0.5)";
    "rgba(153, 102, 255, 0.5)"; "rgba(255, 159, 64, 0.5)";
    "rgba(255, 99, 255, 0.5)"; "rgba(99, 255, 132, 0.5)" ].

(** The two branches of [chartConfig] in [POST /]. *)
Definition manualConfig (chartType : string) (yHeader : value) (cleanData : list point)
  : chartConfig :=
  if isPieLike chartType then
    let aggregated := aggregatedData cleanData in
    {| labels := map Str (keys aggregated);
       datasets :=
         [ {| label := yHeader;
              data := values aggregated;
              backgroundColor :=
                Each (slice0 (List.length (keys aggregated)) colors);
              borderColor :=
                Each (slice0 (List.length (keys aggregated))
                        (map (fun color => replace color "0.5" "1") colors));
              borderWidth := PrimFloat.one;
              fill := Undefined |} ] |}
  else
    {| labels := map (fun item => Str (ToString (x item))) cleanData;
       datasets :=
         [ {| label := yHeader;
              data := map (fun item => Num (y item)) cleanData;
              backgroundColor := One (if String.eqb chartType "bar" then blue50 else red50);
              borderColor := One (if String.eqb chartType "bar" then blue else red);
              borderWidth := PrimFloat.one;
              fill := if String.eqb chartType "line" then Bool false else Undefined |} ] |}.

(** [numericIndices] of [POST /upload]: the columns whose cell in the
    first data row is a number. *)
Definition numericIndices (headers : array) (rows : list array) : list nat :=
  filter (fun i => is_number (get (nth 0 rows []) i)) (seq 0 (List.length headers)).

Definition pieColors : list string :=
  [ "rgba(255, 99, 132, 0.5)"; "rgba(54, 162, 235, 0.5)";
    "rgba(255, 206, 86, 0.5)"; "rgba(75, 192, 192, 0.5)";
    "rgba(153, 102, 255, 0.5)"; "rgba(255, 159, 64, 0.5)" ].

(** [chartConfig] of [POST /upload] *)
Definition uploadConfig (chartType : string) (headers : array) (rows : list array)
  (xIdx yIdx : nat) : chartConfig :=
  if String.eqb chartType "pie" then
    {| labels := map (fun r => get r xIdx) rows;
       datasets :=
         [ {| label := get headers yIdx;
              data := map (fun r => get r yIdx) rows;
              backgroundColor := Each pieColors;
              borderColor :=
                Each [ "rgba(255, 99, 132, 1)"; "rgba(54, 162, 235, 1)";
                       "rgba(255, 206, 86, 1)"; "rgba(75, 192, 192, 1)";
                       "rgba(153, 102, 255, 1)"; "rgba(255, 159, 64, 1)" ];
              borderWidth := PrimFloat.one;
              fill := Undefined |} ] |}
  else
    {| labels := map (fun r => get r xIdx) rows;
       datasets :=
         [ {| label := get headers yIdx;
              data := map (fun r => get r yIdx) rows;
              backgroundColor := One (if String.eqb chartType "bar" then blue50 else red50);
              borderColor := One (if String.eqb chartType "bar" then blue else red);
              borderWidth := PrimFloat.one;
              fill := if String.eqb chartType "line" then Bool false else Undefined |} ] |}.

(** [labels.length], and [datasets[0].data.length] (0 without a dataset). *)
Definition labelCount (c : chartConfig) : nat := List.length (labels c).
Definition dataCount (c : chartConfig) : nat :=
  match datasets c with
  | d :: _ => List.length (data d)
  | [] => 0
  end.

End Synth.

(* ================================================================== *)
(** * The document store *)
(* ================================================================== *)

Module Store.

Import JS Synth.
Local Open Scope string_scope.

Definition id := nat.

(** [fileSchema], which the sources give after the chart schema in
    [backend/models/Chart.js]: the fields the routes set, all of them
    required.  [save] on a new record inserts it. *)
Record File := {
  file_id : id;
  filename : string;
  originalName : string;
  mimetype : string;
  size : nat;
  path : string;
  uploadedBy : id
}.

(** [chartSchema] of [backend/models/Chart.js], the fields the routes set. *)
Record Chart := {
  chart_id : id;
  title : string;
  description : option string;
  chartType : string;
  config : chartConfig;
  sourceFile : id;
  createdBy : id;
  isPublic : bool;
  tags : list value
}.

Definition chartTypes : list string :=
  [ "bar"; "line"; "pie"; "doughnut"; "scatter"; "area";
    "column"; "histogram"; "bubble"; "radar"; "polar";
    "funnel"; "waterfall"; "heatmap"; "treemap" ].

(** The validators of [chartSchema]: [title] is required and at most
    100 characters once trimmed, [description] at most 500, [chartType]
    required and one of the enumeration.  [chartConfig], [sourceFile]
    and [createdBy] are required too; every route sets them. *)
Definition valid (c : Chart) : bool :=
  let t := trim (title c) in
  negb (String.eqb t "") && (String.length t <=? 100)%nat
  && match description c with
     | Some d => (String.length d <=? 500)%nat
     | None => true
     end
  && existsb (String.eqb (chartType c)) chartTypes.

(** The cast of an element of [tags: [String]]: [null] and [undefined]
    are kept, a string, a number or a boolean becomes its string (a
    number as [String] writes it).  No object comes here: the routes
    take the tags from literals, from the headers of a sheet and from
    request columns that [indexOf] has found among the headers. *)
Definition castString (v : value) : value :=
  match v with
  | Null => Null
  | Undefined => Undefined
  | _ => Str (ToString v)
  end.

(** The stored document: the [trim] setter has run on the title and
    the tags are cast to strings. *)
Definition stored (c : Chart) : Chart :=
  {| chart_id := chart_id c; title := trim (title c);
     description := description c; chartType := chartType c;
     config := config c; sourceFile := sourceFile c;
     createdBy := createdBy c; isPublic := isPublic c;
     tags := map castString (tags c) |}.

(** The two collections, the upload directory and the source of fresh
    identifiers.  A path of the directory holds what the spreadsheet
    reader makes of the bytes there: the rows of the first sheet, or
    [None] when they are no workbook. *)
Record db := {
  files : list File;
  charts : list Chart;
  disk : list (string * option sheet);
  nextId : id
}.

Definition emptyDb : db := {| files := []; charts := []; disk := []; nextId := 0 |}.

(** ** Handlers run in a state monad with exceptions *)

Inductive result (A : Type) :=
| Ok (a : A)
| Throw (err : string).

Arguments Ok {A} a.
Arguments Throw {A} err.

Definition M (A : Type) := db -> result A * db.

Definition ret {A : Type} (a : A) : M A := fun st => (Ok a, st).

Definition throw {A : Type} (err : string) : M A := fun st => (Throw err, st).

Definition bind {A B : Type} (m : M A) (k : A -> M B) : M B :=
  fun st => match m st with
            | (Ok a, st') => k a st'
            | (Throw err, st') => (Throw err, st')
            end.

(** [try { m } catch (err) { h err }] *)
Definition try_catch {A : Type} (m : M A) (h : string -> M A) : M A :=
  fun st => match m st with
            | (Ok a, st') => (Ok a, st')
            | (Throw err, st') => h err st'
            end.

Declare Scope monad_scope.
Delimit Scope monad_scope with monad.
Notation "x <- m ;; k" := (bind m (fun x => k))
  (at level 61, m at next level, right associativity) : monad_scope.
Notation "m ;; k" := (bind m (fun _ => k))
  (at level 61, right associativity) : monad_scope.

Local Open Scope monad_scope.

(** [for (const a of l) { acc = body a acc }] *)
Fixpoint forEach {A B : Type} (l : list A) (body : A -> B -> M B) (acc : B) : M B :=
  match l with
  | [] => ret acc
  | a :: l' => acc' <- body a acc ;; forEach l' body acc'
  end.

(** The identifier of a document under construction. *)
Definition newId : M id :=
  fun st => (Ok (nextId st),
             {| files := files st; charts := charts st; disk := disk st;
                nextId := S (nextId st) |}).

(** [File.find(filter)] *)
Definition findFiles (p : File -> bool) : M (list File) :=
  fun st => (Ok (filter p (files st)), st).

(** [File.findById(id)] for an identifier that casts to an ObjectId;
    the cast of the string a request carries, which throws when it
    fails, is [Rest.castObjectId]. *)
Definition findFileById (i : id) : M (option File) :=
  fun st => (Ok (find (fun f => (file_id f =? i)%nat) (files st)), st).

(** [Chart.findOne(filter)] *)
Definition findOneChart (p : Chart -> bool) : M (option Chart) :=
  fun st => (Ok (find p (charts st)), st).

(** [file.save()] on a new record *)
Definition saveFile (f : File) : M unit :=
  fun st => (Ok tt,
             {| files := files st ++ [f]; charts := charts st; disk := disk st;
                nextId := nextId st |}).

(** [chart.save()] on a new record: validation, then the insertion. *)
Definition saveChart (c : Chart) : M Chart :=
  fun st =>
    if valid c then
      (Ok (stored c),
       {| files := files st; charts := charts st ++ [stored c]; disk := disk st;
          nextId := nextId st |})
    else (Throw "Chart validation failed", st).

(** [File.findByIdAndDelete(id)] *)
Definition deleteFileById (i : id) : M unit :=
  fun st => (Ok tt,
             {| files := filter (fun f => negb (file_id f =? i)%nat) (files st);
                charts := charts st; disk := disk st; nextId := nextId st |}).

(** [Chart.deleteMany(filter)] *)
Definition deleteManyCharts (p : Chart -> bool) : M unit :=
  fun st => (Ok tt,
             {| files := files st;
                charts := filter (fun c => negb (p c)) (charts st);
                disk := disk st; nextId := nextId st |}).

Fixpoint onDisk (d : list (string * option sheet)) (p : string) : option (option sheet) :=
  match d with
  | [] => None
  | (q, w) :: d' => if String.eqb q p then Some w else onDisk d' p
  end.

(** [XLSX.readFile(path)], then the first sheet through [sheet_to_json]:
    throws when there is no such file or it is no workbook. *)
Definition readSheet (p : string) : M sheet :=
  fun st => match onDisk (disk st) p with
            | Some (Some json) => (Ok json, st)
            | _ => (Throw "Cannot read workbook", st)
            end.

(** The upload middleware writing the received bytes. *)
Definition writeDisk (p : string) (w : option sheet) : M unit :=
  fun st => (Ok tt,
             {| files := files st; charts := charts st;
                disk := (p, w) :: disk st; nextId := nextId st |}).

(** [if (fs.existsSync(p)) fs.unlinkSync(p)] *)
Definition unlinkIfExists (p : string) : M unit :=
  fun st => (Ok tt,
             {| files := files st; charts := charts st;
                disk := filter (fun e => negb (String.eqb (fst e) p)) (disk st);
                nextId := nextId st |}).

End Store.

(* ================================================================== *)
(** * The request handlers *)
(* ================================================================== *)

Module Routes.

Import JS Synth Store.
Local Open Scope string_scope.
Local Open Scope monad_scope.

Inductive body :=
| Message (message : string)
| AutogenBody (message : string) (created : nat) (details : list (string * id))
| ChartBody (message : string) (chart : Chart)
| FileBody (message : string) (file : File).

Record response := { status : nat; json : body }.

Definition respond (status : nat) (b : body) : M response :=
  ret {| status := status; json := b |}.

(** ** [POST /autogen] in [routes/charts.js] *)

(** One turn of the loop over the user's files: the chart created for
    [file], if any. *)
Definition autogenFile (user : id) (file : File) : M (option Chart) :=
  existing <- findOneChart (fun c => (sourceFile c =? file_id file)%nat
                                     && (createdBy c =? user)%nat) ;;
  match existing with
  | Some _ => ret None
  | None =>
    if negb (includes (mimetype file) "excel")
       && negb (includes (mimetype file) "spreadsheetml")
    then ret None
    else
      try_catch
        (json <- readSheet (path file) ;;
         if (List.length json <? 2)%nat then ret None
         else
           let headers := nth 0 json [] in
           let rows := dataRows json in
           if (List.length rows =? 0)%nat then ret None
           else
             let analysis := columnAnalysis headers rows in
             match categoricalColumns analysis, numericColumns analysis with
             | xColumn :: _, yColumn :: _ =>
                 let cleanData := cleanDataAuto rows (index xColumn) (index yColumn) in
                 if (List.length cleanData =? 0)%nat then ret None
                 else
                   let chartConfig := autogenConfig (header yColumn) cleanData in
                   i <- newId ;;
                   chart <- saveChart
                     {| chart_id := i;
                        title := originalName file ++ " - " ++ ToString (header yColumn)
                                 ++ " by " ++ ToString (header xColumn);
                        description := Some ("Auto-generated bar chart from "
                                             ++ originalName file);
                        chartType := "bar";
                        config := chartConfig;
                        sourceFile := file_id file;
                        createdBy := user;
                        isPublic := false;
                        tags := filter truthy [header xColumn; header yColumn] |} ;;
                   ret (Some chart)
             | _, _ => ret None
             end)
        (fun err => ret None)
  end.

Definition autogenLoop (user : id) (files : list File) : M (list Chart) :=
  forEach files
    (fun file createdCharts =>
       made <- autogenFile user file ;;
       ret match made with
           | Some chart => (createdCharts ++ [chart])%list
           | None => createdCharts
           end)
    [].

Definition autogen (user : id) : M response :=
  try_catch
    (files <- findFiles (fun f => (uploadedBy f =? user)%nat) ;;
     createdCharts <- autogenLoop user files ;;
     respond 201 (AutogenBody "Auto-generated charts"
                    (List.length createdCharts)
                    (map (fun chart => (title chart, chart_id chart)) createdCharts)))
    (fun error => respond 500 (Message "Server error during chart auto-generation")).

(** ** [POST /] in [routes/charts.js] *)

Record chartRequest := {
  req_title : string;
  req_description : option string;
  req_chartType : string;
  req_sourceFile : option id;
  req_xColumn : value;
  req_yColumn : value
}.

Definition createChart (user : id) (req : chartRequest) : M response :=
  try_catch
    (match req_sourceFile req with
     | None => respond 400 (Message "Missing required fields")
     | Some sourceFile =>
       if negb (truthy (Str (req_title req))) || negb (truthy (Str (req_chartType req)))
          || negb (truthy (req_xColumn req)) || negb (truthy (req_yColumn req))
       then respond 400 (Message "Missing required fields")
       else
         found <- findFileById sourceFile ;;
         match found with
         | None => respond 404 (Message "File not found or access denied")
         | Some file =>
           if negb (uploadedBy file =? user)%nat
           then respond 404 (Message "File not found or access denied")
           else
             json <- readSheet (path file) ;;
             if (List.length json <? 2)%nat
             then respond 400 (Message "File does not contain enough data")
             else
               let headers := nth 0 json [] in
               let rows := dataRows json in
               if (List.length rows =? 0)%nat
               then respond 400 (Message "File contains no valid data rows")
               else
                 match indexOf headers (req_xColumn req),
                       indexOf headers (req_yColumn req) with
                 | Some xIdx, Some yIdx =>
                     let cleanData :=
                       cleanDataManual (req_chartType req) rows xIdx yIdx in
                     if (List.length cleanData =? 0)%nat
                     then respond 400
                            (Message "No valid data points found with selected columns")
                     else
                       let chartConfig :=
                         manualConfig (req_chartType req) (get headers yIdx) cleanData in
                       i <- newId ;;
                       chart <- saveChart
                         {| chart_id := i;
                            title := req_title req;
                            description := req_description req;
                            chartType := req_chartType req;
                            config := chartConfig;
                            sourceFile := file_id file;
                            createdBy := user;
                            isPublic := false;
                            tags := [req_xColumn req; req_yColumn req] |} ;;
                       respond 201 (ChartBody "Chart created" chart)
                 | _, _ => respond 400 (Message "Selected columns not found in file")
                 end
         end
     end)
    (fun error => respond 500 (Message "Server error during chart creation")).

(** ** [POST /upload] in [routes/files.js] *)

(** What the upload middleware receives: the name and media type the
    client sent, the size, the bytes (as the spreadsheet reader will see
    them) and the suffix drawn for the stored name. *)
Record incoming := {
  originalname : string;
  in_mimetype : string;
  in_size : nat;
  bytes : option sheet;
  uniqueSuffix : string
}.

(** [req.file] *)
Record uploaded := {
  up_filename : string;
  up_originalname : string;
  up_mimetype : string;
  up_size : nat;
  up_path : string
}.

Definition lower (a : ascii) : ascii :=
  let n := code a in
  if (65 <=? n)%nat && (n <=? 90)%nat
     || (192 <=? n)%nat && (n <=? 222)%nat && negb (n =? 215)%nat
  then ascii_of_nat (n + 32) else a.

(** [s.toLowerCase()] *)
Definition toLowerCase (s : string) : string := of_chars (map lower (chars s)).

(** The scan of [path.extname], from the last character down:
    [startDot], [end] and [startPart] are positions, [preDotState] is
    0 while only dots were seen after the extension's dot, 1 once a
    second dot is seen right then, and 2 (for the source's -1) after
    any other character. *)
Record extScan := {
  startDot : option nat;
  endPos : option nat;
  startPart : nat;
  matchedSlash : bool;
  preDotState : nat;
  stopped : bool
}.

Definition extStep (s : extScan) (ic : nat * ascii) : extScan :=
  let '(i, c) := ic in
  if stopped s then s
  else if Ascii.eqb c "/" then
    if negb (matchedSlash s)
    then {| startDot := startDot s; endPos := endPos s; startPart := i + 1;
            matchedSlash := matchedSlash s; preDotState := preDotState s;
            stopped := true |}
    else s
  else
    let e := match endPos s with None => Some (i + 1) | e => e end in
    if Ascii.eqb c "." then
      match startDot s with
      | None => {| startDot := Some i; endPos := e; startPart := startPart s;
                   matchedSlash := false; preDotState := preDotState s;
                   stopped := false |}
      | Some _ => {| startDot := startDot s; endPos := e; startPart := startPart s;
                     matchedSlash := false;
                     preDotState := if (preDotState s =? 1)%nat then preDotState s else 1;
                     stopped := false |}
      end
    else
      {| startDot := startDot s; endPos := e; startPart := startPart s;
         matchedSlash := false;
         preDotState := match startDot s with Some _ => 2 | None => preDotState s end;
         stopped := false |}.

(** [path.extname(p)] (POSIX) *)
Definition extname (p : string) : string :=
  let l := chars p in
  let s := fold_left extStep (rev (combine (seq 0 (List.length l)) l))
             {| startDot := None; endPos := None; startPart := 0;
                matchedSlash := true; preDotState := 0; stopped := false |} in
  match startDot s, endPos s with
  | Some d, Some e =>
      if (preDotState s =? 0)%nat
         || (preDotState s =? 1)%nat && (d =? e - 1)%nat && (d =? startPart s + 1)%nat
      then ""
      else substring d (e - d) p
  | _, _ => ""
  end.

Definition allowedMimeTypes : list string :=
  [ "application/vnd.openxmlformats-officedocument.spreadsheetml.sheet";
    "application/vnd.ms-excel" ].

(** [fileFilter] of the upload middleware; [/xlsx|xls/.test(ext)]. *)
Definition fileFilter (f : incoming) : bool :=
  let ext := toLowerCase (extname (originalname f)) in
  let extOk := includes ext "xlsx" || includes ext "xls" in
  let mimeOk := existsb (String.eqb (in_mimetype f)) allowedMimeTypes in
  extOk && mimeOk.

Definition uploadsDir : string := "backend/uploads".

(** The disk storage of the middleware: stored name and destination. *)
Definition store (f : incoming) : M uploaded :=
  let name := "excel" ++ "-" ++ uniqueSuffix f ++ extname (originalname f) in
  let p := uploadsDir ++ "/" ++ name in
  writeDisk p (bytes f) ;;
  ret {| up_filename := name; up_originalname := originalname f;
         up_mimetype := in_mimetype f; up_size := in_size f; up_path := p |}.

Definition uploadChartTypes : list string := [ "bar"; "line"; "pie" ].

(** The charts made right after an upload. *)
Definition uploadCharts (user : id) (file : File) : M unit :=
  json <- readSheet (path file) ;;
  if (2 <=? List.length json)%nat then
    let headers := nth 0 json [] in
    let rows := skipn 1 json in
    let numericIndices := numericIndices headers rows in
    if (2 <=? List.length numericIndices)%nat then
      let xIdx := nth 0 numericIndices 0 in
      let yIdx := nth 1 numericIndices 0 in
      forEach uploadChartTypes
        (fun chartType _ =>
           existing <- findOneChart (fun c => (sourceFile c =? file_id file)%nat
                                              && (createdBy c =? user)%nat
                                              && String.eqb (Store.chartType c) chartType) ;;
           match existing with
           | Some _ => ret tt
           | None =>
               let chartConfig := uploadConfig chartType headers rows xIdx yIdx in
               i <- newId ;;
               saveChart
                 {| chart_id := i;
                    title := originalName file ++ " - " ++ ToString (get headers yIdx)
                             ++ " vs " ++ ToString (get headers xIdx)
                             ++ " (" ++ chartType ++ ")";
                    description := Some ("Auto-generated " ++ chartType
                                         ++ " chart from " ++ originalName file);
                    chartType := chartType;
                    config := chartConfig;
                    sourceFile := file_id file;
                    createdBy := user;
                    isPublic := false;
                    tags := [get headers xIdx; get headers yIdx] |} ;;
               ret tt
           end)
        tt
    else ret tt
  else ret tt.

(** The handler, after the middleware. *)
Definition uploadHandler (user : id) (reqFile : option uploaded) : M response :=
  try_catch
    (match reqFile with
     | None => respond 400 (Message "No file uploaded")
     | Some f =>
         i <- newId ;;
         let file := {| file_id := i; filename := up_filename f;
                        originalName := up_originalname f;
                        mimetype := up_mimetype f; size := up_size f;
                        path := up_path f; uploadedBy := user |} in
         saveFile file ;;
         try_catch (uploadCharts user file) (fun chartGenErr => ret tt) ;;
         respond 201 (FileBody "File uploaded successfully" file)
     end)
    (fun error => respond 500 (Message "Server error during file upload")).

(** The whole route, for a file within the size limit of the
    middleware ([Rest.uploadRoute] adds the limit).  A file the filter
    refuses never reaches the handler: the middleware's error goes to
    the framework. *)
Definition upload (user : id) (f : option incoming) : M response :=
  match f with
  | None => uploadHandler user None
  | Some f =>
      if fileFilter f then reqFile <- store f ;; uploadHandler user (Some reqFile)
      else respond 500 (Message "Error: Only Excel files are allowed!")
  end.

(** ** [DELETE /:id] in [routes/files.js] *)

Definition deleteFile (user : id) (i : id) : M response :=
  try_catch
    (found <- findFileById i ;;
     match found with
     | None => respond 404 (Message "File not found or access denied")
     | Some file =>
         if negb (uploadedBy file =? user)%nat
         then respond 404 (Message "File not found or access denied")
         else
           unlinkIfExists (path file) ;;
           deleteFileById i ;;
           deleteManyCharts (fun c => (sourceFile c =? i)%nat) ;;
           respond 200 (Message "File deleted successfully")
     end)
    (fun error => respond 500 (Message "Server error during file deletion")).

(** The state a handler leaves, and its response. *)
Definition after {A : Type} (m : M A) (st : db) : db := snd (m st).
Definition answer {A : Type} (m : M A) (st : db) : result A := fst (m st).

End Routes.

(* ================================================================== *)
(** * Vocabulary of the properties *)
(* ================================================================== *)

Module Spec.

Import JS Synth Store Routes.
Local Open Scope string_scope.
Local Open Scope list_scope.

(** A cell is blank when it is [null], [undefined] or the empty string. *)
Definition blank (v : value) : bool :=
  match v with
  | Null | Undefined => true
  | Str s => match s with EmptyString => true | String _ _ => false end
  | _ => false
  end.

(** The point a row is turned into. *)
Definition pointOf (xIdx yIdx : nat) (row : array) : point :=
  {| x := get row xIdx; y := or_zero (ToNumber (get row yIdx)) |}.

(** The rows that survive cleaning: those whose X cell is not blank. *)
Definition keptRows (rows : list array) (xIdx : nat) : list array :=
  filter (fun row => negb (blank (get row xIdx))) rows.

(** The cells of column [index], one per data row. *)
Definition columnCells (rows : list array) (index : nat) : list value :=
  map (fun row => get row index) rows.

Fixpoint countIf {A : Type} (p : A -> bool) (l : list A) : nat :=
  match l with
  | [] => 0
  | a :: l' => (if p a then 1 else 0) + countIf p l'
  end.

(** The three tallies of a column: its cells that are not blank, those
    of them that parse as a number, those that are non-numeric strings. *)
Definition filledCells (rows : list array) (index : nat) : nat :=
  countIf (fun v => negb (blank v)) (columnCells rows index).

Definition numericCells (rows : list array) (index : nat) : nat :=
  countIf (fun v => negb (blank v) && countsAsNumeric v) (columnCells rows index).

Definition stringCells (rows : list array) (index : nat) : nat :=
  countIf (fun v => negb (blank v) && countsAsString v) (columnCells rows index).

(** ** The store *)

(** May [user] delete file [i]: it exists and is theirs. *)
Definition mayDelete (st : db) (user i : id) : bool :=
  match find (fun f => (file_id f =? i)%nat) (files st) with
  | Some file => (uploadedBy file =? user)%nat
  | None => false
  end.

(** [user] already has a chart on [file]. *)
Definition hasChart (cs : list Chart) (file user : id) : bool :=
  existsb (fun c => (sourceFile c =? file)%nat && (createdBy c =? user)%nat) cs.

(** The (file, user, chartType) tuple of a chart. *)
Definition tuple (c : Chart) : id * id * string :=
  (sourceFile c, createdBy c, chartType c).

(** The state once one more identifier is drawn, and once [c] is
    inserted under the identifier drawn for it. *)
Definition bump (st : db) : db :=
  {| files := files st; charts := charts st; disk := disk st; nextId := S (nextId st) |}.

Definition withChart (st : db) (c : Chart) : db :=
  {| files := files st; charts := charts st ++ [c]; disk := disk st;
     nextId := S (nextId st) |}.

(** ** Bulk auto-generation, file by file *)

Definition isExcel (file : File) : bool :=
  includes (mimetype file) "excel" || includes (mimetype file) "spreadsheetml".

(** Why a file yields no chart before anything is persisted. *)
Inductive failure :=
| ParseError
| NotEnoughRows
| NoDataRows
| NoUsableColumns
| NoValidPoints.

Inductive attempt (A : Type) :=
| Failed (why : failure)
| Built (a : A).

Arguments Failed {A} why.
Arguments Built {A} a.

(** The chart bulk auto-generation builds from a sheet, still waiting
    for its identifier. *)
Definition draft (user : id) (file : File) (json : sheet) : attempt (id -> Chart) :=
  if (List.length json <? 2)%nat then Failed NotEnoughRows
  else
    let headers := nth 0 json [] in
    let rows := dataRows json in
    if (List.length rows =? 0)%nat then Failed NoDataRows
    else
      let analysis := columnAnalysis headers rows in
      match categoricalColumns analysis, numericColumns analysis with
      | xColumn :: _, yColumn :: _ =>
          let cleanData := cleanDataAuto rows (index xColumn) (index yColumn) in
          if (List.length cleanData =? 0)%nat then Failed NoValidPoints
          else
            Built (fun i =>
              {| chart_id := i;
                 title := (originalName file ++ " - " ++ ToString (header yColumn)
                           ++ " by " ++ ToString (header xColumn))%string;
                 description := Some ("Auto-generated bar chart from "
                                      ++ originalName file)%string;
                 chartType := "bar";
                 config := autogenConfig (header yColumn) cleanData;
                 sourceFile := file_id file;
                 createdBy := user;
                 isPublic := false;
                 tags := filter truthy [header xColumn; header yColumn] |})
      | _, _ => Failed NoUsableColumns
      end.

(** The same from what is on disk at the file's path. *)
Definition synthesis (d : list (string * option sheet)) (user : id) (file : File)
  : attempt (id -> Chart) :=
  match onDisk d (path file) with
  | Some (Some json) => draft user file json
  | _ => Failed ParseError
  end.

(** A file fails on its own account: the workbook cannot be read, has
    fewer than two rows or no non-empty data row, offers no categorical
    and numeric column pair, or no data point survives cleaning. *)
Definition fileFailure (d : list (string * option sheet)) (user : id) (file : File)
  : option failure :=
  match synthesis d user file with
  | Failed why => Some why
  | Built _ => None
  end.

(** One turn of the loop, as a function of the state it starts in. *)
Definition turn (user : id) (file : File) (st : db) : option Chart * db :=
  if hasChart (charts st) (file_id file) user then (None, st)
  else if negb (isExcel file) then (None, st)
  else match synthesis (disk st) user file with
       | Failed _ => (None, st)
       | Built mk =>
           let c := mk (nextId st) in
           if valid c then (Some (stored c), withChart st (stored c))
           else (None, bump st)
       end.

Definition optionList {A : Type} (o : option A) : list A :=
  match o with
  | Some a => [a]
  | None => []
  end.

(** The loop over the files: the charts created, in order, and the
    state left. *)
Fixpoint turns (user : id) (files : list File) (st : db) : list Chart * db :=
  match files with
  | [] => ([], st)
  | file :: files' =>
      let made := turn user file st in
      let rest := turns user files' (snd made) in
      (optionList (fst made) ++ fst rest, snd rest)
  end.

(** The files of a user, as [File.find({ uploadedBy })] lists them. *)
Definition filesOf (st : db) (user : id) : list File :=
  filter (fun f => (uploadedBy f =? user)%nat) (files st).

(** The body of the response of [POST /autogen]. *)
Definition autogenReport (createdCharts : list Chart) : response :=
  {| status := 201;
     json := AutogenBody "Auto-generated charts" (List.length createdCharts)
               (map (fun chart => (title chart, chart_id chart)) createdCharts) |}.

(** No two charts of a list share their (file, user, chartType), and
    none shares it with a chart of [old]. *)
Definition freshTuples (old new : list Chart) : Prop :=
  NoDup (map tuple new) /\
  forall c, In c new -> ~ In (tuple c) (map tuple old).

(** The invariant of a chart configuration: there is a first dataset,
    and it has as many values as there are labels. *)
Definition balanced (c : Chart) : Prop :=
  exists d rest, datasets (config c) = d :: rest /\
                 List.length (labels (config c)) = List.length (data d).

(** From [st] to [st'] the chart collection only grew, by charts that
    satisfy [P]. *)
Definition grows (P : Chart -> Prop) (st st' : db) : Prop :=
  exists new : list Chart, charts st' = charts st ++ new /\ Forall P new.

(** ** Manual creation *)

(** The request names every required field. *)
Definition requiredFields (req : chartRequest) : bool :=
  truthy (Str (req_title req)) && truthy (Str (req_chartType req))
  && match req_sourceFile req with Some _ => true | None => false end
  && truthy (req_xColumn req) && truthy (req_yColumn req).

(** The file a request names, when it exists and is the caller's. *)
Definition fileOfRequest (st : db) (user : id) (req : chartRequest) : option File :=
  match req_sourceFile req with
  | Some i =>
      match find (fun f => (file_id f =? i)%nat) (files st) with
      | Some file => if (uploadedBy file =? user)%nat then Some file else None
      | None => None
      end
  | None => None
  end.

(** The rows of that file's first sheet, when the workbook can be read. *)
Definition sheetOfRequest (st : db) (user : id) (req : chartRequest) : option sheet :=
  match fileOfRequest st user req with
  | Some file =>
      match onDisk (disk st) (path file) with
      | Some (Some json) => Some json
      | _ => None
      end
  | None => None
  end.

(** One of the two columns of the request is not in the header row. *)
Definition columnMissing (headers : array) (req : chartRequest) : bool :=
  match indexOf headers (req_xColumn req), indexOf headers (req_yColumn req) with
  | Some _, Some _ => false
  | _, _ => true
  end.

(** A file from which bulk auto-generation can persist a chart. *)
Definition chartable (d : list (string * option sheet)) (user : id) (file : File) : bool :=
  isExcel file &&
  match synthesis d user file with
  | Built mk => valid (mk 0)
  | Failed _ => false
  end.

(** From [st] to [st'] the chart collection only grew, by charts that
    satisfy [P] and bring new (file, user, chartType) tuples. *)
Definition addsTo (P : Chart -> Prop) (st st' : db) : Prop :=
  exists new : list Chart,
    charts st' = charts st ++ new /\ freshTuples (charts st) new /\ Forall P new.

(** A chart made at upload: of the uploader, on the uploaded file. *)
Definition uploadMade (user file : id) (c : Chart) : Prop :=
  balanced c /\ createdBy c = user /\ sourceFile c = file.

(** ** Aggregation by label *)

(** The label of a cleaned row. *)
Definition labelOf (item : point) : string := ToString (x item).

(** The distinct elements of a list, each at its first appearance. *)
Fixpoint firstAppearance (l : list string) : list string :=
  match l with
  | [] => []
  | a :: l' => a :: filter (fun b => negb (String.eqb b a)) (firstAppearance l')
  end.

(** The Y values of the cleaned rows that carry label [l], in row order. *)
Definition group (l : string) (cleanData : list point) : list number :=
  map y (filter (fun item => String.eqb (labelOf item) l) cleanData).

(** The sum of a group as the reduction forms it: from the left, in
    double precision, a running total that is 0 or [NaN] counting as 0. *)
Definition runningTotal (ys : list number) : number :=
  fold_left (fun acc y => PrimFloat.add (or_zero acc) y) ys PrimFloat.zero.

(** The plain sum from the left, and a number that [|| 0] leaves as
    it is: any number but [NaN] and negative zero. *)
Definition sumFromLeft (ys : list number) : number :=
  fold_left PrimFloat.add ys PrimFloat.zero.

Definition steady (n : number) : Prop := or_zero n = n.

(** One entry per distinct label, in order of first appearance. *)
Definition byLabel (cleanData : list point) : object :=
  map (fun l => (l, Num (runningTotal (group l cleanData))))
      (firstAppearance (map labelOf cleanData)).

(** A label that reads as an array index, and its value. *)
Definition isIndex (l : string) : bool :=
  match array_index l with Some _ => true | None => false end.

Definition indexValue (l : string) : N :=
  match array_index l with Some i => i | None => 0%N end.

(** Entries paired with an index, compared by the index. *)
Definition byIndex {A : Type} (e1 e2 : N * A) : Prop := (fst e1 < fst e2)%N.

(** The rejection of [POST /] for a column that is not in the header row. *)
Definition columnNotFound : response :=
  {| status := 400; json := Message "Selected columns not found in file" |}.

(** ** The worked example of the specification *)

Definition citySales : sheet :=
  [ [Some (Str "City"); Some (Str "Sales")];
    [Some (Str "NY"); Some (Num 100%float)];
    [Some (Str "LA"); Some (Num 200%float)];
    [Some (Str "NY"); Some (Num 50%float)] ].

(** Identifiers in use are below the next one to be drawn. *)
Definition wellFormed (st : db) : Prop :=
  (forall f, In f (files st) -> file_id f < nextId st) /\
  (forall c, In c (charts st) -> sourceFile c < nextId st).

(** The charts of the store on a given file. *)
Definition chartsOn (st : db) (file : id) : list Chart :=
  filter (fun c => (sourceFile c =? file)%nat) (charts st).

(** The name and the path under which the middleware stores an upload,
    and the record the handler then saves, [i] being its identifier. *)
Definition storedName (f : incoming) : string :=
  ("excel" ++ "-" ++ uniqueSuffix f ++ extname (originalname f))%string.

Definition storedPath (f : incoming) : string :=
  (uploadsDir ++ "/" ++ storedName f)%string.

Definition fileRecord (user : id) (f : incoming) (i : id) : File :=
  {| file_id := i; filename := storedName f; originalName := originalname f;
     mimetype := in_mimetype f; size := in_size f; path := storedPath f;
     uploadedBy := user |}.

(** ** Sample data *)

Definition excelType : string := "application/vnd.ms-excel".

(** An upload of the sheet of the example. *)
Definition salesUpload : incoming :=
  {| originalname := "sales.xlsx"; in_mimetype := excelType; in_size := 2048;
     bytes := Some citySales; uniqueSuffix := "1718000000000-104729" |}.

(** An upload whose bytes are no workbook. *)
Definition brokenUpload : incoming :=
  {| originalname := "broken.xlsx"; in_mimetype := excelType; in_size := 12;
     bytes := None; uniqueSuffix := "1718000000001-224737" |}.

(** A second good upload. *)
Definition regionUpload : incoming :=
  {| originalname := "regions.xlsx"; in_mimetype := excelType; in_size := 1536;
     bytes := Some [ [Some (Str "Region"); Some (Str "Units")];
                     [Some (Str "North"); Some (Str "12.5")];
                     [Some (Str "South"); Some (Num 7%float)] ];
     uniqueSuffix := "1718000000002-350377" |}.

(** Two numeric columns, the same X value on both rows. *)
Definition numbersUpload : incoming :=
  {| originalname := "numbers.xlsx"; in_mimetype := excelType; in_size := 2048;
     bytes := Some [ [Some (Str "a"); Some (Str "b")];
                     [Some (Num 1%float); Some (Num 10%float)];
                     [Some (Num 1%float); Some (Num 20%float)] ];
     uniqueSuffix := "1718000000003-479909" |}.

(** Only a header row. *)
Definition headerOnlyUpload : incoming :=
  {| originalname := "empty.xlsx"; in_mimetype := excelType; in_size := 1024;
     bytes := Some [ [Some (Str "City"); Some (Str "Sales")] ];
     uniqueSuffix := "1718000000004-611953" |}.

Definition alice : id := 7.

(** The store after user [alice] uploaded three files, the second one
    unreadable. *)
Definition threeFiles : db :=
  after (upload alice (Some regionUpload))
    (after (upload alice (Some brokenUpload))
       (after (upload alice (Some salesUpload)) emptyDb)).

Definition salesFile : File := fileRecord alice salesUpload 0.
Definition brokenFile : File := fileRecord alice brokenUpload 1.
Definition regionFile : File := fileRecord alice regionUpload 2.

(** The store after [alice] uploaded the header-only sheet, and a
    request for a chart on it. *)
Definition headerOnlyStore : db :=
  after (upload alice (Some headerOnlyUpload)) emptyDb.

Definition regionRequest : chartRequest :=
  {| req_title := "Sales by region"; req_description := None;
     req_chartType := "bar"; req_sourceFile := Some 0;
     req_xColumn := Str "Region"; req_yColumn := Str "Sales" |}.

(** The store after [alice] uploaded the sheet of the example. *)
Definition salesStore : db := after (upload alice (Some salesUpload)) emptyDb.


(** Rows labelled by years, the later year first. *)
Definition yearRows : list array :=
  [ [Some (Num 2021%float); Some (Num 5%float)];
    [Some (Num 2020%float); Some (Num 7%float)] ].

(** The cleaned rows of the specification's aggregation example. *)
Definition abaPoints : list point :=
  [ {| x := Str "A"; y := 1%float |};
    {| x := Str "B"; y := 2%float |};
    {| x := Str "A"; y := 3%float |} ].



(** ** Reachable states *)

(** One request to one of the routes. *)
Inductive request :=
| Upload (user : id) (f : option incoming)
| Autogen (user : id)
| CreateChart (user : id) (req : chartRequest)
| DeleteFile (user : id) (i : id).

Definition serve (r : request) (st : db) : db :=
  match r with
  | Upload user f => after (upload user f) st
  | Autogen user => after (autogen user) st
  | CreateChart user req => after (createChart user req) st
  | DeleteFile user i => after (deleteFile user i) st
  end.

(** The state after a sequence of requests, from the empty store. *)
Definition stateAfter (rs : list request) : db := fold_left (fun st r => serve r st) rs emptyDb.

(** A sheet whose first data row has text where the Y value should be. *)
Definition mixedSheet : sheet :=
  [ [Some (Str "City"); Some (Str "Sales")];
    [Some (Str "A"); Some (Str "abc")];
    [Some (Str "B"); Some (Num 1%float)];
    [Some (Str "C"); Some (Num 2%float)] ].

Definition mixedUpload : incoming :=
  {| originalname := "mixed.xlsx"; in_mimetype := excelType; in_size := 2560;
     bytes := Some mixedSheet; uniqueSuffix := "1718000000006-899981" |}.

Definition mixedStore : db := after (upload alice (Some mixedUpload)) emptyDb.

Definition mixedRequest : chartRequest :=
  {| req_title := "Sales by city"; req_description := None;
     req_chartType := "line"; req_sourceFile := Some 0;
     req_xColumn := Str "City"; req_yColumn := Str "Sales" |}.

(** The sheet of the example once more, under a name of 85 characters. *)
Definition longNameUpload : incoming :=
  {| originalname := "sales-of-the-year-by-city-and-by-region-with-all-the-figures-of-the-shops-v2-fin.xlsx";
     in_mimetype := excelType; in_size := 2048;
     bytes := Some citySales; uniqueSuffix := "1718000000007-982451" |}.

(** The labels and the values of the first dataset of each chart. *)
Definition plotted (cs : list Chart) : list (list value * list value) :=
  map (fun c => (labels (config c),
                 match datasets (config c) with d :: _ => data d | [] => [] end)) cs.

End Spec.

(* ================================================================== *)
(** * The other routes, the share list of a chart, the creation form *)
(* ================================================================== *)

Module Rest.

Import JS Synth Store Routes Spec.
Local Open Scope string_scope.
Local Open Scope list_scope.
Local Open Scope monad_scope.

(** What a route sends when the body is not one of [body]: a refusal
    [{ message }], or the data asked for. *)
Inductive sent (A : Type) :=
| Refused (message : string)
| Sent (a : A).

Arguments Refused {A} message.
Arguments Sent {A} a.

Record reply (A : Type) := { statusCode : nat; payload : sent A }.

Definition send {A : Type} (status : nat) (c : sent A) : M (reply A) :=
  ret {| statusCode := status; payload := c |}.

(** [Chart.find(filter)] *)
Definition findCharts (p : Chart -> bool) : M (list Chart) :=
  fun st => (Ok (filter p (charts st)), st).

(** [Chart.findById(id)] for an identifier that casts to an ObjectId. *)
Definition findChartById (i : id) : M (option Chart) :=
  fun st => (Ok (find (fun c => (chart_id c =? i)%nat) (charts st)), st).

(** [Chart.findByIdAndDelete(id)] *)
Definition deleteChartById (i : id) : M unit :=
  fun st => (Ok tt,
             {| files := files st;
                charts := filter (fun c => negb (chart_id c =? i)%nat) (charts st);
                disk := disk st; nextId := nextId st |}).

(** ** Identifiers as the requests carry them *)

(** [req.params.id] is a string: it is the text of an ObjectId, or it
    is not. *)
Inductive param :=
| ObjectId (i : id)
| Malformed (text : string).

(** The cast [findById] starts with: a string that is no ObjectId
    makes it throw a CastError. *)
Definition castObjectId (p : param) : M id :=
  match p with
  | ObjectId i => ret i
  | Malformed text => throw ("Cast to ObjectId failed for value " ++ text)%string
  end.

(** ** [GET /] in [routes/charts.js] *)

(** The query has no [sort]: the charts come in the order of the
    collection. *)
Definition listCharts (user : id) : M (reply (list Chart)) :=
  try_catch
    (found <- findCharts (fun c => (createdBy c =? user)%nat) ;;
     send 200 (Sent found))
    (fun error => send 500 (Refused "Server error while retrieving charts")).

(** ** [DELETE /:id] in [routes/charts.js] *)

(** The route on the parameter as it arrives. *)
Definition deleteChartAt (user : id) (p : param) : M response :=
  try_catch
    (i <- castObjectId p ;;
     found <- findChartById i ;;
     match found with
     | None => respond 404 (Message "Chart not found or access denied")
     | Some chart =>
         if negb (createdBy chart =? user)%nat
         then respond 404 (Message "Chart not found or access denied")
         else
           deleteChartById i ;;
           respond 200 (Message "Chart deleted successfully")
     end)
    (fun error => respond 500 (Message "Server error during chart deletion")).

(** The same on a parameter that is the ObjectId [i]. *)
Definition deleteChart (user : id) (i : id) : M response :=
  try_catch
    (found <- findChartById i ;;
     match found with
     | None => respond 404 (Message "Chart not found or access denied")
     | Some chart =>
         if negb (createdBy chart =? user)%nat
         then respond 404 (Message "Chart not found or access denied")
         else
           deleteChartById i ;;
           respond 200 (Message "Chart deleted successfully")
     end)
    (fun error => respond 500 (Message "Server error during chart deletion")).

(** ** [GET /:id/columns] in [routes/files.js] *)

(** The route on the parameter as it arrives.  [Sent headers] stands
    for the body [{ columns: headers }], the array as it is handed to
    [res.json]. *)
Definition columnsAt (user : id) (p : param) : M (reply array) :=
  try_catch
    (i <- castObjectId p ;;
     found <- findFileById i ;;
     match found with
     | None => send 404 (Refused "File not found or access denied")
     | Some file =>
         if negb (uploadedBy file =? user)%nat
         then send 404 (Refused "File not found or access denied")
         else
           json <- readSheet (path file) ;;
           if (List.length json <? 1)%nat then send 200 (Sent [])
           else
             let headers := nth 0 json [] in
             send 200 (Sent headers)
     end)
    (fun error => send 500 (Refused "Failed to get columns")).

(** The same on a parameter that is the ObjectId [i]. *)
Definition columns (user : id) (i : id) : M (reply array) :=
  try_catch
    (found <- findFileById i ;;
     match found with
     | None => send 404 (Refused "File not found or access denied")
     | Some file =>
         if negb (uploadedBy file =? user)%nat
         then send 404 (Refused "File not found or access denied")
         else
           json <- readSheet (path file) ;;
           if (List.length json <? 1)%nat then send 200 (Sent [])
           else
             let headers := nth 0 json [] in
             send 200 (Sent headers)
     end)
    (fun error => send 500 (Refused "Failed to get columns")).

(** ** [DELETE /:id] in [routes/files.js], on the parameter as it arrives *)

(** [Routes.deleteFile] is this route on a parameter that is an
    ObjectId. *)
Definition deleteFileAt (user : id) (p : param) : M response :=
  try_catch
    (i <- castObjectId p ;;
     found <- findFileById i ;;
     match found with
     | None => respond 404 (Message "File not found or access denied")
     | Some file =>
         if negb (uploadedBy file =? user)%nat
         then respond 404 (Message "File not found or access denied")
         else
           unlinkIfExists (path file) ;;
           deleteFileById i ;;
           deleteManyCharts (fun c => (sourceFile c =? i)%nat) ;;
           respond 200 (Message "File deleted successfully")
     end)
    (fun error => respond 500 (Message "Server error during file deletion")).

(** ** [POST /] in [routes/charts.js], on the body as it arrives *)

(** [!sourceFile] for the string of the body: an ObjectId has 24
    characters, and of the other strings only the empty one is falsy. *)
Definition given (p : param) : bool :=
  match p with
  | ObjectId _ => true
  | Malformed text => truthy (Str text)
  end.

(** The request with its source file set. *)
Definition onFile (req : chartRequest) (i : id) : chartRequest :=
  {| req_title := req_title req; req_description := req_description req;
     req_chartType := req_chartType req; req_sourceFile := Some i;
     req_xColumn := req_xColumn req; req_yColumn := req_yColumn req |}.

(** The body holds [sourceFile] as a string and the other fields as
    [req] has them.  After the test of the required fields
    [File.findById(sourceFile)] casts the string; from there on the
    handler is [Routes.createChart] on the identifier. *)
Definition createChartAt (user : id) (sourceFile : param) (req : chartRequest) : M response :=
  try_catch
    (if negb (truthy (Str (req_title req))) || negb (truthy (Str (req_chartType req)))
        || negb (given sourceFile)
        || negb (truthy (req_xColumn req)) || negb (truthy (req_yColumn req))
     then respond 400 (Message "Missing required fields")
     else
       i <- castObjectId sourceFile ;;
       createChart user (onFile req i))
    (fun error => respond 500 (Message "Server error during chart creation")).

(** ** [POST /upload] in [routes/files.js], with the size limit *)

(** [limits: { fileSize: process.env.MAX_FILE_SIZE || 10485760 }].  The
    middleware counts the bytes of a file the filter has accepted;
    [overLimit] is its verdict.  Over the limit it removes what it has
    written and hands its error, "File too large", to the framework:
    the handler does not run. *)
Definition uploadRoute (overLimit : bool) (user : id) (f : option incoming) : M response :=
  match f with
  | None => upload user None
  | Some f0 =>
      if fileFilter f0 && overLimit then respond 500 (Message "File too large")
      else upload user (Some f0)
  end.

(** ** The share list of a chart ([backend/models/Chart.js]) *)

(** An entry of [sharedWith]; [sharedAt] in milliseconds. *)
Record share := {
  user : id;
  permissions : string;
  sharedAt : Z
}.

Definition permissionsEnum : list string := [ "view"; "edit" ].

Definition validShare (s : share) : bool :=
  existsb (String.eqb (permissions s)) permissionsEnum.

(** [this.save()] as far as the share list goes: the validator of
    [permissions] runs on every entry. *)
Definition saveShares (sharedWith : list share) : result (list share) :=
  if forallb validShare sharedWith then Ok sharedWith
  else Throw "Chart validation failed".

(** The assignments to [existingShare], the first entry of the user. *)
Fixpoint updateShare (userId : id) (permissions : string) (now : Z)
  (sharedWith : list share) : list share :=
  match sharedWith with
  | [] => []
  | s :: rest =>
      if (user s =? userId)%nat
      then {| user := user s; permissions := permissions; sharedAt := now |} :: rest
      else s :: updateShare userId permissions now rest
  end.

(** [chart.shareWith(userId, permissions = 'view')], [now] being the
    value of [new Date()]; an argument left out is [None]. *)
Definition shareWith (userId : id) (permissions : option string) (now : Z)
  (sharedWith : list share) : result (list share) :=
  let permissions := match permissions with Some p => p | None => "view" end in
  let existingShare := find (fun s => (user s =? userId)%nat) sharedWith in
  saveShares
    match existingShare with
    | Some _ => updateShare userId permissions now sharedWith
    | None => sharedWith ++ [ {| user := userId; permissions := permissions;
                                 sharedAt := now |} ]
    end.

(** [chart.unshareWith(userId)] *)
Definition unshareWith (userId : id) (sharedWith : list share) : result (list share) :=
  saveShares (filter (fun s => negb (user s =? userId)%nat) sharedWith).

(** The entry of a user in a share list. *)
Definition shareOf (userId : id) (sharedWith : list share) : option share :=
  find (fun s => (user s =? userId)%nat) sharedWith.





(** ** The creation form ([components/CreateChartModal.tsx]) *)

(** The state of the form; [sourceFile] is the identifier of the file
    selected, or the empty string ([None]). *)
Record form := {
  form_title : string;
  form_description : string;
  form_chartType : string;
  form_sourceFile : option id;
  form_xColumn : string;
  form_yColumn : string
}.

(** The values of the chart type selector. *)
Definition formChartTypes : list string := [ "bar"; "line"; "pie"; "doughnut" ].

(** [handleSubmit]: the body handed to [onCreate], which posts it to
    [/api/charts], or the error shown. *)
Definition handleSubmit (f : form) : string + chartRequest :=
  if negb (truthy (Str (form_title f)))
     || match form_sourceFile f with Some _ => false | None => true end
     || negb (truthy (Str (form_xColumn f)))
     || negb (truthy (Str (form_yColumn f)))
  then inl "Please fill all required fields"
  else inr {| req_title := form_title f;
              req_description := Some (form_description f);
              req_chartType := form_chartType f;
              req_sourceFile := form_sourceFile f;
              req_xColumn := Str (form_xColumn f);
              req_yColumn := Str (form_yColumn f) |}.

(** ** Vocabulary *)

(** May [user] delete chart [i]: it exists and is theirs. *)
Definition mayDeleteChart (st : db) (user i : id) : bool :=
  match find (fun c => (chart_id c =? i)%nat) (charts st) with
  | Some chart => (createdBy chart =? user)%nat
  | None => false
  end.

(** The charts and the files of a user. *)
Definition chartsOf (st : db) (user : id) : list Chart :=
  filter (fun c => (createdBy c =? user)%nat) (charts st).

(** The state once an accepted upload is written to the upload
    directory and its record is saved, once file [i], stored at [p], is
    deleted with its charts, and once chart [i] is deleted. *)
Definition withUpload (st : db) (user : id) (f : incoming) : db :=
  {| files := files st ++ [fileRecord user f (nextId st)];
     charts := charts st;
     disk := (storedPath f, bytes f) :: disk st;
     nextId := S (nextId st) |}.

Definition withoutFile (st : db) (i : id) (p : string) : db :=
  {| files := filter (fun f => negb (file_id f =? i)%nat) (files st);
     charts := filter (fun c => negb (sourceFile c =? i)%nat) (charts st);
     disk := filter (fun e => negb (String.eqb (fst e) p)) (disk st);
     nextId := nextId st |}.

Definition withoutChart (st : db) (i : id) : db :=
  {| files := files st;
     charts := filter (fun c => negb (chart_id c =? i)%nat) (charts st);
     disk := disk st;
     nextId := nextId st |}.


(** The refusals for a file and for a chart that is missing or is
    someone else's. *)
Definition fileNotFound : response :=
  {| status := 404; json := Message "File not found or access denied" |}.

Definition chartNotFound : response :=
  {| status := 404; json := Message "Chart not found or access denied" |}.

(** One call to one of the routes. *)
Inductive call :=
| Request (r : request)
| DeleteChart (user : id) (i : id)
| ListCharts (user : id)
| Columns (user : id) (i : id).

Definition perform (c : call) (st : db) : db :=
  match c with
  | Request r => serve r st
  | DeleteChart user i => after (deleteChart user i) st
  | ListCharts user => after (listCharts user) st
  | Columns user i => after (columns user i) st
  end.

(** The authenticated user of a call. *)
Definition caller (c : call) : id :=
  match c with
  | Request (Upload user _) | Request (Autogen user)
  | Request (CreateChart user _) | Request (DeleteFile user _)
  | DeleteChart user _ | ListCharts user | Columns user _ => user
  end.

(** The state after a sequence of calls, from the empty store. *)
Definition reached (cs : list call) : db :=
  fold_left (fun st c => perform c st) cs emptyDb.

(** Every chart hangs on a stored file of its creator. *)
Definition anchored (st : db) : Prop :=
  forall c, In c (charts st) ->
    exists f, In f (files st) /\ file_id f = sourceFile c /\ uploadedBy f = createdBy c.

(** Identifiers are not shared, and all are below the next one. *)
Definition distinctIds (st : db) : Prop :=
  NoDup (map file_id (files st)) /\ NoDup (map chart_id (charts st)) /\
  (forall f, In f (files st) -> file_id f < nextId st) /\
  (forall c, In c (charts st) -> chart_id c < nextId st /\ sourceFile c < nextId st).

(** What the schema guarantees of a stored chart. *)
Definition schemaOk (c : Chart) : Prop :=
  title c = trim (title c) /\ title c <> "" /\ String.length (title c) <= 100 /\
  (forall d, description c = Some d -> String.length d <= 500) /\
  In (chartType c) chartTypes.

Definition sound (st : db) : Prop :=
  anchored st /\ distinctIds st /\
  Forall schemaOk (charts st) /\
  Forall (fun f => isExcel f = true) (files st).

(** A chart of [user] on one of the files [user] has in [st]. *)
Definition onOwnFile (st : db) (user : id) (c : Chart) : Prop :=
  createdBy c = user /\
  exists f, In f (files st) /\ file_id f = sourceFile c /\ uploadedBy f = user.

(** From [st] to [st'] only charts were added, under fresh identifiers,
    each one valid and satisfying [P]. *)
Definition appends (P : Chart -> Prop) (st st' : db) : Prop :=
  files st' = files st /\ disk st' = disk st /\ nextId st <= nextId st' /\
  exists new : list Chart,
    charts st' = charts st ++ new /\
    NoDup (map chart_id new) /\
    Forall (fun c => nextId st <= chart_id c < nextId st' /\ schemaOk c /\ P c) new.

(** ** Sample data *)

Definition bob : id := 8.

(** [alice] uploads the sheet of the example and asks for its chart. *)
Definition aliceCalls : list call :=
  [ Request (Upload alice (Some salesUpload)); Request (Autogen alice) ].

(** A request on the first file whose title is white space only. *)
Definition blankTitleRequest : chartRequest :=
  {| req_title := "   "; req_description := None;
     req_chartType := "bar"; req_sourceFile := Some 0;
     req_xColumn := Str "City"; req_yColumn := Str "Sales" |}.


(** A chart shared with [alice], who may view it. *)
Definition sharedWithAlice : list share :=
  [ {| user := alice; permissions := "view"; sharedAt := 1718000000000 |} ].

(** The form filled in for a bar chart of the example. *)
Definition salesForm : form :=
  {| form_title := "Sales by city"; form_description := "";
     form_chartType := "bar"; form_sourceFile := Some 0;
     form_xColumn := "City"; form_yColumn := "Sales" |}.

End Rest.

(* ================================================================== *)
(** * Properties *)
(* ================================================================== *)

Import JS Synth Store Routes Spec.
Local Open Scope string_scope.
Local Open Scope list_scope.

(** ** Facts about the JavaScript fragment *)

Lemma or_zero_not_NaN (n : number) : isNaN (or_zero n) = false.
Proof.
  unfold or_zero, truthy, isNaN.
  destruct (PrimFloat.is_nan n) eqn:En; simpl.
  - reflexivity.
  - destruct (PrimFloat.is_zero n); simpl; [reflexivity | exact En].
Qed.

Lemma present_blank (v : value) : present v = negb (blank v).
Proof. destruct v as [| | b | n | [|a s] | t]; reflexivity. Qed.

Lemma blank_cases (v : value) :
  blank v = true <-> v = Null \/ v = Undefined \/ v = Str "".
Proof.
  split.
  - destruct v as [| | b | n | [|a s] | t]; simpl; intros H;
      try discriminate; auto.
  - intros [-> | [-> | ->]]; reflexivity.
Qed.

Lemma filter_map_swap {A B : Type} (f : A -> B) (p : B -> bool) (l : list A) :
  filter p (map f l) = map f (filter (fun a => p (f a)) l).
Proof.
  induction l as [|a l IH]; simpl; [reflexivity|].
  destruct (p (f a)); simpl; rewrite IH; reflexivity.
Qed.

(** ** Data cleaning *)

(** The test on Y never discards a row: [y] went through [|| 0], which
    leaves no [NaN] behind. *)
Lemma cleanDataAuto_kept (rows : list array) (xIdx yIdx : nat) :
  cleanDataAuto rows xIdx yIdx
  = firstn 20 (map (pointOf xIdx yIdx) (keptRows rows xIdx)).
Proof.
  unfold cleanDataAuto, slice0, autogenCap, keptRows. f_equal.
  rewrite filter_map_swap. f_equal. apply filter_ext. intros row. simpl.
  rewrite or_zero_not_NaN, present_blank. apply andb_true_r.
Qed.

Lemma cleanDataManual_kept (chartType : string) (rows : list array) (xIdx yIdx : nat) :
  cleanDataManual chartType rows xIdx yIdx
  = firstn 50 (map (pointOf xIdx yIdx) (keptRows rows xIdx)).
Proof.
  unfold cleanDataManual, slice0, manualCap, keptRows. f_equal.
  rewrite filter_map_swap.
  transitivity (map (pointOf xIdx yIdx)
                  (filter (fun row => negb (blank (get row xIdx))) rows)).
  - assert (E : forall row,
               {| x := get row xIdx;
                  y := if isPieLike chartType
                       then or_zero (ToNumber (get row yIdx))
                       else or_zero (ToNumber (get row yIdx)) |}
               = pointOf xIdx yIdx row)
      by (intros row; unfold pointOf; destruct (isPieLike chartType); reflexivity).
    rewrite (map_ext _ _ E). f_equal. apply filter_ext. intros row.
    rewrite E. simpl. rewrite or_zero_not_NaN, present_blank. simpl.
    rewrite andb_true_r. reflexivity.
  - reflexivity.
Qed.

(** A row is discarded by cleaning exactly when its X cell is [null],
    [undefined] or the empty string; its Y cell has no say. *)
Lemma row_is_kept_iff (rows : list array) (xIdx : nat) (row : array) :
  In row (keptRows rows xIdx) <->
  In row rows /\
  ~ (get row xIdx = Null \/ get row xIdx = Undefined \/ get row xIdx = Str "").
Proof.
  unfold keptRows. rewrite filter_In, negb_true_iff, <- blank_cases.
  destruct (blank (get row xIdx)); intuition congruence.
Qed.

(** C1, evaluated on the code: a row whose Y cell is the text "abc",
    which does not parse as a number, is not discarded by either
    cleaning step.  It becomes the data point [("A", 0)], where the
    property asks for no data point at all: both routes chart the sheet
    [["City","Sales"],["A","abc"],["B",1],["C",2]] with labels A, B, C
    and data 0, 1, 2. *)
Theorem unparsable_Y_is_charted_as_zero :
  let rows := dataRows mixedSheet in
  isNaN (ToNumber (Str "abc")) = true /\
  cleanDataAuto rows 0 1
  = [ {| x := Str "A"; y := 0%float |}; {| x := Str "B"; y := 1%float |};
      {| x := Str "C"; y := 2%float |} ] /\
  cleanDataManual "line" rows 0 1 = cleanDataAuto rows 0 1 /\
  plotted (charts (after (autogen alice) mixedStore))
  = [ ([Str "A"; Str "B"; Str "C"], [Num 0%float; Num 1%float; Num 2%float]) ] /\
  plotted (charts (after (createChart alice mixedRequest) mixedStore))
  = [ ([Str "A"; Str "B"; Str "C"], [Num 0%float; Num 1%float; Num 2%float]) ].
Proof. vm_compute. repeat split; reflexivity. Qed.

(** ** The column classifier *)

Lemma countIf_filter {A : Type} (p : A -> bool) (l : list A) :
  countIf p l = List.length (filter p l).
Proof.
  induction l as [|a l IH]; simpl; [reflexivity|].
  destruct (p a); simpl; rewrite IH; reflexivity.
Qed.

Lemma filter_filter {A : Type} (p q : A -> bool) (l : list A) :
  filter q (filter p l) = filter (fun a => p a && q a) l.
Proof.
  induction l as [|a l IH]; simpl; [reflexivity|].
  destruct (p a); simpl; [destruct (q a); simpl|]; rewrite IH; reflexivity.
Qed.

Lemma columnValues_filled (rows : list array) (index : nat) :
  List.length (columnValues rows index) = filledCells rows index.
Proof.
  unfold columnValues, filledCells, columnCells. rewrite countIf_filter.
  f_equal. apply filter_ext. intros v. apply present_blank.
Qed.

Lemma columnValues_count (p : value -> bool) (rows : list array) (index : nat) :
  List.length (filter p (columnValues rows index))
  = countIf (fun v => negb (blank v) && p v) (columnCells rows index).
Proof.
  unfold columnValues, columnCells. rewrite filter_filter, countIf_filter.
  f_equal. apply filter_ext. intros v. rewrite present_blank. reflexivity.
Qed.

Lemma countIf_le {A : Type} (p q : A -> bool) (l : list A) :
  (forall a, p a = true -> q a = true) -> countIf p l <= countIf q l.
Proof.
  intros H. induction l as [|a l IH]; simpl; [lia|].
  destruct (p a) eqn:E; [rewrite (H a E)|]; destruct (q a); simpl; lia.
Qed.

Lemma numericCells_le_filled (rows : list array) (index : nat) :
  numericCells rows index <= filledCells rows index.
Proof.
  apply countIf_le. intros v H. apply andb_true_iff in H. tauto.
Qed.

(** What the classifier computes, in one equation. *)
Lemma analyse_type (rows : list array) (header : value) (index : nat) :
  type (analyse rows header index)
  = if (filledCells rows index =? 0)%nat then empty
    else if (stringCells rows index <? numericCells rows index)%nat then numeric
    else categorical.
Proof.
  unfold analyse. rewrite columnValues_filled.
  destruct (filledCells rows index =? 0)%nat; [reflexivity|]. simpl.
  rewrite !columnValues_count. reflexivity.
Qed.

(** The analysis of a sheet holds, at the place of each header cell
    that is present, what the classifier makes of that column. *)
Lemma mapi_from_nth {B : Type} (f : value -> nat -> B) (a : array) (start i : nat)
  (v : value) :
  nth_error a i = Some (Some v) ->
  nth_error (mapi_from f a start) i = Some (Some (f v (start + i))).
Proof.
  revert start i. induction a as [|o a IH]; intros start i; [destruct i; discriminate|].
  destruct i as [|i]; simpl.
  - intros H. injection H as ->. simpl. now rewrite Nat.add_0_r.
  - intros H. destruct o; simpl; rewrite (IH (S start) i H); do 3 f_equal; lia.
Qed.

Lemma columnAnalysis_nth (headers : array) (rows : list array) (header : value)
  (index : nat) :
  nth_error headers index = Some (Some header) ->
  nth_error (columnAnalysis headers rows) index
  = Some (Some (analyse rows header index)).
Proof.
  intros H. unfold columnAnalysis, mapi.
  now rewrite mapi_from_nth with (v := header) by exact H.
Qed.

Ltac classifier_case :=
  solve [ reflexivity | discriminate | lia
        | match goal with H : _ /\ _ |- _ => destruct H; lia end ].

(** C2.  The classifier drops the blank cells of the column ([null],
    [undefined], the empty string).  With none left the column is
    [empty]; otherwise the cells that parse as a number are counted
    against the non-numeric strings, and the column is [numeric]
    exactly when the first count is strictly larger, [categorical]
    otherwise, a tie included.  The counts the classifier records are
    these tallies, and this is the entry of [columnAnalysis] for every
    column whose header cell is present. *)
Theorem classifier_majority_vote
  (headers : array) (rows : list array) (header : value) (index : nat) :
  let col := analyse rows header index in
  let filled := filledCells rows index in
  let n := numericCells rows index in
  let s := stringCells rows index in
  (nth_error headers index = Some (Some header) ->
   nth_error (columnAnalysis headers rows) index = Some (Some col)) /\
  (type col = empty <-> filled = 0) /\
  (type col = numeric <-> s < n) /\
  (type col = categorical <-> 0 < filled /\ n <= s) /\
  (type col = categorical <-> 0 < filled /\ ~ s < n) /\
  hasData col = (0 <? filled)%nat /\
  (numericCount col, stringCount col, totalValues col)
  = if (0 <? filled)%nat then (Some n, Some s, Some filled) else (None, None, None).
Proof.
  cbv zeta. split; [apply columnAnalysis_nth|]. rewrite analyse_type.
  pose proof (numericCells_le_filled rows index) as Hle.
  unfold analyse. rewrite columnValues_filled.
  destruct (Nat.eqb_spec (filledCells rows index) 0) as [E0 | E0].
  - rewrite E0 in *. simpl. repeat split; intros; classifier_case.
  - assert (Hpos : (0 <? filledCells rows index)%nat = true) by (apply Nat.ltb_lt; lia).
    simpl. rewrite !columnValues_count, Hpos.
    fold (numericCells rows index) (stringCells rows index).
    destruct (Nat.ltb_spec (stringCells rows index) (numericCells rows index));
      repeat split; intros; classifier_case.
Qed.

(** ** The monad *)

Lemma find_existsb {A : Type} (p : A -> bool) (l : list A) :
  find p l = None <-> existsb p l = false.
Proof.
  induction l as [|a l IH]; simpl; [tauto|].
  destruct (p a); simpl; [split; discriminate | exact IH].
Qed.

Lemma find_some_existsb {A : Type} (p : A -> bool) (l : list A) (a : A) :
  find p l = Some a -> existsb p l = true.
Proof.
  intros H. destruct (existsb p l) eqn:E; [reflexivity|].
  apply find_existsb in E. congruence.
Qed.

(** One turn of the loop of [POST /autogen] is [turn]: it never throws,
    and what it does to the state is all in [turn]. *)
Lemma autogenFile_turn (user : id) (file : File) (st : db) :
  autogenFile user file st = (Ok (fst (turn user file st)), snd (turn user file st)).
Proof.
  unfold autogenFile, turn, bind, findOneChart, hasChart.
  destruct (find _ (charts st)) as [c|] eqn:Efind.
  - rewrite (find_some_existsb _ _ Efind). reflexivity.
  - apply find_existsb in Efind. rewrite Efind.
    unfold isExcel. rewrite negb_orb.
    destruct (negb (includes (mimetype file) "excel")
              && negb (includes (mimetype file) "spreadsheetml")); [reflexivity|].
    unfold try_catch, synthesis, readSheet, bind.
    destruct (onDisk (disk st) (path file)) as [[json|]|]; try reflexivity.
    unfold draft.
    destruct (List.length json <? 2)%nat; [reflexivity|].
    destruct (List.length (dataRows json) =? 0)%nat; [reflexivity|].
    destruct (categoricalColumns _) as [|xColumn cs]; [reflexivity|].
    destruct (numericColumns _) as [|yColumn ns]; [reflexivity|].
    destruct (List.length (cleanDataAuto _ _ _) =? 0)%nat; [reflexivity|].
    unfold newId, saveChart, ret. simpl.
    match goal with |- context [valid ?c] => destruct (valid c) end; reflexivity.
Qed.

Lemma autogenLoop_from (user : id) (files : list File) (acc : list Chart) (st : db) :
  forEach files
    (fun file createdCharts =>
       bind (autogenFile user file)
         (fun made => ret match made with
                          | Some chart => (createdCharts ++ [chart])
                          | None => createdCharts
                          end))
    acc st
  = (Ok (acc ++ fst (turns user files st)), snd (turns user files st)).
Proof.
  revert acc st. induction files as [|file files IH]; intros acc st; simpl.
  - unfold ret. rewrite app_nil_r. reflexivity.
  - unfold bind at 1. unfold bind at 1. rewrite autogenFile_turn. unfold ret at 1.
    rewrite IH. destruct (turn user file st) as [[c|] st1]; simpl.
    + rewrite <- app_assoc. reflexivity.
    + reflexivity.
Qed.

Lemma autogenLoop_turns (user : id) (files : list File) (st : db) :
  autogenLoop user files st = (Ok (fst (turns user files st)), snd (turns user files st)).
Proof. unfold autogenLoop. rewrite autogenLoop_from. reflexivity. Qed.

(** [POST /autogen] always answers 201 with its report: no failure of a
    file reaches the outer handler. *)
Lemma autogen_run (user : id) (st : db) :
  autogen user st
  = (Ok (autogenReport (fst (turns user (filesOf st user) st))),
     snd (turns user (filesOf st user) st)).
Proof.
  unfold autogen, try_catch, bind, findFiles. rewrite autogenLoop_turns.
  reflexivity.
Qed.

(** *** What a turn does to the state *)

Lemma turn_charts (user : id) (file : File) (st : db) :
  charts (snd (turn user file st)) = charts st ++ optionList (fst (turn user file st)).
Proof.
  unfold turn.
  destruct (hasChart _ _ _); simpl; [now rewrite app_nil_r|].
  destruct (negb (isExcel file)); simpl; [now rewrite app_nil_r|].
  destruct (synthesis _ _ _) as [why|mk]; simpl; [now rewrite app_nil_r|].
  destruct (valid _); simpl; [reflexivity | now rewrite app_nil_r].
Qed.

Lemma turn_frame (user : id) (file : File) (st : db) :
  files (snd (turn user file st)) = files st /\
  disk (snd (turn user file st)) = disk st /\
  nextId st <= nextId (snd (turn user file st)).
Proof.
  unfold turn.
  destruct (hasChart _ _ _); simpl; [auto|].
  destruct (negb (isExcel file)); simpl; [auto|].
  destruct (synthesis _ _ _) as [why|mk]; simpl; [auto|].
  destruct (valid _); simpl; auto.
Qed.

Lemma turns_charts (user : id) (fs : list File) (st : db) :
  charts (snd (turns user fs st)) = charts st ++ fst (turns user fs st).
Proof.
  revert st. induction fs as [|f fs IH]; intros st; simpl.
  - now rewrite app_nil_r.
  - rewrite IH, turn_charts, app_assoc. reflexivity.
Qed.

Lemma turns_frame (user : id) (fs : list File) (st : db) :
  files (snd (turns user fs st)) = files st /\
  disk (snd (turns user fs st)) = disk st /\
  nextId st <= nextId (snd (turns user fs st)).
Proof.
  revert st. induction fs as [|f fs IH]; intros st; simpl.
  - auto.
  - destruct (IH (snd (turn user f st))) as (Hf & Hd & Hn).
    destruct (turn_frame user f st) as (Hf' & Hd' & Hn').
    rewrite Hf, Hd. repeat split; try assumption; lia.
Qed.

Lemma turns_app (user : id) (fs1 fs2 : list File) (st : db) :
  turns user (fs1 ++ fs2) st
  = (fst (turns user fs1 st) ++ fst (turns user fs2 (snd (turns user fs1 st))),
     snd (turns user fs2 (snd (turns user fs1 st)))).
Proof.
  revert st. induction fs1 as [|f fs1 IH]; intros st; simpl.
  - destruct (turns user fs2 st); reflexivity.
  - rewrite IH. simpl. rewrite app_assoc. reflexivity.
Qed.

(** ** Bulk auto-generation is best effort *)

(** A file that fails on its own account leaves the state as it found
    it, whatever the state. *)
Lemma failing_turn (user : id) (file : File) (why : failure) (st : db) :
  fileFailure (disk st) user file = Some why ->
  turn user file st = (None, st).
Proof.
  unfold fileFailure, turn. intros H.
  destruct (hasChart _ _ _); [reflexivity|].
  destruct (negb (isExcel file)); [reflexivity|].
  destruct (synthesis _ _ _); [reflexivity | discriminate].
Qed.

Lemma turns_skip (user : id) (fs1 fs2 : list File) (file : File) (why : failure) (st : db) :
  fileFailure (disk st) user file = Some why ->
  turns user (fs1 ++ file :: fs2) st = turns user (fs1 ++ fs2) st.
Proof.
  intros H. rewrite !turns_app. simpl.
  destruct (turns_frame user fs1 st) as (_ & Hd & _).
  rewrite (failing_turn user file (why := why)) by (rewrite Hd; exact H).
  reflexivity.
Qed.

(** C8.  Bulk auto-generation is best effort over the user's files.
    When one of them fails on its own account (the workbook cannot be
    parsed, it has too few rows, no usable column pair, or no valid data
    point), the run is the run over the other files: the files before
    it and after it are processed as if it were not there.  The
    operation answers 201 with the number of charts it created and
    their titles and identifiers, and these charts are what it added to
    the store. *)
Theorem bulk_autogen_is_best_effort
  (user : id) (st : db) (fs1 fs2 : list File) (file : File) (why : failure) :
  filesOf st user = fs1 ++ file :: fs2 ->
  fileFailure (disk st) user file = Some why ->
  exists created : list Chart,
    autogenLoop user (fs1 ++ file :: fs2) st = autogenLoop user (fs1 ++ fs2) st /\
    autogenLoop user (fs1 ++ fs2) st = (Ok created, after (autogen user) st) /\
    answer (autogen user) st
    = Ok {| status := 201;
            json := AutogenBody "Auto-generated charts" (List.length created)
                      (map (fun chart => (title chart, chart_id chart)) created) |} /\
    charts (after (autogen user) st) = charts st ++ created /\
    files (after (autogen user) st) = files st.
Proof.
  intros Hfiles Hfail.
  exists (fst (turns user (fs1 ++ fs2) st)).
  unfold after, answer. rewrite autogen_run, Hfiles, !autogenLoop_turns.
  rewrite (turns_skip user fs1 fs2 file st Hfail). simpl.
  repeat split.
  - apply turns_charts.
  - apply turns_frame.
Qed.

(** ** At most one automatic chart per (file, user, chartType) *)

Lemma draft_built (user : id) (file : File) (json : sheet) (mk : id -> Chart) (i : id) :
  draft user file json = Built mk ->
  sourceFile (mk i) = file_id file /\ createdBy (mk i) = user /\
  chartType (mk i) = "bar" /\ valid (mk i) = valid (mk 0) /\
  balanced (mk i).
Proof.
  unfold draft.
  destruct (List.length json <? 2)%nat; [discriminate|].
  destruct (List.length (dataRows json) =? 0)%nat; [discriminate|].
  destruct (categoricalColumns _) as [|xColumn cs]; [discriminate|].
  destruct (numericColumns _) as [|yColumn ns]; [discriminate|].
  destruct (List.length (cleanDataAuto _ _ _) =? 0)%nat; [discriminate|].
  intros H. injection H as <-. repeat split.
  unfold balanced. simpl. eexists. eexists. split; [reflexivity|].
  simpl. now rewrite !length_map.
Qed.

Lemma synthesis_built (d : list (string * option sheet)) (user : id) (file : File)
  (mk : id -> Chart) (i : id) :
  synthesis d user file = Built mk ->
  sourceFile (mk i) = file_id file /\ createdBy (mk i) = user /\
  chartType (mk i) = "bar" /\ valid (mk i) = valid (mk 0) /\
  balanced (mk i).
Proof.
  unfold synthesis. destruct (onDisk d (path file)) as [[json|]|]; try discriminate.
  apply draft_built.
Qed.

(** The chart a turn creates: a bar chart of the user on that file,
    where the user had none. *)
Lemma turn_made (user : id) (file : File) (st : db) (c : Chart) :
  fst (turn user file st) = Some c ->
  sourceFile c = file_id file /\ createdBy c = user /\ chartType c = "bar" /\
  hasChart (charts st) (file_id file) user = false /\
  chartable (disk st) user file = true /\ balanced c.
Proof.
  unfold turn, chartable.
  destruct (hasChart _ _ _) eqn:Eh; [discriminate|].
  destruct (isExcel file); simpl; [|discriminate].
  destruct (synthesis _ _ _) as [why|mk] eqn:Es; [discriminate|].
  destruct (synthesis_built _ _ _ (nextId st) Es) as (H1 & H2 & H3 & H4 & H5).
  rewrite <- H4.
  destruct (valid (mk (nextId st))); [|discriminate].
  simpl. intros H. injection H as <-. unfold balanced in *. simpl. auto 10.
Qed.

Lemma turn_none (user : id) (file : File) (st : db) :
  fst (turn user file st) = None <->
  hasChart (charts st) (file_id file) user = true \/ chartable (disk st) user file = false.
Proof.
  unfold turn, chartable.
  destruct (hasChart _ _ _) eqn:Eh; [simpl; tauto|].
  destruct (isExcel file); simpl; [|tauto].
  destruct (synthesis _ _ _) as [why|mk] eqn:Es; [simpl; tauto|].
  destruct (synthesis_built _ _ _ (nextId st) Es) as (_ & _ & _ & H4 & _).
  rewrite <- H4.
  destruct (valid (mk (nextId st))); simpl; split; intros H;
    try tauto; try discriminate; destruct H; discriminate.
Qed.

Lemma hasChart_app (cs1 cs2 : list Chart) (file user : id) :
  hasChart (cs1 ++ cs2) file user = hasChart cs1 file user || hasChart cs2 file user.
Proof. unfold hasChart. apply existsb_app. Qed.

Lemma hasChart_false (cs : list Chart) (file user : id) (c : Chart) :
  hasChart cs file user = false -> In c cs ->
  sourceFile c = file -> createdBy c = user -> False.
Proof.
  unfold hasChart. intros H Hin <- <-.
  assert (E : existsb (fun c0 => (sourceFile c0 =? sourceFile c)%nat
                                 && (createdBy c0 =? createdBy c)%nat) cs = true).
  { apply existsb_exists. exists c. split; [exact Hin|].
    rewrite !Nat.eqb_refl. reflexivity. }
  congruence.
Qed.

(** The charts of a run are on files the user had no chart on, one per
    file, all bar charts of the user. *)
Lemma turns_made (user : id) (fs : list File) (st : db) :
  NoDup (map sourceFile (fst (turns user fs st))) /\
  forall c, In c (fst (turns user fs st)) ->
    createdBy c = user /\ chartType c = "bar" /\ balanced c /\
    hasChart (charts st) (sourceFile c) user = false.
Proof.
  revert st. induction fs as [|f fs IH]; intros st; simpl.
  - split; [constructor | intros c []].
  - destruct (IH (snd (turn user f st))) as (Hnd & Hall).
    pose proof (turn_charts user f st) as Hch.
    destruct (fst (turn user f st)) as [c0|] eqn:E0; simpl.
    + destruct (turn_made user f st E0) as (Hs & Hu & Ht & Hh & _ & Hb).
      split.
      * constructor; [|exact Hnd]. intros Hin. apply in_map_iff in Hin.
        destruct Hin as (c & Hsrc & Hin). destruct (Hall c Hin) as (Hcu & _ & _ & Hno).
        rewrite Hch, hasChart_app in Hno. apply orb_false_iff in Hno as (_ & Hno).
        simpl in Hno. rewrite Hsrc, Hu, !Nat.eqb_refl in Hno. discriminate.
      * intros c [<- | Hin].
        -- rewrite Hs. auto.
        -- destruct (Hall c Hin) as (Hcu & Hct & Hcb & Hno).
           rewrite Hch, hasChart_app in Hno. apply orb_false_iff in Hno as (Hno & _).
           auto.
    + split; [exact Hnd|]. intros c Hin.
      destruct (Hall c Hin) as (Hcu & Hct & Hcb & Hno).
      rewrite Hch in Hno. simpl in Hno. rewrite app_nil_r in Hno. auto.
Qed.

Lemma freshTuples_of_files (user : id) (old new : list Chart) :
  NoDup (map sourceFile new) ->
  (forall c, In c new -> createdBy c = user /\ hasChart old (sourceFile c) user = false) ->
  freshTuples old new.
Proof.
  intros Hnd Hall. split.
  - clear Hall. induction new as [|c new IH]; simpl; [constructor|].
    inversion Hnd as [|? ? Hnotin Hnd']; subst. constructor; [|auto].
    intros Hin. apply Hnotin. apply in_map_iff in Hin as (c' & Ht & Hin).
    apply in_map_iff. exists c'. split; [|exact Hin].
    unfold tuple in Ht. congruence.
  - intros c Hin Hold. destruct (Hall c Hin) as (Hu & Hno).
    apply in_map_iff in Hold as (c' & Ht & Hin').
    unfold tuple in Ht. injection Ht as Hs Hc _.
    eapply hasChart_false; [exact Hno | exact Hin' | congruence | congruence].
Qed.

(** *** A second run creates nothing *)

Lemma turns_settled (user : id) (fs : list File) (st : db) (f : File) :
  In f fs ->
  hasChart (charts (snd (turns user fs st))) (file_id f) user = true
  \/ chartable (disk st) user f = false.
Proof.
  revert st. induction fs as [|f0 fs IH]; intros st; simpl; [intros []|].
  destruct (turn_frame user f0 st) as (_ & Hd & _).
  intros [-> | Hin].
  - rewrite turns_charts, hasChart_app, turn_charts, hasChart_app.
    destruct (fst (turn user f st)) as [c|] eqn:E.
    + destruct (turn_made user f st E) as (Hs & Hu & _).
      left. simpl. rewrite Hs, Hu, !Nat.eqb_refl. simpl.
      rewrite orb_true_r. reflexivity.
    + apply turn_none in E as [E | E]; [left; rewrite E; reflexivity | right; exact E].
  - rewrite <- Hd. apply IH. exact Hin.
Qed.

Lemma turns_idle (user : id) (fs : list File) (st : db) :
  (forall f, In f fs ->
     hasChart (charts st) (file_id f) user = true \/ chartable (disk st) user f = false) ->
  fst (turns user fs st) = [] /\ charts (snd (turns user fs st)) = charts st.
Proof.
  revert st. induction fs as [|f fs IH]; intros st H; simpl; [auto|].
  assert (E : fst (turn user f st) = None) by (apply turn_none, H; left; reflexivity).
  pose proof (turn_charts user f st) as Hch. rewrite E in Hch. simpl in Hch.
  rewrite app_nil_r in Hch.
  destruct (turn_frame user f st) as (_ & Hd & _).
  destruct (IH (snd (turn user f st))) as (H1 & H2).
  { intros f' Hin. rewrite Hch, Hd. apply H. right. exact Hin. }
  rewrite E, H1, H2, Hch. auto.
Qed.

Lemma autogen_twice (user : id) (st : db) :
  let st1 := after (autogen user) st in
  answer (autogen user) st1 = Ok (autogenReport []) /\
  charts (after (autogen user) st1) = charts st1.
Proof.
  cbv zeta. unfold after, answer. rewrite !autogen_run. simpl.
  set (fs := filesOf st user). set (st1 := snd (turns user fs st)).
  assert (Hfs : filesOf st1 user = fs).
  { unfold filesOf, st1. destruct (turns_frame user fs st) as (-> & _). reflexivity. }
  rewrite Hfs.
  destruct (turns_idle user fs st1) as (H1 & H2).
  { intros f Hin. unfold st1. destruct (turns_frame user fs st) as (_ & -> & _).
    apply turns_settled. exact Hin. }
  rewrite H1, H2. auto.
Qed.

(** *** Charts made at upload *)

Lemma addsTo_same (P : Chart -> Prop) (st st' : db) :
  charts st' = charts st -> addsTo P st st'.
Proof.
  intros H. exists []. rewrite app_nil_r.
  split; [exact H|]. split; [split; [constructor | intros c []] | constructor].
Qed.

Lemma addsTo_one (P : Chart -> Prop) (st st1 st2 : db) (c : Chart) :
  addsTo P st st1 ->
  charts st2 = charts st1 ++ [c] ->
  ~ In (tuple c) (map tuple (charts st1)) ->
  P c ->
  addsTo P st st2.
Proof.
  intros (new & Hc & (Hnd & Hfresh) & HP) H2 Hnot Pc.
  exists (new ++ [c]). rewrite H2, Hc, app_assoc. repeat split.
  - rewrite map_app. apply NoDup_app; [exact Hnd | repeat constructor; intros [] |].
    intros t Hin [<- | []]. apply Hnot. rewrite Hc, map_app. apply in_or_app. auto.
  - intros c' Hin Hold. apply in_app_or in Hin as [Hin | [<- | []]].
    + exact (Hfresh c' Hin Hold).
    + apply Hnot. rewrite Hc, map_app. apply in_or_app. auto.
  - apply Forall_app. split; [exact HP | repeat constructor; exact Pc].
Qed.

Lemma forEach_inv {A B : Type} (I : db -> Prop) (body : A -> B -> M B) (l : list A) :
  (forall a acc st, I st -> I (snd (body a acc st))) ->
  forall acc st, I st -> I (snd (forEach l body acc st)).
Proof.
  intros Hbody. induction l as [|a l IH]; intros acc st HI; simpl.
  - exact HI.
  - unfold bind. specialize (Hbody a acc st HI).
    destruct (body a acc st) as [[acc'|err] st']; simpl in *.
    + apply IH. exact Hbody.
    + exact Hbody.
Qed.

Lemma find_none_tuple (cs : list Chart) (file user : id) (chartType : string) :
  find (fun c => (sourceFile c =? file)%nat && (createdBy c =? user)%nat
                 && String.eqb (Store.chartType c) chartType) cs = None ->
  ~ In (file, user, chartType) (map tuple cs).
Proof.
  intros Hfind Hin. apply in_map_iff in Hin as (c & Ht & Hin).
  apply (find_none _ _ Hfind) in Hin. unfold tuple in Ht. injection Ht as H1 H2 H3.
  rewrite H1, H2, H3, !Nat.eqb_refl, String.eqb_refl in Hin. discriminate.
Qed.

Lemma uploadConfig_balanced (chartType : string) (headers : array) (rows : list array)
  (xIdx yIdx : nat) :
  exists d rest,
    datasets (uploadConfig chartType headers rows xIdx yIdx) = d :: rest /\
    List.length (labels (uploadConfig chartType headers rows xIdx yIdx))
    = List.length (data d).
Proof.
  unfold uploadConfig.
  destruct (String.eqb chartType "pie"); simpl; eexists; eexists;
    (split; [reflexivity|]); simpl; now rewrite !length_map.
Qed.

Lemma uploadCharts_adds (user : id) (file : File) (st : db) :
  addsTo (uploadMade user (file_id file)) st (snd (uploadCharts user file st)).
Proof.
  unfold uploadCharts, bind, readSheet.
  destruct (onDisk (disk st) (path file)) as [[json|]|];
    try (apply addsTo_same; reflexivity).
  destruct (2 <=? List.length json)%nat; [|apply addsTo_same; reflexivity].
  destruct (2 <=? List.length (numericIndices _ _))%nat; [|apply addsTo_same; reflexivity].
  apply forEach_inv; [|apply addsTo_same; reflexivity].
  intros chartType acc st1 HI. unfold bind, findOneChart.
  destruct (find _ (charts st1)) as [c|] eqn:Efind; [exact HI|].
  unfold newId, saveChart, ret. simpl.
  match goal with |- context [valid ?c] => destruct (valid c) end; simpl.
  - eapply addsTo_one; [exact HI | reflexivity | |].
    + apply find_none_tuple in Efind. exact Efind.
    + repeat split. apply uploadConfig_balanced.
  - destruct HI as (new & Hc & Hf & HP). exists new. auto.
Qed.

Lemma upload_adds (user : id) (f : option incoming) (st : db) :
  exists file : id, addsTo (uploadMade user file) st (after (upload user f) st).
Proof.
  unfold after, upload.
  destruct f as [f|]; [|exists 0; apply addsTo_same; reflexivity].
  destruct (fileFilter f); [|exists 0; apply addsTo_same; reflexivity].
  unfold bind, store, writeDisk, ret, uploadHandler, try_catch, bind, newId, saveFile.
  simpl.
  match goal with |- context [uploadCharts user ?file ?s] =>
    pose proof (uploadCharts_adds user file s) as H;
    exists (file_id file); destruct (uploadCharts user file s) as [[u|err] st3]
  end; simpl in *; exact H.
Qed.

(** ** Manual creation *)

(** C7, as amended.  When [xColumn] or [yColumn] does not occur in the
    header row of the caller's file, manual creation creates no chart
    record; and when the request has passed the earlier checks (every
    required field present, at least two rows, at least one non-empty
    data row) it is rejected as column-not-found and the whole state is
    as before. *)
Theorem missing_column_is_rejected
  (user : id) (req : chartRequest) (st : db) (table : sheet) :
  sheetOfRequest st user req = Some table ->
  columnMissing (nth 0 table []) req = true ->
  charts (after (createChart user req) st) = charts st /\
  (requiredFields req = true ->
   2 <= List.length table ->
   dataRows table <> [] ->
   createChart user req st = (Ok columnNotFound, st)).
Proof.
  unfold sheetOfRequest, fileOfRequest, columnMissing, requiredFields, after.
  destruct (req_sourceFile req) as [i|] eqn:Ei; [|discriminate].
  destruct (find _ (files st)) as [file|] eqn:Efile; [|discriminate].
  destruct (uploadedBy file =? user)%nat eqn:Eowner; [|discriminate].
  destruct (onDisk (disk st) (path file)) as [[t|]|] eqn:Edisk; try discriminate.
  intros H. injection H as ->. intros Hmiss.
  unfold createChart, try_catch. rewrite Ei.
  unfold bind, findFileById, respond, ret, readSheet.
  destruct (negb (truthy (Str (req_title req))) || negb (truthy (Str (req_chartType req)))
            || negb (truthy (req_xColumn req)) || negb (truthy (req_yColumn req))) eqn:Ef.
  - split; [reflexivity|]. intros Hreq. exfalso.
    destruct (truthy (Str (req_title req))), (truthy (Str (req_chartType req))),
             (truthy (req_xColumn req)), (truthy (req_yColumn req));
      simpl in *; discriminate.
  - cbv beta iota. rewrite Efile, Eowner. cbn [negb]. cbv beta iota.
    rewrite Edisk. cbv beta iota.
    destruct (Nat.ltb_spec (List.length table) 2) as [Hlt | Hge].
    + split; [reflexivity|]. intros _ H2. lia.
    + destruct (Nat.eqb_spec (List.length (dataRows table)) 0) as [H0 | Hn0].
      * split; [reflexivity|]. intros _ _ Hne. exfalso. apply Hne.
        destruct (dataRows table); [reflexivity | discriminate].
      * destruct (indexOf (nth 0 table []) (req_xColumn req)) as [xIdx|];
          [destruct (indexOf (nth 0 table []) (req_yColumn req)) as [yIdx|]|];
          try discriminate; split; reflexivity.
Qed.

(** ** Every persisted configuration is balanced *)

Lemma manualConfig_balanced (chartType : string) (yHeader : value) (cleanData : list point) :
  exists d rest,
    datasets (manualConfig chartType yHeader cleanData) = d :: rest /\
    List.length (labels (manualConfig chartType yHeader cleanData))
    = List.length (data d).
Proof.
  unfold manualConfig.
  destruct (isPieLike chartType); simpl; eexists; eexists;
    (split; [reflexivity|]); simpl.
  - unfold keys, values. now rewrite !length_map.
  - now rewrite !length_map.
Qed.

Lemma grows_same (P : Chart -> Prop) (st st' : db) :
  charts st' = charts st -> grows P st st'.
Proof. intros H. exists []. rewrite app_nil_r. split; [exact H | constructor]. Qed.

Lemma addsTo_grows (P Q : Chart -> Prop) (st st' : db) :
  (forall c, P c -> Q c) -> addsTo P st st' -> grows Q st st'.
Proof.
  intros HPQ (new & Hc & _ & HP). exists new. split; [exact Hc|].
  eapply Forall_impl; [exact HPQ | exact HP].
Qed.

Lemma createChart_grows (user : id) (req : chartRequest) (st : db) :
  grows (fun c => balanced c /\ createdBy c = user) st (after (createChart user req) st).
Proof.
  unfold after, createChart, try_catch.
  destruct (req_sourceFile req) as [i|]; [|apply grows_same; reflexivity].
  unfold bind, findFileById, respond, ret, readSheet.
  destruct (negb (truthy (Str (req_title req))) || _ || _ || _);
    [apply grows_same; reflexivity|].
  cbv beta iota.
  destruct (find _ (files st)) as [file|]; [|apply grows_same; reflexivity].
  destruct (negb (uploadedBy file =? user)%nat); [apply grows_same; reflexivity|].
  cbv beta iota.
  destruct (onDisk (disk st) (path file)) as [[table|]|];
    try (apply grows_same; reflexivity).
  cbv beta iota.
  destruct (List.length table <? 2)%nat; [apply grows_same; reflexivity|].
  destruct (List.length (dataRows table) =? 0)%nat; [apply grows_same; reflexivity|].
  destruct (indexOf (nth 0 table []) (req_xColumn req)) as [xIdx|];
    [|apply grows_same; reflexivity].
  destruct (indexOf (nth 0 table []) (req_yColumn req)) as [yIdx|];
    [|apply grows_same; reflexivity].
  destruct (List.length (cleanDataManual _ _ _ _) =? 0)%nat;
    [apply grows_same; reflexivity|].
  unfold newId, saveChart. cbv beta iota.
  match goal with |- context [valid ?c] => destruct (valid c) end; cbv beta iota.
  - eexists [_]. split; [reflexivity|]. repeat constructor.
    apply manualConfig_balanced.
  - apply grows_same. reflexivity.
Qed.

Lemma autogen_adds (user : id) (st : db) :
  addsTo (fun c => balanced c /\ createdBy c = user /\ chartType c = "bar")
    st (after (autogen user) st).
Proof.
  unfold after. rewrite autogen_run. simpl.
  exists (fst (turns user (filesOf st user) st)).
  destruct (turns_made user (filesOf st user) st) as (Hnd & Hall).
  split; [apply turns_charts|]. split.
  - apply freshTuples_of_files with (user := user); [exact Hnd|].
    intros c Hin. destruct (Hall c Hin) as (Hu & _ & _ & Hno). auto.
  - apply Forall_forall. intros c Hin.
    destruct (Hall c Hin) as (Hu & Ht & Hb & _). auto.
Qed.

Lemma grows_keeps (P : Chart -> Prop) (st st' : db) :
  grows P st st' -> Forall P (charts st) -> Forall P (charts st').
Proof.
  intros (new & -> & HP) Hold. apply Forall_app. auto.
Qed.

(** C10.  Whatever the state, the charts a creation path persists
    (manual creation, bulk auto-generation, generation at upload) are
    appended to the collection, and each has a first dataset with as
    many values as the configuration has labels.  So the invariant holds
    of the whole collection after the request when it held before. *)
Theorem persisted_configurations_are_balanced (user : id) (st : db) :
  (forall req, grows balanced st (after (createChart user req) st)) /\
  grows balanced st (after (autogen user) st) /\
  (forall f, grows balanced st (after (upload user f) st)) /\
  (Forall balanced (charts st) ->
   (forall req, Forall balanced (charts (after (createChart user req) st))) /\
   Forall balanced (charts (after (autogen user) st)) /\
   (forall f, Forall balanced (charts (after (upload user f) st)))).
Proof.
  assert (H1 : forall req, grows balanced st (after (createChart user req) st)).
  { intros req. destruct (createChart_grows user req st) as (new & Hc & HP).
    exists new. split; [exact Hc|]. eapply Forall_impl; [|exact HP].
    intros c Hb. apply Hb. }
  assert (H2 : grows balanced st (after (autogen user) st)).
  { eapply addsTo_grows; [|apply autogen_adds]. intros c Hb. apply Hb. }
  assert (H3 : forall f, grows balanced st (after (upload user f) st)).
  { intros f. destruct (upload_adds user f st) as (file & H).
    eapply addsTo_grows; [|exact H]. intros c Hb. apply Hb. }
  repeat split; auto; intros; eapply grows_keeps; eauto.
Qed.

(** C5.  Automatic generation creates at most one chart per (file,
    user, chartType): both the bulk route and the generation at upload
    look for a matching chart before they persist one, so the charts a
    run adds carry pairwise distinct tuples, none of which a chart
    already in the store had, and a store without duplicates stays so.
    A second bulk run right after the first reports no chart and leaves
    the collection as the first run left it. *)
Theorem automatic_generation_is_unique_per_tuple (user : id) (st : db) :
  (exists new, charts (after (autogen user) st) = charts st ++ new /\
               freshTuples (charts st) new /\
               Forall (fun c => hasChart (charts st) (sourceFile c) user = false) new) /\
  (forall f, exists new, charts (after (upload user f) st) = charts st ++ new /\
                         freshTuples (charts st) new) /\
  (NoDup (map tuple (charts st)) ->
   NoDup (map tuple (charts (after (autogen user) st))) /\
   forall f, NoDup (map tuple (charts (after (upload user f) st)))) /\
  answer (autogen user) (after (autogen user) st)
  = Ok {| status := 201; json := AutogenBody "Auto-generated charts" 0 [] |} /\
  charts (after (autogen user) (after (autogen user) st))
  = charts (after (autogen user) st).
Proof.
  assert (Hfresh : forall old new, freshTuples old new ->
                     NoDup (map tuple old) -> NoDup (map tuple (old ++ new))).
  { intros old new (Hnd & Hf) Hold. rewrite map_app.
    apply NoDup_app; [exact Hold | exact Hnd |].
    intros t Hin Hin'. apply in_map_iff in Hin' as (c & <- & Hc).
    exact (Hf c Hc Hin). }
  assert (Hup : forall f, exists new,
             charts (after (upload user f) st) = charts st ++ new /\
             freshTuples (charts st) new).
  { intros f. destruct (upload_adds user f st) as (file & new & Hc & Hf & _).
    exists new. auto. }
  split; [|split; [exact Hup | split]].
  - unfold after. rewrite autogen_run. simpl.
    exists (fst (turns user (filesOf st user) st)).
    destruct (turns_made user (filesOf st user) st) as (Hnd & Hall).
    split; [apply turns_charts|]. split.
    + apply freshTuples_of_files with (user := user); [exact Hnd|].
      intros c Hin. destruct (Hall c Hin) as (Hu & _ & _ & Hno). auto.
    + apply Forall_forall. intros c Hin. apply (Hall c Hin).
  - intros Hold. split.
    + destruct (autogen_adds user st) as (new & -> & Hf & _). auto.
    + intros f. destruct (Hup f) as (new & -> & Hf). auto.
  - apply (autogen_twice user st).
Qed.

(** ** Deleting a file *)

(** C9.  Deleting an uploaded file (it exists and is the caller's)
    removes every chart whose [sourceFile] is that file and leaves the
    other charts as they were, in their order.  A refused deletion
    removes nothing. *)
Theorem deleting_a_file_cascades (user i : id) (st : db) :
  let st' := after (deleteFile user i) st in
  if mayDelete st user i then
    answer (deleteFile user i) st
    = Ok {| status := 200; json := Message "File deleted successfully" |} /\
    charts st' = filter (fun c => negb (sourceFile c =? i)%nat) (charts st) /\
    (forall c, In c (charts st') <-> In c (charts st) /\ sourceFile c <> i) /\
    files st' = filter (fun f => negb (file_id f =? i)%nat) (files st)
  else
    charts st' = charts st /\ files st' = files st /\ disk st' = disk st.
Proof.
  unfold mayDelete, after, answer, deleteFile, try_catch, bind, findFileById.
  cbv beta iota zeta.
  destruct (find _ (files st)) as [file|]; [|repeat split].
  destruct (uploadedBy file =? user)%nat; cbn [negb]; [|repeat split].
  unfold unlinkIfExists, deleteFileById, deleteManyCharts, respond, ret.
  cbv beta iota. simpl.
  split; [reflexivity|]. split; [reflexivity|]. split; [|reflexivity].
  intros c. rewrite filter_In, negb_true_iff, Nat.eqb_neq. tauto.
Qed.

(** ** The caps on the cleaned list *)


(** ** Aggregation for pie and doughnut charts *)

Lemma firstAppearance_In (l : list string) (a : string) :
  In a (firstAppearance l) <-> In a l.
Proof.
  induction l as [|b l IH]; simpl; [tauto|].
  rewrite filter_In, IH, negb_true_iff, String.eqb_neq.
  destruct (String.eqb_spec b a); intuition congruence.
Qed.

Lemma firstAppearance_NoDup (l : list string) : NoDup (firstAppearance l).
Proof.
  induction l as [|b l IH]; simpl; constructor.
  - rewrite filter_In, String.eqb_refl. intros [_ H]. discriminate.
  - apply NoDup_filter. exact IH.
Qed.

Lemma firstAppearance_snoc (l : list string) (a : string) :
  firstAppearance (l ++ [a])
  = if existsb (String.eqb a) l then firstAppearance l else firstAppearance l ++ [a].
Proof.
  induction l as [|b l IH]; simpl; [reflexivity|].
  rewrite IH. destruct (String.eqb_spec a b) as [-> | Hne]; simpl.
  - destruct (existsb (String.eqb b) l); [reflexivity|].
    rewrite filter_app. simpl. rewrite String.eqb_refl. simpl.
    now rewrite app_nil_r.
  - destruct (existsb (String.eqb a) l); [reflexivity|].
    rewrite filter_app. simpl.
    destruct (String.eqb_spec a b); [contradiction|]. reflexivity.
Qed.

Lemma existsb_eqb_In (a : string) (l : list string) :
  existsb (String.eqb a) l = true <-> In a l.
Proof.
  rewrite existsb_exists. split.
  - intros (b & Hin & E). apply String.eqb_eq in E. now subst.
  - intros Hin. exists a. split; [exact Hin | apply String.eqb_refl].
Qed.

Lemma runningTotal_snoc (ys : list number) (y : number) :
  runningTotal (ys ++ [y]) = PrimFloat.add (or_zero (runningTotal ys)) y.
Proof. unfold runningTotal. rewrite fold_left_app. reflexivity. Qed.

(** The running total is the plain sum as long as no partial sum is
    [NaN] or negative zero. *)
Lemma runningTotal_sum (ys : list number) :
  (forall k, k <= List.length ys -> steady (sumFromLeft (firstn k ys))) ->
  runningTotal ys = sumFromLeft ys.
Proof.
  induction ys as [|y ys IH] using rev_ind; intros H; [reflexivity|].
  assert (Hpre : forall k, k <= List.length ys -> steady (sumFromLeft (firstn k ys))).
  { intros k Hk. specialize (H k). rewrite length_app in H. simpl in H.
    rewrite firstn_app in H. replace (k - List.length ys) with 0 in H by lia.
    simpl in H. rewrite app_nil_r in H. apply H. lia. }
  rewrite runningTotal_snoc, (IH Hpre).
  specialize (Hpre (List.length ys) (Nat.le_refl _)). rewrite firstn_all in Hpre.
  unfold steady in Hpre. rewrite Hpre.
  unfold sumFromLeft. rewrite fold_left_app. reflexivity.
Qed.

Lemma group_snoc (l : string) (cleanData : list point) (item : point) :
  group l (cleanData ++ [item])
  = group l cleanData ++ (if String.eqb (labelOf item) l then [y item] else []).
Proof.
  unfold group. rewrite filter_app, map_app. simpl.
  destruct (String.eqb (labelOf item) l); reflexivity.
Qed.

(** Reading and writing a dictionary that is listed by a function of
    its keys. *)
Lemma own_listed (F : string -> value) (ls : list string) (k : string) :
  own (map (fun l => (l, F l)) ls) k = if existsb (String.eqb k) ls then Some (F k) else None.
Proof.
  induction ls as [|l ls IH]; simpl; [reflexivity|].
  rewrite String.eqb_sym.
  destruct (String.eqb_spec k l) as [-> | Hne]; simpl; [reflexivity | exact IH].
Qed.

Lemma put_listed_new (F : string -> value) (ls : list string) (k : string) (v : value) :
  existsb (String.eqb k) ls = false ->
  put (map (fun l => (l, F l)) ls) k v = map (fun l => (l, F l)) ls ++ [(k, v)].
Proof.
  induction ls as [|l ls IH]; simpl; [reflexivity|].
  rewrite (String.eqb_sym l k).
  destruct (String.eqb k l); simpl; [discriminate|].
  intros H. now rewrite IH.
Qed.

Lemma put_listed_old (F G : string -> value) (ls : list string) (k : string) :
  NoDup ls -> In k ls ->
  (forall l, l <> k -> G l = F l) ->
  put (map (fun l => (l, F l)) ls) k (G k) = map (fun l => (l, G l)) ls.
Proof.
  intros Hnd Hin HG. induction ls as [|l ls IH]; simpl; [destruct Hin|].
  inversion Hnd as [|? ? Hnotin Hnd']; subst.
  destruct (String.eqb_spec l k) as [-> | Hne].
  - f_equal. apply map_ext_in. intros l Hl. rewrite HG; [reflexivity|].
    intros ->. contradiction.
  - rewrite (HG l Hne). f_equal. apply IH; [exact Hnd'|].
    destruct Hin as [-> | Hin]; [contradiction | exact Hin].
Qed.

(** The reduction builds the dictionary that lists, per distinct label
    in order of first appearance, the running total of its group, as
    long as no label names a member of [Object.prototype]. *)
Lemma aggregatedData_byLabel (cleanData : list point) :
  (forall item, In item cleanData -> inherited (labelOf item) = None) ->
  aggregatedData cleanData = byLabel cleanData.
Proof.
  unfold aggregatedData.
  induction cleanData as [|item cleanData IH] using rev_ind; intros Hplain.
  - reflexivity.
  - rewrite fold_left_app. simpl.
    rewrite IH by (intros i Hi; apply Hplain, in_or_app; auto).
    assert (Hk : inherited (labelOf item) = None)
      by (apply Hplain, in_or_app; right; left; reflexivity).
    fold (labelOf item).
    assert (Hsnoc : forall l, group l (cleanData ++ [item])
                    = group l cleanData
                      ++ (if String.eqb (labelOf item) l then [y item] else []))
      by (intros l; apply group_snoc).
    remember (labelOf item) as k eqn:Ek.
    assert (Hproto : String.eqb k "__proto__" = false).
    { destruct (String.eqb_spec k "__proto__") as [E|]; [|reflexivity].
      rewrite E in Hk. discriminate. }
    unfold assign. rewrite Hproto. unfold lookup, byLabel.
    rewrite (own_listed (fun l => Num (runningTotal (group l cleanData)))).
    rewrite (map_app labelOf). cbn [map]. rewrite <- Ek.
    rewrite firstAppearance_snoc.
    destruct (existsb (String.eqb k) (map labelOf cleanData)) eqn:Eseen.
    + assert (Hin : existsb (String.eqb k) (firstAppearance (map labelOf cleanData)) = true).
      { apply existsb_eqb_In, firstAppearance_In, existsb_eqb_In. exact Eseen. }
      rewrite Hin.
      replace (plus _ _)
        with ((fun l => Num (runningTotal (group l (cleanData ++ [item])))) k).
      * apply put_listed_old
          with (F := fun l => Num (runningTotal (group l cleanData)))
               (G := fun l => Num (runningTotal (group l (cleanData ++ [item])))).
        -- apply firstAppearance_NoDup.
        -- apply existsb_eqb_In. exact Hin.
        -- intros l Hne. rewrite Hsnoc.
           destruct (String.eqb_spec k l) as [E|_].
           ++ exfalso. apply Hne. symmetry. exact E.
           ++ now rewrite app_nil_r.
      * cbv beta. rewrite Hsnoc, String.eqb_refl.
        rewrite runningTotal_snoc. unfold or_zero.
        destruct (truthy (Num (runningTotal (group k cleanData)))); reflexivity.
    + assert (Hin : existsb (String.eqb k) (firstAppearance (map labelOf cleanData)) = false).
      { destruct (existsb _ (firstAppearance _)) eqn:E; [|reflexivity].
        apply (proj1 (existsb_eqb_In _ _)) in E.
        apply (proj1 (firstAppearance_In _ _)) in E.
        apply (proj2 (existsb_eqb_In _ _)) in E. rewrite E in Eseen. discriminate. }
      rewrite Hin, Hk. cbn [truthy]. cbv iota.
      rewrite put_listed_new by exact Hin.
      rewrite map_app. cbn [map]. f_equal.
      * apply map_ext_in. intros l Hl. rewrite Hsnoc.
        destruct (String.eqb_spec k l) as [E|_]; [|now rewrite app_nil_r].
        exfalso. apply (proj1 (firstAppearance_In _ _)) in Hl.
        assert (H : existsb (String.eqb k) (map labelOf cleanData) = true)
          by (apply existsb_eqb_In; rewrite E; exact Hl).
        rewrite H in Eseen. discriminate.
      * f_equal. f_equal. f_equal.
        assert (Hg : group k cleanData = []).
        { unfold group. destruct (filter _ cleanData) as [|i0 rest] eqn:Ef; [reflexivity|].
          exfalso. assert (Hi0 : In i0 (filter (fun i => String.eqb (labelOf i) k) cleanData))
            by (rewrite Ef; left; reflexivity).
          apply filter_In in Hi0 as (Hi0 & E0). apply String.eqb_eq in E0.
          assert (H : existsb (String.eqb k) (map labelOf cleanData) = true).
          { apply existsb_eqb_In. rewrite <- E0. apply in_map. exact Hi0. }
          rewrite H in Eseen. discriminate. }
        rewrite Hsnoc, Hg, String.eqb_refl. reflexivity.
Qed.

(** *** The order in which a dictionary lists its keys *)

Lemma read_digits_nonneg (base : nat) (l : list ascii) (acc : Z) (count : nat) :
  (0 <= acc)%Z -> (0 <= fst (fst (read_digits base l acc count)))%Z.
Proof.
  revert acc count. induction l as [|a l IH]; intros acc count Hacc; simpl.
  - exact Hacc.
  - destruct (digit_in base a) as [d|] eqn:Ed; [|exact Hacc].
    apply IH. unfold digit_in in Ed.
    destruct (if _ : bool then _ else _) as [k|]; [|discriminate].
    destruct (k <? base)%nat; [|discriminate]. injection Ed as <-. lia.
Qed.

Lemma array_index_canonical (k : string) (i : N) :
  array_index k = Some i -> k = string_of_Z (Z.of_N i).
Proof.
  unfold array_index.
  pose proof (@read_digits_nonneg 10 (chars k) 0 0 (Z.le_refl 0)) as Hn.
  destruct (read_digits 10 (chars k) 0 0) as [[n count] rest]. simpl in Hn.
  destruct count as [|count]; [discriminate|].
  destruct rest; [|discriminate].
  destruct (String.eqb_spec (string_of_Z n) k) as [E|]; [|discriminate].
  destruct (n <=? 4294967294)%Z; [|discriminate].
  simpl. intros H. injection H as <-. rewrite Z2N.id by exact Hn. symmetry. exact E.
Qed.

Lemma array_index_inj (k k' : string) (i : N) :
  array_index k = Some i -> array_index k' = Some i -> k = k'.
Proof.
  intros H H'. apply array_index_canonical in H, H'. congruence.
Qed.

Lemma insert_index_In {A : Type} (i : N) (a : A) (l : list (N * A)) (e : N * A) :
  In e (insert_index i a l) <-> e = (i, a) \/ In e l.
Proof.
  induction l as [|[j b] l IH]; simpl.
  - intuition congruence.
  - destruct (i <? j)%N; simpl; [intuition congruence|].
    rewrite IH. intuition congruence.
Qed.

Lemma insert_index_sorted {A : Type} (i : N) (a : A) (l : list (N * A)) :
  StronglySorted byIndex l ->
  (forall e, In e l -> fst e <> i) ->
  StronglySorted byIndex (insert_index i a l).
Proof.
  intros Hs Hne. induction Hs as [|[j b] l Hs IH Hall]; simpl.
  - repeat constructor.
  - destruct (N.ltb_spec i j) as [Hlt | Hge].
    + constructor; [constructor; assumption|].
      constructor; [exact Hlt|].
      eapply Forall_impl; [|exact Hall]. unfold byIndex. simpl. intros e He. lia.
    + assert (Hj : j <> i) by (apply (Hne (j, b)); left; reflexivity).
      constructor.
      * apply IH. intros e He. apply Hne. right. exact He.
      * apply Forall_forall. intros e He. apply insert_index_In in He as [-> | He].
        -- unfold byIndex. simpl. lia.
        -- rewrite Forall_forall in Hall. apply Hall. exact He.
Qed.

Lemma index_entries_In (o : object) (i : N) (kv : string * value) :
  In (i, kv) (index_entries o) <-> In kv o /\ array_index (fst kv) = Some i.
Proof.
  induction o as [|[k v] o IH]; simpl; [tauto|].
  destruct (array_index k) as [j|] eqn:Ej.
  - rewrite insert_index_In, IH. split.
    + intros [E | (Hin & Hi)].
      * injection E as -> ->. simpl. auto.
      * auto.
    + intros ([<- | Hin] & Hi).
      * left. simpl in Hi. congruence.
      * right. auto.
  - rewrite IH. split.
    + intros (Hin & Hi). auto.
    + intros ([<- | Hin] & Hi); [simpl in Hi; congruence | auto].
Qed.

Lemma index_entries_sorted (o : object) :
  NoDup (map fst o) -> StronglySorted byIndex (index_entries o).
Proof.
  induction o as [|[k v] o IH]; simpl; intros Hnd; [constructor|].
  inversion Hnd as [|? ? Hnotin Hnd']; subst.
  destruct (array_index k) as [i|] eqn:Ei; [|auto].
  apply insert_index_sorted; [auto|].
  intros [j [k' v']] Hin. simpl. intros ->.
  apply index_entries_In in Hin as (Hin & Hj). simpl in Hj.
  apply Hnotin. rewrite (array_index_inj k k' Ei Hj).
  apply in_map_iff. exists (k', v'). auto.
Qed.

Lemma entries_In (o : object) (kv : string * value) :
  In kv (entries o) <-> In kv o.
Proof.
  unfold entries. rewrite in_app_iff, in_map_iff, filter_In. split.
  - intros [([i kv'] & <- & Hin) | (Hin & _)]; [|exact Hin].
    apply index_entries_In in Hin. apply Hin.
  - intros Hin. unfold is_index_key.
    destruct (array_index (fst kv)) as [i|] eqn:Ei.
    + left. exists (i, kv). split; [reflexivity|]. apply index_entries_In. auto.
    + right. auto.
Qed.

(** The keys of an object: first those that are array indices, in
    ascending order of the index, then the other keys in creation order. *)
Lemma keys_order (o : object) :
  NoDup (map fst o) ->
  exists indices : list string,
    keys o = indices ++ filter (fun k => negb (isIndex k)) (map fst o) /\
    Forall (fun k => isIndex k = true) indices /\
    StronglySorted (fun a b => (indexValue a < indexValue b)%N) indices.
Proof.
  intros Hnd. exists (map fst (map snd (index_entries o))).
  unfold keys, entries. rewrite map_app. split; [|split].
  - f_equal. clear Hnd. induction o as [|[k v] o IH]; simpl; [reflexivity|].
    unfold is_index_key, isIndex in *. simpl.
    destruct (array_index k); simpl; rewrite IH; reflexivity.
  - apply Forall_forall. intros k Hin.
    apply in_map_iff in Hin as ([k' v] & <- & Hin).
    apply in_map_iff in Hin as ([i kv] & E & Hin). simpl in E. subst kv.
    apply index_entries_In in Hin as (_ & Hi). unfold isIndex. simpl in *.
    now rewrite Hi.
  - pose proof (index_entries_sorted o Hnd) as Hs.
    assert (Hix : forall e, In e (index_entries o) ->
                            array_index (fst (snd e)) = Some (fst e)).
    { intros [i kv] Hin. apply index_entries_In in Hin. apply Hin. }
    induction Hs as [|e l Hs IH Hall]; simpl; constructor.
    + apply IH. intros e' He'. apply Hix. right. exact He'.
    + apply Forall_forall. intros k Hin.
      apply in_map_iff in Hin as (kv & <- & Hin).
      apply in_map_iff in Hin as (e' & <- & Hin).
      rewrite Forall_forall in Hall. specialize (Hall e' Hin).
      unfold indexValue, byIndex in *.
      rewrite (Hix e (or_introl eq_refl)), (Hix e' (or_intror Hin)). exact Hall.
Qed.

Lemma byLabel_keys (cleanData : list point) :
  map fst (byLabel cleanData) = firstAppearance (map labelOf cleanData).
Proof. unfold byLabel. rewrite map_map. simpl. apply map_id. Qed.

Lemma byLabel_values (cleanData : list point) :
  values (byLabel cleanData)
  = map (fun l => Num (runningTotal (group l cleanData))) (keys (byLabel cleanData)).
Proof.
  unfold values, keys. rewrite map_map. apply map_ext_in.
  intros [k v] Hin. apply (proj1 (entries_In _ _)) in Hin. unfold byLabel in Hin.
  apply (proj1 (in_map_iff _ _ _)) in Hin as (l & E & _).
  injection E as <- <-. reflexivity.
Qed.

Lemma sorted_indices_NoDup (indices : list string) :
  StronglySorted (fun a b => (indexValue a < indexValue b)%N) indices ->
  NoDup indices.
Proof.
  induction 1 as [|a l Hs IH Hall]; constructor; [|exact IH].
  intros Hin. rewrite Forall_forall in Hall. specialize (Hall a Hin). lia.
Qed.

(** C3, as amended.  For manual creation with type pie or doughnut,
    when no X label names a member that objects inherit from
    [Object.prototype], the configuration has exactly one data point per
    distinct X label, whose value is the running total of the Y values
    of the cleaned rows sharing the label, from the left.  The labels
    that read as array indices come first, in ascending order of the
    index; the other labels follow in order of first appearance, which
    is the order of all labels when none is an array index.  A pie chart
    generated at upload is not aggregated: it has one label and one
    value per sheet row. *)
Theorem pie_charts_aggregate_by_label
  (chartType : string) (yHeader : value) (cleanData : list point)
  (headers : array) (rows : list array) (xIdx yIdx : nat) :
  isPieLike chartType = true ->
  (forall item, In item cleanData -> inherited (labelOf item) = None) ->
  let c := manualConfig chartType yHeader cleanData in
  let u := uploadConfig "pie" headers rows xIdx yIdx in
  (exists (ls indices : list string) (d : dataset),
     labels c = map Str ls /\
     datasets c = [d] /\
     data d = map (fun l => Num (runningTotal (group l cleanData))) ls /\
     NoDup ls /\
     (forall l, In l ls <-> exists item, In item cleanData /\ labelOf item = l) /\
     ls = indices ++ filter (fun l => negb (isIndex l))
                            (firstAppearance (map labelOf cleanData)) /\
     Forall (fun l => isIndex l = true) indices /\
     StronglySorted (fun a b => (indexValue a < indexValue b)%N) indices /\
     ((forall item, In item cleanData -> isIndex (labelOf item) = false) ->
      ls = firstAppearance (map labelOf cleanData))) /\
  labels u = map (fun r => get r xIdx) rows /\
  dataCount u = List.length rows.
Proof.
  intros Hpie Hplain. cbv zeta. split.
  - unfold manualConfig. rewrite Hpie, (aggregatedData_byLabel cleanData Hplain).
    pose proof (firstAppearance_NoDup (map labelOf cleanData)) as Hnd.
    destruct (keys_order (byLabel cleanData)) as (indices & Hkeys & Hix & Hsorted).
    { rewrite byLabel_keys. exact Hnd. }
    rewrite byLabel_keys in Hkeys.
    exists (keys (byLabel cleanData)), indices. eexists.
    cbn [labels datasets data].
    split; [reflexivity|]. split; [reflexivity|].
    split; [apply byLabel_values|].
    assert (Hmem : forall l, In l (keys (byLabel cleanData))
                             <-> In l (firstAppearance (map labelOf cleanData))).
    { intros l. rewrite <- byLabel_keys. unfold keys. rewrite !in_map_iff.
      split; intros (kv & E & Hin); exists kv; (split; [exact E|]).
      - apply (proj1 (entries_In _ _)). exact Hin.
      - apply (proj2 (entries_In _ _)). exact Hin. }
    split; [|split; [|split; [exact Hkeys | split; [exact Hix | split; [exact Hsorted|]]]]].
    + rewrite Hkeys. apply NoDup_app.
      * apply sorted_indices_NoDup. exact Hsorted.
      * apply NoDup_filter. exact Hnd.
      * intros l Hin Hin'. rewrite Forall_forall in Hix.
        apply filter_In in Hin' as (_ & Hno). rewrite (Hix l Hin) in Hno. discriminate.
    + intros l. rewrite Hmem, firstAppearance_In, in_map_iff.
      split; intros (item & H1 & H2); exists item; auto.
    + intros Hnone. rewrite Hkeys.
      assert (Hnil : indices = []).
      { destruct indices as [|l indices]; [reflexivity|]. exfalso.
        assert (Hl : In l (keys (byLabel cleanData)))
          by (rewrite Hkeys; left; reflexivity).
        apply (proj1 (Hmem l)) in Hl. apply (proj1 (firstAppearance_In _ _)) in Hl.
        apply (proj1 (in_map_iff _ _ _)) in Hl as (item & <- & Hitem).
        inversion Hix as [|? ? Hi _]; subst. rewrite (Hnone item Hitem) in Hi.
        discriminate. }
      rewrite Hnil. simpl.
      rewrite (filter_ext_in _ (fun _ => true)); [clear; induction (firstAppearance _); simpl; congruence|].
      intros l Hl. apply (proj1 (firstAppearance_In _ _)) in Hl.
      apply (proj1 (in_map_iff _ _ _)) in Hl as (item & <- & Hitem).
      now rewrite (Hnone item Hitem).
  - unfold uploadConfig, dataCount. simpl. rewrite length_map. auto.
Qed.

(** ** Identifiers stay below the next one *)

Lemma wellFormed_bump (st st' : db) :
  wellFormed st -> files st' = files st -> charts st' = charts st ->
  nextId st <= nextId st' -> wellFormed st'.
Proof.
  intros (Hf & Hc) Ef Ec Hn. split.
  - intros f Hin. rewrite Ef in Hin. specialize (Hf f Hin). lia.
  - intros c Hin. rewrite Ec in Hin. specialize (Hc c Hin). lia.
Qed.

Lemma wellFormed_chart (st st' : db) (c : Chart) :
  wellFormed st -> files st' = files st -> charts st' = charts st ++ [c] ->
  nextId st <= nextId st' -> sourceFile c < nextId st' -> wellFormed st'.
Proof.
  intros (Hf & Hc) Ef Ec Hn Hs. split.
  - intros f Hin. rewrite Ef in Hin. specialize (Hf f Hin). lia.
  - intros c' Hin. rewrite Ec in Hin. apply in_app_or in Hin as [Hin | [<- | []]].
    + specialize (Hc c' Hin). lia.
    + exact Hs.
Qed.

Lemma turn_wellFormed (user : id) (file : File) (st : db) :
  In file (files st) -> wellFormed st -> wellFormed (snd (turn user file st)).
Proof.
  intros Hin Hwf. pose proof (turn_charts user file st) as Hch.
  destruct (turn_frame user file st) as (Hf & _ & Hn).
  destruct (fst (turn user file st)) as [c|] eqn:E; simpl in Hch.
  - apply wellFormed_chart with (st := st) (c := c); auto.
    destruct (turn_made user file st E) as (-> & _).
    destruct Hwf as (Hfiles & _). specialize (Hfiles file Hin). lia.
  - rewrite app_nil_r in Hch. apply wellFormed_bump with (st := st); auto.
Qed.

Lemma turns_wellFormed (user : id) (fs : list File) (st : db) :
  (forall f, In f fs -> In f (files st)) ->
  wellFormed st -> wellFormed (snd (turns user fs st)).
Proof.
  revert st. induction fs as [|f fs IH]; intros st Hin Hwf; simpl; [exact Hwf|].
  apply IH.
  - intros f' Hf'. destruct (turn_frame user f st) as (-> & _). apply Hin. right. exact Hf'.
  - apply turn_wellFormed; [apply Hin; left; reflexivity | exact Hwf].
Qed.

Lemma autogen_wellFormed (user : id) (st : db) :
  wellFormed st -> wellFormed (after (autogen user) st).
Proof.
  intros Hwf. unfold after. rewrite autogen_run. cbn [snd].
  apply turns_wellFormed; [|exact Hwf].
  intros f Hf. apply filter_In in Hf. apply Hf.
Qed.

Lemma createChart_wellFormed (user : id) (req : chartRequest) (st : db) :
  wellFormed st -> wellFormed (after (createChart user req) st).
Proof.
  intros Hwf. unfold after, createChart, try_catch.
  destruct (req_sourceFile req) as [i|]; [|exact Hwf].
  unfold bind, findFileById, respond, ret, readSheet.
  destruct (negb (truthy (Str (req_title req))) || _ || _ || _); [exact Hwf|].
  cbv beta iota.
  destruct (find _ (files st)) as [file|] eqn:Efile; [|exact Hwf].
  destruct (negb (uploadedBy file =? user)%nat); [exact Hwf|].
  cbv beta iota.
  destruct (onDisk (disk st) (path file)) as [[table|]|]; try exact Hwf.
  cbv beta iota.
  destruct (List.length table <? 2)%nat; [exact Hwf|].
  destruct (List.length (dataRows table) =? 0)%nat; [exact Hwf|].
  destruct (indexOf (nth 0 table []) (req_xColumn req)) as [xIdx|]; [|exact Hwf].
  destruct (indexOf (nth 0 table []) (req_yColumn req)) as [yIdx|]; [|exact Hwf].
  destruct (List.length (cleanDataManual _ _ _ _) =? 0)%nat; [exact Hwf|].
  unfold newId, saveChart. cbv beta iota.
  apply find_some in Efile as (Hin & _).
  destruct Hwf as (Hfiles & Hcharts). pose proof (Hfiles file Hin) as Hid.
  match goal with |- context [valid ?c] => destruct (valid c) end; cbv beta iota;
    cbn [snd]; split; cbn [files charts nextId].
  - intros f Hf. specialize (Hfiles f Hf). lia.
  - intros c Hc. apply in_app_or in Hc as [Hc | [<- | []]].
    + specialize (Hcharts c Hc). lia.
    + cbn. lia.
  - intros f Hf. specialize (Hfiles f Hf). lia.
  - intros c Hc. specialize (Hcharts c Hc). lia.
Qed.

Lemma uploadCharts_wellFormed (user : id) (file : File) (st : db) :
  file_id file < nextId st ->
  wellFormed st -> wellFormed (snd (uploadCharts user file st)).
Proof.
  intros Hid Hwf.
  enough (H : wellFormed (snd (uploadCharts user file st))
              /\ file_id file < nextId (snd (uploadCharts user file st))) by apply H.
  unfold uploadCharts, bind, readSheet.
  destruct (onDisk (disk st) (path file)) as [[table|]|]; try (split; assumption).
  destruct (2 <=? List.length table)%nat; [|split; assumption].
  destruct (2 <=? List.length (numericIndices _ _))%nat; [|split; assumption].
  apply (forEach_inv (fun s => wellFormed s /\ file_id file < nextId s));
    [|split; assumption].
  intros chartType acc st1 (Hwf1 & Hid1). unfold bind, findOneChart.
  destruct (find _ (charts st1)) as [c|]; [split; assumption|].
  unfold newId, saveChart, ret. cbn [nextId files charts disk].
  match goal with |- context [valid ?c] => destruct (valid c) end; cbn [snd nextId].
  - split; [|lia].
    eapply wellFormed_chart with (st := st1); [exact Hwf1 | reflexivity | reflexivity | |];
      cbn; lia.
  - split; [|lia]. apply wellFormed_bump with (st := st1); auto. cbn. lia.
Qed.

Lemma upload_wellFormed (user : id) (f : option incoming) (st : db) :
  wellFormed st -> wellFormed (after (upload user f) st).
Proof.
  intros Hwf. unfold after, upload.
  destruct f as [f|]; [|exact Hwf].
  destruct (fileFilter f); [|exact Hwf].
  unfold bind, store, writeDisk, ret, uploadHandler, try_catch, bind, newId, saveFile.
  cbv beta iota. cbn [files charts disk nextId fst snd].
  match goal with |- context [uploadCharts user ?file ?s] =>
    assert (H : wellFormed (snd (uploadCharts user file s)));
    [ apply uploadCharts_wellFormed;
      [ cbn; lia
      | destruct Hwf as (Hfiles & Hcharts); split; cbn [files charts nextId];
        [ intros f' Hf'; apply in_app_or in Hf' as [Hf' | [<- | []]];
          [ specialize (Hfiles f' Hf'); lia | cbn; lia ]
        | intros c Hc; specialize (Hcharts c Hc); lia ] ]
    | destruct (uploadCharts user file s) as [[u|err] st3]; exact H ]
  end.
Qed.

Lemma deleteFile_wellFormed (user i : id) (st : db) :
  wellFormed st -> wellFormed (after (deleteFile user i) st).
Proof.
  intros Hwf. unfold after, deleteFile, try_catch, bind, findFileById.
  destruct (find _ (files st)) as [file|]; [|exact Hwf].
  destruct (negb (uploadedBy file =? user)%nat); [exact Hwf|].
  unfold unlinkIfExists, deleteFileById, deleteManyCharts, respond, ret.
  cbv beta iota. cbn [snd]. destruct Hwf as (Hfiles & Hcharts).
  split; cbn [files charts nextId].
  - intros f Hf. apply filter_In in Hf as (Hf & _). exact (Hfiles f Hf).
  - intros c Hc. apply filter_In in Hc as (Hc & _). exact (Hcharts c Hc).
Qed.

(** Every state the routes can reach from the empty store has its
    identifiers below the next one. *)
Lemma reachable_wellFormed (rs : list request) : wellFormed (stateAfter rs).
Proof.
  unfold stateAfter.
  assert (H0 : wellFormed emptyDb) by (split; intros a []).
  revert H0. generalize emptyDb as st.
  induction rs as [|r rs IH]; intros st Hwf; simpl; [exact Hwf|].
  apply IH. destruct r; simpl.
  - apply upload_wellFormed, Hwf.
  - apply autogen_wellFormed, Hwf.
  - apply createChart_wellFormed, Hwf.
  - apply deleteFile_wellFormed, Hwf.
Qed.

(** ** The worked example, end to end *)

Lemma chars_append (s1 s2 : string) : chars (s1 ++ s2)%string = chars s1 ++ chars s2.
Proof. induction s1 as [|a s1 IH]; simpl; [reflexivity | now rewrite IH]. Qed.

Lemma length_append (s1 s2 : string) :
  String.length (s1 ++ s2)%string = String.length s1 + String.length s2.
Proof. induction s1 as [|a s1 IH]; simpl; [reflexivity | now rewrite IH]. Qed.

Lemma length_of_chars (l : list ascii) : String.length (of_chars l) = List.length l.
Proof. induction l as [|a l IH]; simpl; [reflexivity | now rewrite IH]. Qed.

Lemma length_chars (s : string) : List.length (chars s) = String.length s.
Proof. induction s as [|a s IH]; simpl; [reflexivity | now rewrite IH]. Qed.

Lemma trim_start_length (l : list ascii) : List.length (trim_start l) <= List.length l.
Proof.
  induction l as [|a l IH]; simpl; [lia|]. destruct (is_white a); simpl; lia.
Qed.

Lemma trim_length (s : string) : String.length (trim s) <= String.length s.
Proof.
  unfold trim. rewrite length_of_chars, length_rev.
  etransitivity; [apply trim_start_length|]. rewrite length_rev.
  etransitivity; [apply trim_start_length|]. now rewrite length_chars.
Qed.

Lemma trim_start_keeps_last (l : list ascii) (c : ascii) :
  is_white c = false -> exists q, trim_start (l ++ [c]) = q ++ [c].
Proof.
  intros Hc. induction l as [|a l IH]; simpl.
  - rewrite Hc. exists []. reflexivity.
  - destruct (is_white a); [exact IH|]. exists (a :: l). reflexivity.
Qed.

(** A string that ends in a visible character is not trimmed away. *)
Lemma trim_nonempty (s : string) (c : ascii) :
  is_white c = false -> trim (s ++ String c "")%string <> ""%string.
Proof.
  intros Hc. unfold trim. rewrite chars_append. simpl chars at 2.
  destruct (trim_start_keeps_last (chars s) c Hc) as (q & ->).
  rewrite rev_app_distr. simpl. rewrite Hc. simpl.
  destruct (rev (rev q) ++ [c]) as [|a l] eqn:E; [|discriminate].
  destruct (rev (rev q)); discriminate.
Qed.

Lemma fileFilter_excel (f : incoming) :
  fileFilter f = true ->
  includes (in_mimetype f) "excel" || includes (in_mimetype f) "spreadsheetml" = true.
Proof.
  unfold fileFilter, allowedMimeTypes. intros H.
  apply andb_true_iff in H as (_ & H). simpl in H.
  destruct (String.eqb_spec (in_mimetype f)
              "application/vnd.openxmlformats-officedocument.spreadsheetml.sheet")
    as [-> | _]; [vm_compute; reflexivity|].
  destruct (String.eqb_spec (in_mimetype f) "application/vnd.ms-excel")
    as [-> | _]; [vm_compute; reflexivity|].
  discriminate.
Qed.

(** The chart bulk auto-generation drafts from the sheet of the example. *)
Lemma draft_citySales (user : id) (file : File) :
  draft user file citySales
  = Built (fun i =>
      {| chart_id := i;
         title := (originalName file ++ " - Sales by City")%string;
         description := Some ("Auto-generated bar chart from " ++ originalName file)%string;
         chartType := "bar";
         config := {| labels := [Str "NY"; Str "LA"; Str "NY"];
                      datasets :=
                        [ {| label := Str "Sales";
                             data := [Num 100%float; Num 200%float; Num 50%float];
                             backgroundColor := One blue50;
                             borderColor := One blue;
                             borderWidth := PrimFloat.one;
                             fill := Undefined |} ] |};
         sourceFile := file_id file;
         createdBy := user;
         isPublic := false;
         tags := [Str "City"; Str "Sales"] |}).
Proof. reflexivity. Qed.

Lemma example_title_valid (name : string) (c : Chart) :
  String.length name <= 84 ->
  title c = (name ++ " - Sales by City")%string ->
  description c = Some ("Auto-generated bar chart from " ++ name)%string ->
  chartType c = "bar" ->
  valid c = true.
Proof.
  intros Hlen Ht Hd Hc. unfold valid. rewrite Ht, Hd, Hc.
  apply andb_true_iff. split; [|reflexivity].
  apply andb_true_iff. split.
  - apply andb_true_iff. split.
    + apply negb_true_iff, String.eqb_neq.
      change (name ++ " - Sales by City")%string
        with (name ++ (" - Sales by Cit" ++ String "y" ""))%string.
      replace (name ++ (" - Sales by Cit" ++ String "y" ""))%string
        with ((name ++ " - Sales by Cit") ++ String "y" "")%string.
      * apply trim_nonempty. reflexivity.
      * clear. induction name as [|a name IH]; simpl; [reflexivity | now rewrite IH].
    + apply Nat.leb_le. etransitivity; [apply trim_length|].
      rewrite length_append. simpl. lia.
  - apply Nat.leb_le. rewrite length_append. simpl. lia.
Qed.

(** Uploading the sheet of the example stores the file and makes no
    chart: the step after the upload wants two columns whose first data
    cell is a number, and the sheet has one. *)
Lemma upload_citySales (user : id) (f : incoming) (st : db) :
  fileFilter f = true ->
  bytes f = Some citySales ->
  upload user (Some f) st
  = (Ok {| status := 201;
           json := FileBody "File uploaded successfully" (fileRecord user f (nextId st)) |},
     {| files := files st ++ [fileRecord user f (nextId st)];
        charts := charts st;
        disk := (storedPath f, Some citySales) :: disk st;
        nextId := S (nextId st) |}).
Proof.
  intros Hfilter Hbytes. unfold upload. rewrite Hfilter.
  unfold bind, store, writeDisk, ret, uploadHandler, try_catch, bind, newId, saveFile.
  cbv beta iota. cbn [files charts disk nextId fst snd].
  fold (storedName f). fold (storedPath f). fold (fileRecord user f (nextId st)).
  unfold uploadCharts, bind, readSheet. cbn [disk path fileRecord onDisk].
  rewrite String.eqb_refl, Hbytes. cbv beta iota.
  change (2 <=? List.length citySales)%nat with true. cbv iota.
  change (numericIndices (nth 0 citySales []) (skipn 1 citySales)) with [1].
  reflexivity.
Qed.

Lemma filter_none {A : Type} (p : A -> bool) (l : list A) :
  (forall a, In a l -> p a = false) -> filter p l = [].
Proof.
  induction l as [|a l IH]; intros H; simpl; [reflexivity|].
  rewrite (H a (or_introl eq_refl)). apply IH. intros b Hb. apply H. right. exact Hb.
Qed.

Lemma turns_sources (user : id) (fs : list File) (st : db) (c : Chart) :
  In c (fst (turns user fs st)) -> exists f, In f fs /\ sourceFile c = file_id f.
Proof.
  revert st. induction fs as [|f fs IH]; intros st; simpl; [intros []|].
  intros Hin. apply in_app_or in Hin as [Hin | Hin].
  - destruct (fst (turn user f st)) as [c0|] eqn:E; [|destruct Hin].
    destruct Hin as [<- | []]. exists f. split; [left; reflexivity|].
    apply (turn_made user f st E).
  - destruct (IH _ Hin) as (f' & Hf' & Hs). exists f'. auto.
Qed.

(** C4, as amended.  The sheet
    [["City","Sales"],["NY",100],["LA",200],["NY",50]] is uploaded (the
    middleware accepts the file, whose name has at most 84 characters
    and so leaves room for the chart title) and bulk auto-generation is
    run for the uploader.  The upload stores the file and creates no
    chart by itself.  After the bulk run the file has exactly one chart:
    a bar chart of the uploader with labels NY, LA, NY and data 100,
    200, 50, one point per row, nothing aggregated. *)
Theorem city_sales_end_to_end (user : id) (st : db) (f : incoming) :
  wellFormed st ->
  fileFilter f = true ->
  bytes f = Some citySales ->
  String.length (originalname f) <= 84 ->
  let st1 := after (upload user (Some f)) st in
  let st2 := after (autogen user) st1 in
  let file := fileRecord user f (nextId st) in
  files st1 = files st ++ [file] /\
  charts st1 = charts st /\
  exists (c : Chart) (d : dataset),
    chartsOn st2 (file_id file) = [c] /\
    createdBy c = user /\
    chartType c = "bar" /\
    labels (config c) = [Str "NY"; Str "LA"; Str "NY"] /\
    datasets (config c) = [d] /\
    data d = [Num 100%float; Num 200%float; Num 50%float].
Proof.
  intros (Hfiles & Hcharts) Hfilter Hbytes Hname. cbv zeta.
  set (file := fileRecord user f (nextId st)).
  set (st1 := {| files := files st ++ [file]; charts := charts st;
                 disk := (storedPath f, Some citySales) :: disk st;
                 nextId := S (nextId st) |}).
  assert (E1 : after (upload user (Some f)) st = st1)
    by (unfold after; rewrite (upload_citySales user f st Hfilter Hbytes); reflexivity).
  rewrite E1. split; [reflexivity|]. split; [reflexivity|].
  unfold after. rewrite autogen_run. cbn [snd].
  assert (Hown : filesOf st1 user = filesOf st user ++ [file]).
  { unfold filesOf, st1. cbn [files]. rewrite filter_app. simpl.
    now rewrite Nat.eqb_refl. }
  rewrite Hown, turns_app. cbn [snd fst turns].
  set (before := turns user (filesOf st user) st1).
  destruct (turns_frame user (filesOf st user) st1) as (_ & Hdisk & _).
  pose proof (turns_charts user (filesOf st user) st1) as Hch.
  fold before in Hdisk, Hch.
  (* no chart is on the new file when its turn comes *)
  assert (Hnone : forall c, In c (charts (snd before)) -> sourceFile c <> file_id file).
  { intros c Hin. rewrite Hch in Hin. simpl. apply in_app_or in Hin as [Hin | Hin].
    - specialize (Hcharts c Hin). lia.
    - apply turns_sources in Hin as (f' & Hf' & ->).
      apply filter_In in Hf' as (Hf' & _). specialize (Hfiles f' Hf'). lia. }
  assert (Hhas : hasChart (charts (snd before)) (file_id file) user = false).
  { unfold hasChart. destruct (existsb _ _) eqn:E; [|reflexivity].
    apply existsb_exists in E as (c & Hin & Hc). apply andb_true_iff in Hc as (Hc & _).
    apply Nat.eqb_eq in Hc. exfalso. exact (Hnone c Hin Hc). }
  assert (Hsyn : synthesis (disk (snd before)) user file = draft user file citySales).
  { unfold synthesis. rewrite Hdisk. unfold st1. cbn [disk onDisk path file fileRecord].
    now rewrite String.eqb_refl. }
  unfold turn. rewrite Hhas. unfold isExcel at 1. cbn [mimetype file fileRecord].
  rewrite (fileFilter_excel f Hfilter). cbn [negb].
  rewrite Hsyn, draft_citySales.
  rewrite example_title_valid with (name := originalname f);
    [|exact Hname | reflexivity | reflexivity | reflexivity].
  eexists. eexists. split.
  - unfold chartsOn, withChart. cbn [snd charts]. rewrite filter_app.
    rewrite filter_none.
    + cbn. rewrite Nat.eqb_refl. reflexivity.
    + intros c Hin. apply Nat.eqb_neq. apply Hnone. exact Hin.
  - cbn. repeat split; reflexivity.
Qed.

(** ** Counterexamples to the properties as first stated *)

(** C3 as stated fails: with the year as label, the later year first,
    the pie configuration lists 2020 before 2021, not in order of first
    appearance; and the pie chart generated at upload for two rows that
    share the X value 1 has two data points with that label, not one
    with the sum. *)
Lemma pie_labels_counterexample :
  let cleaned := cleanDataManual "pie" yearRows 0 1 in
  let c := manualConfig "pie" (Str "Sales") cleaned in
  (firstAppearance (map labelOf cleaned) = ["2021"; "2020"] /\
   labels c = [Str "2020"; Str "2021"] /\
   labels c <> map Str (firstAppearance (map labelOf cleaned))) /\
  exists pie d,
    In pie (charts (after (upload alice (Some numbersUpload)) emptyDb)) /\
    chartType pie = "pie" /\
    labels (config pie) = [Num 1%float; Num 1%float] /\
    datasets (config pie) = [d] /\
    data d = [Num 10%float; Num 20%float].
Proof.
  cbv zeta. split.
  - vm_compute. repeat split; try reflexivity. discriminate.
  - eexists. eexists. split.
    + vm_compute. right. right. left. reflexivity.
    + vm_compute. repeat split; reflexivity.
Qed.


(** C4 as stated fails: uploaded under a name of 85 characters, the
    sheet of the example gets no chart, neither at the upload nor from
    bulk auto-generation, which reports 0 charts: the title, the name
    followed by " - Sales by City", would have 101 characters, one more
    than the schema allows, and the per-file [catch] swallows the
    refusal of [save]. *)
Lemma long_name_counterexample :
  let st1 := after (upload alice (Some longNameUpload)) emptyDb in
  let st2 := after (autogen alice) st1 in
  (wellFormed emptyDb /\ fileFilter longNameUpload = true /\
   bytes longNameUpload = Some citySales /\
   String.length (originalname longNameUpload) = 85) /\
  files st1 = [fileRecord alice longNameUpload 0] /\
  charts st1 = [] /\
  answer (autogen alice) st1
  = Ok {| status := 201; json := AutogenBody "Auto-generated charts" 0 [] |} /\
  charts st2 = [] /\
  chartsOn st2 0 = [].
Proof.
  split.
  - split; [split; [intros f []|intros c []]|]. vm_compute. repeat split; reflexivity.
  - vm_compute. repeat split; reflexivity.
Qed.

(** C7 as stated fails: on a sheet that has only its header row, a
    request for a column that is not in that row is rejected for the
    lack of data, not as column-not-found. *)
Lemma missing_column_counterexample :
  sheetOfRequest headerOnlyStore alice regionRequest
  = Some [ [Some (Str "City"); Some (Str "Sales")] ] /\
  columnMissing [Some (Str "City"); Some (Str "Sales")] regionRequest = true /\
  requiredFields regionRequest = true /\
  answer (createChart alice regionRequest) headerOnlyStore
  = Ok {| status := 400; json := Message "File does not contain enough data" |} /\
  answer (createChart alice regionRequest) headerOnlyStore <> Ok columnNotFound.
Proof. vm_compute. repeat split; try reflexivity. discriminate. Qed.

(** ** The theorems at sample inputs *)

(** C3 at the example of the specification: rows [("A",1),("B",2),("A",3)]
    give labels A, B with data 4, 2. *)
Lemma pie_charts_aggregate_by_label_witness :
  let c := manualConfig "pie" (Str "Sales") abaPoints in
  (isPieLike "pie" = true /\
   (forall item, In item abaPoints -> inherited (labelOf item) = None)) /\
  (labels c = [Str "A"; Str "B"] /\
   dataCount c = 2 /\
   map (fun l => Num (runningTotal (group l abaPoints))) ["A"; "B"]
   = [Num 4%float; Num 2%float]) /\
  exists (ls indices : list string) (d : dataset),
    labels c = map Str ls /\
    datasets c = [d] /\
    data d = map (fun l => Num (runningTotal (group l abaPoints))) ls /\
    NoDup ls /\
    (forall l, In l ls <-> exists item, In item abaPoints /\ labelOf item = l) /\
    ls = indices ++ filter (fun l => negb (isIndex l))
                           (firstAppearance (map labelOf abaPoints)) /\
    Forall (fun l => isIndex l = true) indices /\
    StronglySorted (fun a b => (indexValue a < indexValue b)%N) indices /\
    ((forall item, In item abaPoints -> isIndex (labelOf item) = false) ->
     ls = firstAppearance (map labelOf abaPoints)).
Proof.
  cbv zeta.
  assert (Hplain : forall item, In item abaPoints -> inherited (labelOf item) = None).
  { intros item [<- | [<- | [<- | []]]]; reflexivity. }
  split; [split; [reflexivity | exact Hplain]|].
  split; [vm_compute; repeat split; reflexivity|].
  exact (proj1 (@pie_charts_aggregate_by_label "pie" (Str "Sales") abaPoints
                  [] [] 0 0 eq_refl Hplain)).
Defined.

(** C4 for a first upload, of a file named sales.xlsx. *)
Lemma city_sales_end_to_end_witness :
  let st1 := after (upload alice (Some salesUpload)) emptyDb in
  let st2 := after (autogen alice) st1 in
  let file := fileRecord alice salesUpload 0 in
  (wellFormed emptyDb /\ fileFilter salesUpload = true /\
   bytes salesUpload = Some citySales /\
   String.length (originalname salesUpload) <= 84) /\
  files st1 = [file] /\
  charts st1 = [] /\
  exists (c : Chart) (d : dataset),
    chartsOn st2 (file_id file) = [c] /\
    createdBy c = alice /\
    chartType c = "bar" /\
    labels (config c) = [Str "NY"; Str "LA"; Str "NY"] /\
    datasets (config c) = [d] /\
    data d = [Num 100%float; Num 200%float; Num 50%float].
Proof.
  cbv zeta.
  assert (Hwf : wellFormed emptyDb) by (split; intros a []).
  assert (Hname : String.length (originalname salesUpload) <= 84)
    by (apply Nat.leb_le; reflexivity).
  split; [repeat split; solve [apply Hwf | reflexivity | exact Hname]|].
  exact (@city_sales_end_to_end alice emptyDb salesUpload Hwf eq_refl eq_refl Hname).
Defined.


(** C7 for a request that names the column Region on the sheet of the
    example. *)
Lemma missing_column_is_rejected_witness :
  (sheetOfRequest salesStore alice regionRequest = Some citySales /\
   columnMissing (nth 0 citySales []) regionRequest = true /\
   requiredFields regionRequest = true /\
   2 <= List.length citySales /\
   dataRows citySales <> []) /\
  charts (after (createChart alice regionRequest) salesStore) = charts salesStore /\
  createChart alice regionRequest salesStore = (Ok columnNotFound, salesStore).
Proof.
  assert (H1 : sheetOfRequest salesStore alice regionRequest = Some citySales)
    by reflexivity.
  assert (H2 : columnMissing (nth 0 citySales []) regionRequest = true) by reflexivity.
  assert (H3 : 2 <= List.length citySales) by (apply Nat.leb_le; reflexivity).
  assert (H4 : dataRows citySales <> []) by discriminate.
  destruct (@missing_column_is_rejected alice regionRequest salesStore citySales H1 H2)
    as (Hcharts & Hreject).
  split; [repeat split; assumption|].
  split; [exact Hcharts | exact (Hreject eq_refl H3 H4)].
Defined.

(** C8 for three files of which the second cannot be read. *)
Lemma bulk_autogen_is_best_effort_witness :
  (filesOf threeFiles alice = [salesFile] ++ brokenFile :: [regionFile] /\
   fileFailure (disk threeFiles) alice brokenFile = Some ParseError) /\
  exists created : list Chart,
    autogenLoop alice ([salesFile] ++ brokenFile :: [regionFile]) threeFiles
    = autogenLoop alice ([salesFile] ++ [regionFile]) threeFiles /\
    autogenLoop alice ([salesFile] ++ [regionFile]) threeFiles
    = (Ok created, after (autogen alice) threeFiles) /\
    answer (autogen alice) threeFiles
    = Ok {| status := 201;
            json := AutogenBody "Auto-generated charts" (List.length created)
                      (map (fun chart => (title chart, chart_id chart)) created) |} /\
    charts (after (autogen alice) threeFiles) = charts threeFiles ++ created /\
    files (after (autogen alice) threeFiles) = files threeFiles.
Proof.
  assert (H1 : filesOf threeFiles alice = [salesFile] ++ brokenFile :: [regionFile])
    by (vm_compute; reflexivity).
  assert (H2 : fileFailure (disk threeFiles) alice brokenFile = Some ParseError)
    by (vm_compute; reflexivity).
  split; [split; assumption|].
  exact (@bulk_autogen_is_best_effort alice threeFiles [salesFile] [regionFile]
           brokenFile ParseError H1 H2).
Defined.

(* ================================================================== *)
(** * The store as the routes keep it *)
(* ================================================================== *)

Import JS Synth Store Routes Spec Rest.
Local Open Scope string_scope.
Local Open Scope list_scope.

(** ** The [trim] setter *)

Lemma trim_start_head (l : list ascii) :
  match trim_start l with [] => True | a :: _ => is_white a = false end.
Proof.
  induction l as [|a l IH]; simpl; [exact I|].
  destruct (is_white a) eqn:E; [exact IH | exact E].
Qed.

Lemma trim_start_fixed (l : list ascii) :
  match l with [] => True | a :: _ => is_white a = false end -> trim_start l = l.
Proof. destruct l as [|a l]; simpl; [reflexivity|]. intros ->. reflexivity. Qed.

Lemma trim_end_head (L : list ascii) :
  match L with [] => True | a :: _ => is_white a = false end ->
  match rev (trim_start (rev L)) with [] => True | a :: _ => is_white a = false end.
Proof.
  destruct L as [|a L]; [intros _; exact I|]. intros Ha.
  destruct (@trim_start_keeps_last (rev L) a Ha) as (q & Hq).
  change (rev (a :: L)) with (rev L ++ [a]). rewrite Hq, rev_app_distr. exact Ha.
Qed.

Lemma trim_trim (s : string) : trim (trim s) = trim s.
Proof.
  unfold trim, chars, of_chars. rewrite list_ascii_of_string_of_list_ascii.
  set (L := trim_start (list_ascii_of_string s)).
  pose proof (@trim_end_head L (trim_start_head _)) as HR.
  rewrite (@trim_start_fixed _ HR). rewrite rev_involutive.
  rewrite (@trim_start_fixed _ (trim_start_head _)). reflexivity.
Qed.

Lemma valid_stored (c : Chart) : valid c = true -> schemaOk (stored c).
Proof.
  unfold valid. intros H.
  apply andb_prop in H as [H Htype]. apply andb_prop in H as [H Hdesc].
  apply andb_prop in H as [Hne Hlen].
  unfold schemaOk, stored. cbn [title description chartType].
  split; [symmetry; apply trim_trim|]. split.
  { intros E. rewrite E in Hne. discriminate. }
  split; [apply Nat.leb_le; exact Hlen|]. split.
  { intros d Hd. rewrite Hd in Hdesc. apply Nat.leb_le. exact Hdesc. }
  apply existsb_exists in Htype as (t & Hin & Heq).
  apply String.eqb_eq in Heq. subst t. exact Hin.
Qed.

(** ** Charts appended under fresh identifiers *)

Lemma appends_idle (P : Chart -> Prop) (st st' : db) :
  files st' = files st -> charts st' = charts st -> disk st' = disk st ->
  nextId st <= nextId st' -> appends P st st'.
Proof.
  intros Hf Hc Hd Hn. repeat split; try assumption.
  exists []. rewrite app_nil_r. repeat split; [exact Hc | constructor | constructor].
Qed.

Lemma appends_trans (P : Chart -> Prop) (st st1 st2 : db) :
  appends P st st1 -> appends P st1 st2 -> appends P st st2.
Proof.
  intros (Hf1 & Hd1 & Hn1 & new1 & Hc1 & Hnd1 & HP1)
         (Hf2 & Hd2 & Hn2 & new2 & Hc2 & Hnd2 & HP2).
  split; [congruence|]. split; [congruence|]. split; [lia|].
  exists (new1 ++ new2). split; [rewrite Hc2, Hc1, app_assoc; reflexivity|].
  rewrite Forall_forall in HP1, HP2. split.
  - rewrite map_app. apply NoDup_app; [exact Hnd1 | exact Hnd2 |].
    intros i H1 H2. apply in_map_iff in H1 as (c1 & <- & H1).
    apply in_map_iff in H2 as (c2 & E & H2).
    destruct (HP1 c1 H1) as ((_ & Hlt) & _). destruct (HP2 c2 H2) as ((Hle & _) & _). lia.
  - apply Forall_forall. intros c Hin. apply in_app_or in Hin as [Hin|Hin].
    + destruct (HP1 c Hin) as ((Hle & Hlt) & Hrest). split; [lia | exact Hrest].
    + destruct (HP2 c Hin) as ((Hle & Hlt) & Hrest). split; [lia | exact Hrest].
Qed.

Lemma appends_save (P : Chart -> Prop) (st st' : db) (c : Chart) :
  files st' = files st -> disk st' = disk st -> nextId st' = S (nextId st) ->
  charts st' = charts st ++ [stored c] ->
  valid c = true -> chart_id c = nextId st -> P (stored c) ->
  appends P st st'.
Proof.
  intros Hf Hd Hn Hc Hv Hid HP. split; [exact Hf|]. split; [exact Hd|]. split; [lia|].
  exists [stored c]. split; [exact Hc|]. split.
  - simpl. constructor; [intros []|constructor].
  - constructor; [|constructor]. simpl. split; [lia|]. split; [apply valid_stored; exact Hv | exact HP].
Qed.

Lemma appends_weaken (P Q : Chart -> Prop) (st st' : db) :
  (forall c, P c -> Q c) -> appends P st st' -> appends Q st st'.
Proof.
  intros HPQ (Hf & Hd & Hn & new & Hc & Hnd & HP).
  repeat (split; [assumption|]). exists new. repeat (split; [assumption|]).
  eapply Forall_impl; [|exact HP]. intros c (H1 & H2 & H3). auto.
Qed.

(** ** What each route does to the store *)

Lemma draft_id (user : id) (file : File) (json : sheet) (mk : id -> Chart) (i : id) :
  draft user file json = Built mk -> chart_id (mk i) = i.
Proof.
  unfold draft.
  destruct (List.length json <? 2)%nat; [discriminate|].
  destruct (List.length (dataRows json) =? 0)%nat; [discriminate|].
  destruct (categoricalColumns _) as [|xColumn ?]; [discriminate|].
  destruct (numericColumns _) as [|yColumn ?]; [discriminate|].
  destruct (List.length (cleanDataAuto _ _ _) =? 0)%nat; [discriminate|].
  intros E. injection E as <-. reflexivity.
Qed.

Lemma synthesis_id (d : list (string * option sheet)) (user : id) (file : File)
  (mk : id -> Chart) (i : id) :
  synthesis d user file = Built mk -> chart_id (mk i) = i.
Proof.
  unfold synthesis. destruct (onDisk d (path file)) as [[json|]|]; try discriminate.
  apply draft_id.
Qed.

Lemma turn_appends (P : Chart -> Prop) (user : id) (file : File) (st : db) :
  (forall c, createdBy c = user -> sourceFile c = file_id file -> P c) ->
  appends P st (snd (turn user file st)).
Proof.
  intros HP. unfold turn.
  destruct (hasChart (charts st) (file_id file) user);
    [apply appends_idle; reflexivity|].
  destruct (negb (isExcel file)); [apply appends_idle; reflexivity|].
  destruct (synthesis (disk st) user file) as [why|mk] eqn:E;
    [apply appends_idle; reflexivity|].
  destruct (valid (mk (nextId st))) eqn:V; simpl.
  - destruct (@synthesis_built _ _ _ _ (nextId st) E) as (Hs & Hu & _).
    apply appends_save with (c := mk (nextId st)); try reflexivity.
    + exact V.
    + eapply synthesis_id. exact E.
    + apply HP; simpl; assumption.
  - apply appends_idle; try reflexivity. simpl. lia.
Qed.

Lemma turns_appends (P : Chart -> Prop) (user : id) (fs : list File) (st : db) :
  (forall f c, In f fs -> createdBy c = user -> sourceFile c = file_id f -> P c) ->
  appends P st (snd (turns user fs st)).
Proof.
  revert st. induction fs as [|f fs IH]; intros st HP; simpl.
  - apply appends_idle; reflexivity.
  - eapply appends_trans.
    + apply turn_appends with (user := user) (file := f).
      intros c Hu Hs. apply (HP f c); [left; reflexivity | exact Hu | exact Hs].
    + apply IH. intros f' c Hin. apply HP. right. exact Hin.
Qed.

Lemma autogen_appends (user : id) (st : db) :
  appends (onOwnFile st user) st (after (autogen user) st).
Proof.
  unfold after. rewrite autogen_run. simpl.
  apply turns_appends. intros f c Hin Hu Hs.
  unfold filesOf in Hin. apply filter_In in Hin as [Hin Hown].
  apply Nat.eqb_eq in Hown. split; [exact Hu|]. exists f. auto.
Qed.

Lemma createChart_appends (user : id) (req : chartRequest) (st : db) :
  appends (onOwnFile st user) st (after (createChart user req) st).
Proof.
  unfold after, createChart, try_catch.
  destruct (req_sourceFile req) as [i|]; [|apply appends_idle; reflexivity].
  unfold bind, findFileById, respond, ret, readSheet.
  destruct (negb (truthy (Str (req_title req))) || _ || _ || _);
    [apply appends_idle; reflexivity|].
  cbv beta iota.
  destruct (find _ (files st)) as [file|] eqn:Efind; [|apply appends_idle; reflexivity].
  destruct (uploadedBy file =? user)%nat eqn:Eown; cbn [negb];
    [|apply appends_idle; reflexivity].
  cbv beta iota.
  destruct (onDisk (disk st) (path file)) as [[table|]|];
    try (apply appends_idle; reflexivity).
  cbv beta iota.
  destruct (List.length table <? 2)%nat; [apply appends_idle; reflexivity|].
  destruct (List.length (dataRows table) =? 0)%nat; [apply appends_idle; reflexivity|].
  destruct (indexOf (nth 0 table []) (req_xColumn req)) as [xIdx|];
    [|apply appends_idle; reflexivity].
  destruct (indexOf (nth 0 table []) (req_yColumn req)) as [yIdx|];
    [|apply appends_idle; reflexivity].
  destruct (List.length (cleanDataManual _ _ _ _) =? 0)%nat;
    [apply appends_idle; reflexivity|].
  unfold newId, saveChart. cbv beta iota.
  match goal with |- context [valid ?c] => destruct (valid c) eqn:V end; cbv beta iota.
  - match type of V with valid ?ch = true => apply appends_save with (c := ch) end;
      try reflexivity; [exact V|].
    split; [reflexivity|]. exists file. apply find_some in Efind as [Hin _].
    apply Nat.eqb_eq in Eown. auto.
  - apply appends_idle; try reflexivity. simpl. lia.
Qed.

Lemma uploadCharts_appends (P : Chart -> Prop) (user : id) (file : File) (st : db) :
  (forall c, createdBy c = user -> sourceFile c = file_id file -> P c) ->
  appends P st (snd (uploadCharts user file st)).
Proof.
  intros HP. unfold uploadCharts, bind, readSheet.
  destruct (onDisk (disk st) (path file)) as [[json|]|];
    try (apply appends_idle; reflexivity).
  destruct (2 <=? List.length json)%nat; [|apply appends_idle; reflexivity].
  destruct (2 <=? List.length (numericIndices _ _))%nat; [|apply appends_idle; reflexivity].
  apply forEach_inv; [|apply appends_idle; reflexivity].
  intros chartType acc st1 HI. unfold bind, findOneChart.
  destruct (find _ (charts st1)) as [c|] eqn:Efind; [exact HI|].
  unfold newId, saveChart, ret. simpl.
  match goal with |- context [valid ?c] => destruct (valid c) eqn:V end; simpl.
  - eapply appends_trans; [exact HI|].
    match type of V with valid ?ch = true => apply appends_save with (c := ch) end;
      try reflexivity; [exact V|].
    apply HP; reflexivity.
  - eapply appends_trans; [exact HI|]. apply appends_idle; try reflexivity. simpl. lia.
Qed.

Lemma upload_refused (user : id) (f : option incoming) (st : db) :
  match f with Some f0 => fileFilter f0 = false | None => True end ->
  after (upload user f) st = st.
Proof.
  unfold after, upload. destruct f as [f|]; [intros ->|]; reflexivity.
Qed.

Lemma upload_accepted (user : id) (f : incoming) (st : db) :
  fileFilter f = true ->
  upload user (Some f) st
  = (Ok {| status := 201;
           json := FileBody "File uploaded successfully" (fileRecord user f (nextId st)) |},
     snd (uploadCharts user (fileRecord user f (nextId st)) (withUpload st user f))).
Proof.
  intros Hfilter. unfold upload. rewrite Hfilter.
  unfold bind, store, writeDisk, ret, uploadHandler, try_catch, bind, newId, saveFile.
  cbv beta iota.
  cbn [files charts disk nextId fst snd
       up_filename up_originalname up_mimetype up_size up_path].
  fold (storedName f). fold (storedPath f). fold (fileRecord user f (nextId st)).
  fold (withUpload st user f).
  destruct (uploadCharts user (fileRecord user f (nextId st)) (withUpload st user f))
    as [[u|err] st']; reflexivity.
Qed.

Lemma deleteFile_refused (user i : id) (st : db) :
  mayDelete st user i = false -> deleteFile user i st = (Ok fileNotFound, st).
Proof.
  unfold mayDelete, deleteFile, try_catch, bind, findFileById. cbv beta iota.
  destruct (find _ (files st)) as [file|]; [|reflexivity].
  intros ->. reflexivity.
Qed.

Lemma deleteFile_done (user i : id) (file : File) (st : db) :
  find (fun f => (file_id f =? i)%nat) (files st) = Some file ->
  uploadedBy file = user ->
  deleteFile user i st
  = (Ok {| status := 200; json := Message "File deleted successfully" |},
     withoutFile st i (path file)).
Proof.
  intros Hfind Hown.
  unfold deleteFile, try_catch, bind, findFileById. cbv beta iota. rewrite Hfind.
  rewrite Hown, Nat.eqb_refl. reflexivity.
Qed.

Lemma deleteChart_refused (user i : id) (st : db) :
  mayDeleteChart st user i = false -> deleteChart user i st = (Ok chartNotFound, st).
Proof.
  unfold mayDeleteChart, deleteChart, try_catch, bind, findChartById. cbv beta iota.
  destruct (find _ (charts st)) as [chart|]; [|reflexivity].
  intros ->. reflexivity.
Qed.

Lemma deleteChart_done (user i : id) (st : db) :
  mayDeleteChart st user i = true ->
  deleteChart user i st
  = (Ok {| status := 200; json := Message "Chart deleted successfully" |},
     withoutChart st i).
Proof.
  unfold mayDeleteChart, deleteChart, try_catch, bind, findChartById. cbv beta iota.
  destruct (find _ (charts st)) as [chart|]; [|discriminate].
  intros ->. reflexivity.
Qed.


Lemma columns_state (user i : id) (st : db) : after (columns user i) st = st.
Proof.
  unfold after, columns, try_catch, bind, findFileById, readSheet. cbv beta iota.
  destruct (find _ (files st)) as [file|]; [|reflexivity].
  destruct (negb (uploadedBy file =? user)%nat); [reflexivity|].
  destruct (onDisk (disk st) (path file)) as [[json|]|]; try reflexivity.
  cbv beta iota. destruct (List.length json <? 1)%nat; reflexivity.
Qed.

(** ** The invariant of the store *)

Lemma sound_appends (user : id) (st st' : db) :
  sound st -> appends (onOwnFile st user) st st' -> sound st'.
Proof.
  intros (Hanch & (Hnf & Hnc & Hfid & Hcid) & Hschema & Hexcel)
         (Hf & Hd & Hn & new & Hc & Hnd & HP).
  rewrite Forall_forall in HP.
  split; [|split; [|split]].
  - intros c Hin. rewrite Hc in Hin. rewrite Hf. apply in_app_or in Hin as [Hin|Hin].
    + apply Hanch. exact Hin.
    + destruct (HP c Hin) as (_ & _ & Hu & f & Hfin & Hfid' & Hown).
      exists f. repeat split; [exact Hfin | exact Hfid' | congruence].
  - split; [rewrite Hf; exact Hnf|]. split; [|split].
    + rewrite Hc, map_app. apply NoDup_app; [exact Hnc | exact Hnd |].
      intros i H1 H2. apply in_map_iff in H1 as (c1 & <- & H1).
      apply in_map_iff in H2 as (c2 & E & H2).
      destruct (Hcid c1 H1) as [Hlt _]. destruct (HP c2 H2) as ((Hle & _) & _). lia.
    + rewrite Hf. intros f Hin. specialize (Hfid f Hin). lia.
    + rewrite Hc. intros c Hin. apply in_app_or in Hin as [Hin|Hin].
      * destruct (Hcid c Hin). lia.
      * destruct (HP c Hin) as ((_ & Hlt) & _ & _ & f & Hfin & Hfid' & _).
        specialize (Hfid f Hfin). lia.
  - rewrite Hc. apply Forall_app. split; [exact Hschema|].
    apply Forall_forall. intros c Hin. apply (HP c Hin).
  - rewrite Hf. exact Hexcel.
Qed.

Lemma sound_withUpload (user : id) (f : incoming) (st : db) :
  fileFilter f = true -> sound st -> sound (withUpload st user f).
Proof.
  intros Hfilter (Hanch & (Hnf & Hnc & Hfid & Hcid) & Hschema & Hexcel).
  unfold withUpload. split; [|split; [|split]]; simpl.
  - intros c Hin. destruct (Hanch c Hin) as (f0 & Hin0 & H0).
    exists f0. split; [apply in_or_app; left; exact Hin0 | exact H0].
  - split; [|split; [exact Hnc|split]]; simpl.
    + rewrite map_app. apply NoDup_app; [exact Hnf | repeat constructor; intros [] |].
      intros i H1 [<-|[]]. apply in_map_iff in H1 as (f1 & E & H1).
      specialize (Hfid f1 H1). simpl in E. lia.
    + intros f0 Hin. apply in_app_or in Hin as [Hin|[<-|[]]]; [|simpl; lia].
      specialize (Hfid f0 Hin). lia.
    + intros c Hin. destruct (Hcid c Hin). lia.
  - exact Hschema.
  - apply Forall_app. split; [exact Hexcel|]. constructor; [|constructor].
    unfold isExcel, fileRecord. simpl. apply fileFilter_excel. exact Hfilter.
Qed.

Lemma sound_withoutFile (i : id) (p : string) (st : db) :
  sound st -> sound (withoutFile st i p).
Proof.
  intros (Hanch & (Hnf & Hnc & Hfid & Hcid) & Hschema & Hexcel).
  unfold withoutFile. split; [|split; [|split]]; simpl.
  - intros c Hin. apply filter_In in Hin as [Hin Hne].
    destruct (Hanch c Hin) as (f0 & Hin0 & Hid & Hown).
    exists f0. split; [|auto]. apply filter_In. split; [exact Hin0|].
    rewrite Hid. exact Hne.
  - split; [|split; [|split]]; simpl.
    + clear - Hnf. induction (files st) as [|f0 l IH]; simpl; [constructor|].
      inversion Hnf as [|? ? Hnot Hrest]; subst.
      destruct (negb (file_id f0 =? i)%nat); simpl; [|apply IH; exact Hrest].
      constructor; [|apply IH; exact Hrest].
      intros Hin. apply Hnot. apply in_map_iff in Hin as (f1 & E & Hin).
      apply filter_In in Hin as [Hin _]. apply in_map_iff. exists f1. auto.
    + clear - Hnc. induction (charts st) as [|c0 l IH]; simpl; [constructor|].
      inversion Hnc as [|? ? Hnot Hrest]; subst.
      destruct (negb (sourceFile c0 =? i)%nat); simpl; [|apply IH; exact Hrest].
      constructor; [|apply IH; exact Hrest].
      intros Hin. apply Hnot. apply in_map_iff in Hin as (c1 & E & Hin).
      apply filter_In in Hin as [Hin _]. apply in_map_iff. exists c1. auto.
    + intros f0 Hin. apply filter_In in Hin as [Hin _]. apply Hfid. exact Hin.
    + intros c Hin. apply filter_In in Hin as [Hin _]. apply Hcid. exact Hin.
  - apply Forall_forall. intros c Hin. apply filter_In in Hin as [Hin _].
    rewrite Forall_forall in Hschema. apply Hschema. exact Hin.
  - apply Forall_forall. intros f0 Hin. apply filter_In in Hin as [Hin _].
    rewrite Forall_forall in Hexcel. apply Hexcel. exact Hin.
Qed.

Lemma sound_withoutChart (i : id) (st : db) :
  sound st -> sound (withoutChart st i).
Proof.
  intros (Hanch & (Hnf & Hnc & Hfid & Hcid) & Hschema & Hexcel).
  unfold withoutChart. split; [|split; [|split]]; simpl.
  - intros c Hin. apply filter_In in Hin as [Hin Hne]. apply Hanch. exact Hin.
  - split; [exact Hnf|split; [|split]]; simpl.
    + clear - Hnc. induction (charts st) as [|c0 l IH]; simpl; [constructor|].
      inversion Hnc as [|? ? Hnot Hrest]; subst.
      destruct (negb (chart_id c0 =? i)%nat); simpl; [|apply IH; exact Hrest].
      constructor; [|apply IH; exact Hrest].
      intros Hin. apply Hnot. apply in_map_iff in Hin as (c1 & E & Hin).
      apply filter_In in Hin as [Hin _]. apply in_map_iff. exists c1. auto.
    + exact Hfid.
    + intros c Hin. apply filter_In in Hin as [Hin _]. apply Hcid. exact Hin.
  - apply Forall_forall. intros c Hin. apply filter_In in Hin as [Hin _].
    rewrite Forall_forall in Hschema. apply Hschema. exact Hin.
  - exact Hexcel.
Qed.

Lemma upload_sound (user : id) (f : option incoming) (st : db) :
  sound st -> sound (after (upload user f) st).
Proof.
  intros Hs. destruct f as [f|]; [|rewrite upload_refused; [exact Hs | exact I]].
  destruct (fileFilter f) eqn:Hfilter; [|rewrite upload_refused; [exact Hs | exact Hfilter]].
  unfold after. rewrite (upload_accepted user f st Hfilter). simpl.
  apply sound_appends with (user := user) (st := withUpload st user f).
  - apply sound_withUpload; assumption.
  - apply uploadCharts_appends. intros c Hu Hsrc. split; [exact Hu|].
    exists (fileRecord user f (nextId st)). split; [|split; [symmetry; exact Hsrc | reflexivity]].
    unfold withUpload. simpl. apply in_or_app. right. left. reflexivity.
Qed.

Lemma deleteFile_cases (user i : id) (st : db) :
  (mayDelete st user i = false /\ deleteFile user i st = (Ok fileNotFound, st)) \/
  (exists file, find (fun f => (file_id f =? i)%nat) (files st) = Some file /\
                uploadedBy file = user /\
                deleteFile user i st
                = (Ok {| status := 200; json := Message "File deleted successfully" |},
                   withoutFile st i (path file))).
Proof.
  destruct (mayDelete st user i) eqn:E.
  - right. unfold mayDelete in E.
    destruct (find (fun f => (file_id f =? i)%nat) (files st)) as [file|] eqn:Hfind;
      [|discriminate].
    apply Nat.eqb_eq in E. exists file. split; [reflexivity|]. split; [exact E|].
    apply deleteFile_done; assumption.
  - left. split; [reflexivity|]. apply deleteFile_refused. exact E.
Qed.

Lemma deleteFile_sound (user i : id) (st : db) :
  sound st -> sound (after (deleteFile user i) st).
Proof.
  intros Hs. unfold after.
  destruct (deleteFile_cases user i st) as [[_ ->]|(file & _ & _ & ->)]; simpl.
  - exact Hs.
  - apply sound_withoutFile. exact Hs.
Qed.

Lemma deleteChart_sound (user i : id) (st : db) :
  sound st -> sound (after (deleteChart user i) st).
Proof.
  intros Hs. unfold after. destruct (mayDeleteChart st user i) eqn:E.
  - rewrite deleteChart_done by exact E. simpl. apply sound_withoutChart. exact Hs.
  - rewrite deleteChart_refused by exact E. exact Hs.
Qed.

Lemma perform_sound (c : call) (st : db) : sound st -> sound (perform c st).
Proof.
  intros Hs. destruct c as [[user f|user|user req|user i]|user i|user|user i]; simpl.
  - apply upload_sound. exact Hs.
  - eapply sound_appends; [exact Hs | apply autogen_appends].
  - eapply sound_appends; [exact Hs | apply createChart_appends].
  - apply deleteFile_sound. exact Hs.
  - apply deleteChart_sound. exact Hs.
  - exact Hs.
  - rewrite columns_state. exact Hs.
Qed.

Lemma sound_empty : sound emptyDb.
Proof.
  split; [intros c []|]. split; [|split; constructor].
  split; [constructor|]. split; [constructor|]. split; intros ? [].
Qed.

Lemma reached_sound (cs : list call) : sound (reached cs).
Proof.
  unfold reached. induction cs as [|c cs IH] using rev_ind; simpl.
  - apply sound_empty.
  - rewrite fold_left_app. simpl. apply perform_sound. exact IH.
Qed.

(** X1.  Referential integrity.  In every store the routes can reach
    from the empty one (uploads, bulk auto-generation, manual creation,
    deletion of files and of charts, listings), each chart hangs on a
    stored file: its [sourceFile] is the identifier of a file record
    that is still there, and that file was uploaded by the chart's
    creator. *)
Theorem charts_hang_on_files_of_their_creator (cs : list call) :
  anchored (reached cs).
Proof. apply reached_sound. Qed.

(** X2.  Every chart the routes leave in the store satisfies the chart
    schema: its title is trimmed, not empty and at most 100 characters
    long, its description at most 500, its type one of the fifteen of
    the enumeration. *)
Theorem stored_charts_satisfy_the_schema (cs : list call) :
  Forall schemaOk (charts (reached cs)).
Proof. apply reached_sound. Qed.

(** X3.  The media types the upload filter lets through all pass the
    test of bulk auto-generation ([includes('excel')] or
    [includes('spreadsheetml')]): no stored file is ever skipped by
    [POST /autogen] for its media type. *)
Theorem stored_files_pass_the_media_type_test (cs : list call) :
  Forall (fun f => isExcel f = true) (files (reached cs)).
Proof. apply reached_sound. Qed.

(** ** One user's calls and another user's documents *)

Lemma filter_twice {A : Type} (p q : A -> bool) (l : list A) :
  (forall a, In a l -> p a = true -> q a = true) ->
  filter p (filter q l) = filter p l.
Proof.
  induction l as [|a l IH]; intros H; simpl; [reflexivity|].
  assert (IH' : filter p (filter q l) = filter p l).
  { apply IH. intros b Hb. apply H. right. exact Hb. }
  destruct (q a) eqn:Eq; simpl.
  - rewrite IH'. reflexivity.
  - destruct (p a) eqn:Ep; [|exact IH'].
    rewrite (H a (or_introl eq_refl) Ep) in Eq. discriminate.
Qed.

Lemma appends_others (P : Chart -> Prop) (u v : id) (st st' : db) :
  appends P st st' -> (forall c, P c -> createdBy c = u) -> u <> v ->
  chartsOf st' v = chartsOf st v /\ filesOf st' v = filesOf st v.
Proof.
  intros (Hf & _ & _ & new & Hc & _ & HP) Hu Hne. unfold chartsOf, filesOf.
  rewrite Hf, Hc, filter_app. split; [|reflexivity].
  rewrite (@filter_none _ _ new); [apply app_nil_r|].
  intros c Hin. rewrite Forall_forall in HP. destruct (HP c Hin) as (_ & _ & HPc).
  apply Nat.eqb_neq. rewrite (Hu c HPc). exact Hne.
Qed.

Lemma same_file_id (l : list File) (f g : File) :
  NoDup (map file_id l) -> In f l -> In g l -> file_id f = file_id g -> f = g.
Proof.
  induction l as [|a l IH]; intros Hnd Hf Hg E; [destruct Hf|].
  inversion Hnd as [|? ? Hnot Hrest]; subst.
  destruct Hf as [<-|Hf], Hg as [<-|Hg]; try reflexivity.
  - exfalso. apply Hnot. rewrite E. apply in_map. exact Hg.
  - exfalso. apply Hnot. rewrite <- E. apply in_map. exact Hf.
  - apply IH; assumption.
Qed.

Lemma same_chart_id (l : list Chart) (c d : Chart) :
  NoDup (map chart_id l) -> In c l -> In d l -> chart_id c = chart_id d -> c = d.
Proof.
  induction l as [|a l IH]; intros Hnd Hc Hd E; [destruct Hc|].
  inversion Hnd as [|? ? Hnot Hrest]; subst.
  destruct Hc as [<-|Hc], Hd as [<-|Hd]; try reflexivity.
  - exfalso. apply Hnot. rewrite E. apply in_map. exact Hd.
  - exfalso. apply Hnot. rewrite <- E. apply in_map. exact Hc.
  - apply IH; assumption.
Qed.

Lemma perform_others (c : call) (v : id) (st : db) :
  sound st -> caller c <> v ->
  chartsOf (perform c st) v = chartsOf st v /\ filesOf (perform c st) v = filesOf st v.
Proof.
  intros Hs Hne.
  destruct c as [[user f|user|user req|user i]|user i|user|user i]; simpl in *.
  - (* upload *)
    destruct f as [f|]; [|rewrite upload_refused; [split; reflexivity | exact I]].
    destruct (fileFilter f) eqn:Hfilter;
      [|rewrite upload_refused; [split; reflexivity | exact Hfilter]].
    unfold after. rewrite (upload_accepted user f st Hfilter). simpl.
    destruct (@appends_others (fun c => createdBy c = user) user v
                (withUpload st user f)
                (snd (uploadCharts user (fileRecord user f (nextId st))
                        (withUpload st user f)))) as [Hc Hf].
    + apply uploadCharts_appends. intros c Hu _. exact Hu.
    + intros c Hc. exact Hc.
    + exact Hne.
    + rewrite Hc, Hf. unfold chartsOf, filesOf, withUpload. simpl.
      split; [reflexivity|]. rewrite filter_app. simpl.
      apply Nat.eqb_neq in Hne. rewrite Hne. apply app_nil_r.
  - eapply appends_others; [apply autogen_appends | | exact Hne].
    intros c [Hu _]. exact Hu.
  - eapply appends_others; [apply createChart_appends | | exact Hne].
    intros c [Hu _]. exact Hu.
  - (* deleteFile *)
    unfold after.
    destruct (deleteFile_cases user i st) as [[_ ->]|(file & Hfind & Hown & ->)]; simpl;
      [split; reflexivity|].
    destruct Hs as (Hanch & (Hnf & _) & _).
    apply find_some in Hfind as [Hin Hid]. apply Nat.eqb_eq in Hid.
    unfold chartsOf, filesOf, withoutFile. simpl. split; apply filter_twice.
    + intros c Hc Hv. apply Nat.eqb_eq in Hv. apply negb_true_iff, Nat.eqb_neq.
      intros Hsrc. destruct (Hanch c Hc) as (f & Hfin & Hfid & Hfown).
      assert (E : f = file) by (apply (@same_file_id _ _ _ Hnf Hfin Hin); congruence).
      subst f. congruence.
    + intros f Hfin Hv. apply Nat.eqb_eq in Hv. apply negb_true_iff, Nat.eqb_neq.
      intros Hfid.
      assert (E : f = file) by (apply (@same_file_id _ _ _ Hnf Hfin Hin); congruence).
      subst f. congruence.
  - (* deleteChart *)
    unfold after. destruct (mayDeleteChart st user i) eqn:E.
    + rewrite deleteChart_done by exact E. simpl.
      unfold chartsOf, filesOf, withoutChart. simpl. split; [|reflexivity].
      apply filter_twice. intros c Hc Hv. apply Nat.eqb_eq in Hv.
      apply negb_true_iff, Nat.eqb_neq. intros Hcid.
      unfold mayDeleteChart in E.
      destruct (find (fun c => (chart_id c =? i)%nat) (charts st)) as [chart|] eqn:Hfind;
        [|discriminate].
      apply Nat.eqb_eq in E. apply find_some in Hfind as [Hin Hid].
      apply Nat.eqb_eq in Hid. destruct Hs as (_ & (_ & Hnc & _) & _).
      assert (E' : c = chart) by (apply (@same_chart_id _ _ _ Hnc Hc Hin); congruence).
      subst c. congruence.
    + rewrite deleteChart_refused by exact E. split; reflexivity.
  - split; reflexivity.
  - rewrite columns_state. split; reflexivity.
Qed.

(** X4.  Isolation of users.  In a store the routes can reach, a call
    made by one user leaves the charts and the file records of every
    other user exactly as they were: what [GET /] of the charts and the
    file listing return for the others does not change.  For the
    deletion of a file this rests on X1: the cascade deletes by
    [sourceFile] alone, and only the owner of a file has charts on it. *)
Theorem a_call_leaves_the_other_users_alone (cs : list call) (c : call) (v : id) :
  caller c <> v ->
  chartsOf (perform c (reached cs)) v = chartsOf (reached cs) v /\
  filesOf (perform c (reached cs)) v = filesOf (reached cs) v.
Proof. intros Hne. apply perform_others; [apply reached_sound | exact Hne]. Qed.

(** ** Access control *)

Lemma columns_refused (user i : id) (st : db) :
  mayDelete st user i = false ->
  columns user i st
  = (Ok {| statusCode := 404; payload := Refused "File not found or access denied" |}, st).
Proof.
  unfold mayDelete, columns, try_catch, bind, findFileById. cbv beta iota.
  destruct (find _ (files st)) as [file|]; [|reflexivity].
  intros ->. reflexivity.
Qed.

Lemma createChart_refused (user i : id) (req : chartRequest) (st : db) :
  mayDelete st user i = false ->
  requiredFields req = true -> req_sourceFile req = Some i ->
  createChart user req st = (Ok fileNotFound, st).
Proof.
  unfold mayDelete. intros Hno Hreq Hsrc.
  unfold requiredFields in Hreq. rewrite Hsrc in Hreq.
  apply andb_prop in Hreq as [Hreq Hy]. apply andb_prop in Hreq as [Hreq Hx].
  apply andb_prop in Hreq as [Hreq _]. apply andb_prop in Hreq as [Ht Hc].
  unfold createChart, try_catch. rewrite Hsrc, Ht, Hc, Hx, Hy.
  unfold bind, findFileById. cbv beta iota. cbn [negb orb].
  destruct (find _ (files st)) as [file|]; [|reflexivity].
  rewrite Hno. reflexivity.
Qed.

Lemma deleteFileAt_cast (user i : id) (st : db) :
  deleteFileAt user (ObjectId i) st = deleteFile user i st.
Proof. reflexivity. Qed.

Lemma columnsAt_cast (user i : id) (st : db) :
  columnsAt user (ObjectId i) st = columns user i st.
Proof. reflexivity. Qed.

Lemma deleteChartAt_cast (user i : id) (st : db) :
  deleteChartAt user (ObjectId i) st = deleteChart user i st.
Proof. reflexivity. Qed.

(** A handler that answers in every case has nothing for an outer
    [catch] to do. *)
Lemma createChart_answers (user : id) (req : chartRequest) (st : db) :
  exists r st', createChart user req st = (Ok r, st').
Proof.
  unfold createChart, try_catch.
  match goal with |- context [match ?m st with _ => _ end] => destruct (m st) as [[r|e] st'] end;
    eexists; eexists; reflexivity.
Qed.

Lemma createChartAt_cast (user i : id) (req : chartRequest) (st : db) :
  req_sourceFile req = Some i ->
  createChartAt user (ObjectId i) req st = createChart user req st.
Proof.
  intros Hsrc.
  assert (E : onFile req i = req) by (destruct req; simpl in *; subst; reflexivity).
  unfold createChartAt. unfold try_catch at 1. cbn [given negb orb castObjectId].
  rewrite orb_false_r.
  destruct (negb (truthy (Str (req_title req))) || negb (truthy (Str (req_chartType req)))
            || negb (truthy (req_xColumn req)) || negb (truthy (req_yColumn req))) eqn:Hm.
  - unfold createChart, try_catch. rewrite Hsrc, Hm. reflexivity.
  - unfold bind, ret. rewrite E.
    destruct (createChart_answers user req st) as (r & st' & ->). reflexivity.
Qed.

Lemma createChartAt_malformed (user : id) (text : string) (req : chartRequest) (st : db) :
  requiredFields req = true -> truthy (Str text) = true ->
  createChartAt user (Malformed text) req st
  = (Ok {| status := 500; json := Message "Server error during chart creation" |}, st).
Proof.
  intros Hreq Htext. unfold requiredFields in Hreq.
  apply andb_prop in Hreq as [Hreq Hy]. apply andb_prop in Hreq as [Hreq Hx].
  apply andb_prop in Hreq as [Hreq _]. apply andb_prop in Hreq as [Ht Hc].
  unfold createChartAt, try_catch. cbn [given]. rewrite Ht, Hc, Hx, Hy, Htext.
  reflexivity.
Qed.

(** X5.  A file of someone else cannot be told from a file that does
    not exist.  When the parameter is an ObjectId that names no file of
    the caller (none at all, or one uploaded by another user), deleting
    it, asking for its columns and creating a chart on it (with every
    required field given) are all answered 404 "File not found or
    access denied", and the store is left as it was.  A string that is
    no ObjectId makes [findById] throw: the deletion, the columns and
    the creation (with every required field given, the string not
    empty) are then answered 500, with the message of their [catch],
    and change nothing either. *)
Theorem a_file_of_someone_else_looks_missing
  (user i : id) (text : string) (req : chartRequest) (st : db) :
  mayDelete st user i = false ->
  (deleteFileAt user (ObjectId i) st = (Ok fileNotFound, st) /\
   columnsAt user (ObjectId i) st
   = (Ok {| statusCode := 404; payload := Refused "File not found or access denied" |}, st) /\
   (requiredFields req = true -> req_sourceFile req = Some i ->
    createChartAt user (ObjectId i) req st = (Ok fileNotFound, st))) /\
  (deleteFileAt user (Malformed text) st
   = (Ok {| status := 500; json := Message "Server error during file deletion" |}, st) /\
   columnsAt user (Malformed text) st
   = (Ok {| statusCode := 500; payload := Refused "Failed to get columns" |}, st) /\
   (requiredFields req = true -> truthy (Str text) = true ->
    createChartAt user (Malformed text) req st
    = (Ok {| status := 500; json := Message "Server error during chart creation" |}, st))).
Proof.
  intros Hno. split; [|split; [reflexivity|split; [reflexivity|]]].
  - split; [rewrite deleteFileAt_cast; apply deleteFile_refused; exact Hno|].
    split; [rewrite columnsAt_cast; apply columns_refused; exact Hno|].
    intros Hreq Hsrc. rewrite (@createChartAt_cast user i req st Hsrc).
    exact (@createChart_refused user i req st Hno Hreq Hsrc).
  - apply createChartAt_malformed.
Qed.

(** X12.  A deleted file is gone for everyone.  After a deletion that
    was accepted, no user may delete the identifier again, no chart on
    it is left, and every later call on it is refused as for a file
    that never existed: a second deletion, the columns and a manual
    creation are answered 404 and change nothing, and bulk
    auto-generation, by any user, makes no chart on it. *)
Theorem a_deleted_file_is_gone (user i : id) (st : db) :
  mayDelete st user i = true ->
  let st' := after (deleteFile user i) st in
  (forall u, mayDelete st' u i = false) /\
  chartsOn st' i = [] /\
  (forall u, deleteFile u i st' = (Ok fileNotFound, st')) /\
  (forall u, columns u i st'
             = (Ok {| statusCode := 404;
                      payload := Refused "File not found or access denied" |}, st')) /\
  (forall u req, requiredFields req = true -> req_sourceFile req = Some i ->
                 createChart u req st' = (Ok fileNotFound, st')) /\
  (forall u, chartsOn (after (autogen u) st') i = []).
Proof.
  intros Hmay st'.
  destruct (deleteFile_cases user i st) as [[Hno _]|(file & _ & _ & Hrun)];
    [congruence|].
  assert (E : st' = withoutFile st i (path file)).
  { unfold st', after. rewrite Hrun. reflexivity. }
  clearbody st'. subst st'.
  assert (Hnone : forall u, mayDelete (withoutFile st i (path file)) u i = false).
  { intros u. unfold mayDelete, withoutFile. simpl.
    destruct (find _ (filter _ (files st))) as [g|] eqn:Hfind; [|reflexivity].
    apply find_some in Hfind as [Hin Hid]. apply filter_In in Hin as [_ Hne].
    rewrite Hid in Hne. discriminate. }
  assert (Hcharts : chartsOn (withoutFile st i (path file)) i = []).
  { unfold chartsOn, withoutFile. simpl. apply filter_none.
    intros c Hin. apply filter_In in Hin as [_ Hne]. apply negb_true_iff. exact Hne. }
  split; [exact Hnone|]. split; [exact Hcharts|].
  split; [intros u; apply deleteFile_refused; apply Hnone|].
  split; [intros u; apply columns_refused; apply Hnone|].
  split; [intros u req; apply createChart_refused; apply Hnone|].
  intros u. unfold chartsOn, after. rewrite autogen_run. simpl.
  rewrite turns_charts, filter_app. fold (chartsOn (withoutFile st i (path file)) i).
  rewrite Hcharts. simpl. apply filter_none. intros c Hin.
  apply turns_sources in Hin as (g & Hg & ->).
  unfold filesOf in Hg. apply filter_In in Hg as [Hg _].
  unfold withoutFile in Hg. simpl in Hg. apply filter_In in Hg as [_ Hne].
  apply negb_true_iff. exact Hne.
Qed.

(** ** Deleting and listing charts *)

Lemma filter_all {A : Type} (p : A -> bool) (l : list A) :
  (forall a, In a l -> p a = true) -> filter p l = l.
Proof.
  induction l as [|a l IH]; intros H; simpl; [reflexivity|].
  rewrite (H a (or_introl eq_refl)), IH; [reflexivity|].
  intros b Hb. apply H. right. exact Hb.
Qed.


Lemma filter_out_one (before rest : list Chart) (c : Chart) :
  NoDup (map chart_id (before ++ c :: rest)) ->
  filter (fun d => negb (chart_id d =? chart_id c)%nat) (before ++ c :: rest)
  = before ++ rest.
Proof.
  intros Hnd. rewrite filter_app. simpl. rewrite Nat.eqb_refl. simpl.
  rewrite map_app in Hnd. simpl in Hnd.
  apply NoDup_remove in Hnd as [Hnd Hnot].
  rewrite !filter_all; [reflexivity | |];
    intros d Hd; apply negb_true_iff, Nat.eqb_neq; intros E; apply Hnot;
    rewrite <- E; apply in_or_app; [right|left]; apply in_map; exact Hd.
Qed.

(** X6.  Deleting a chart ([DELETE /:id] of the charts).  In a store
    the routes can reach, a deletion by the chart's creator is answered
    200 and removes exactly that one chart, the others keeping their
    order; a deletion of an ObjectId that names no chart of the caller
    (no such chart, or a chart of someone else) is answered 404, and a
    parameter that is no ObjectId, on which [findById] throws, 500:
    both remove nothing.  In every case the files and the upload
    directory are untouched: deleting the last chart of a file does not
    delete the file. *)
Theorem deleting_a_chart_removes_that_chart_only (cs : list call) (user : id) (p : param) :
  let st := reached cs in
  let st' := after (deleteChartAt user p) st in
  files st' = files st /\ disk st' = disk st /\
  match p with
  | ObjectId i =>
      if mayDeleteChart st user i then
        answer (deleteChartAt user p) st
        = Ok {| status := 200; json := Message "Chart deleted successfully" |} /\
        exists (c : Chart) (before rest : list Chart),
          charts st = before ++ c :: rest /\ chart_id c = i /\ createdBy c = user /\
          charts st' = before ++ rest
      else
        answer (deleteChartAt user p) st = Ok chartNotFound /\ charts st' = charts st
  | Malformed _ =>
      answer (deleteChartAt user p) st
      = Ok {| status := 500; json := Message "Server error during chart deletion" |} /\
      charts st' = charts st
  end.
Proof.
  intros st st'. subst st'. unfold after, answer.
  destruct p as [i|text]; [|repeat split].
  rewrite deleteChartAt_cast.
  destruct (mayDeleteChart st user i) eqn:E.
  - rewrite deleteChart_done by exact E. simpl.
    split; [reflexivity|]. split; [reflexivity|]. split; [reflexivity|].
    unfold mayDeleteChart in E.
    destruct (find (fun c => (chart_id c =? i)%nat) (charts st)) as [c|] eqn:Hfind;
      [|discriminate].
    apply Nat.eqb_eq in E. apply find_some in Hfind as [Hin Hid].
    apply Nat.eqb_eq in Hid. apply in_split in Hin as (before & rest & Hsplit).
    exists c, before, rest. repeat (split; [assumption|]).
    destruct (reached_sound cs) as (_ & (_ & Hnc & _) & _). fold st in Hnc.
    rewrite Hsplit in *. subst i. apply filter_out_one. exact Hnc.
  - rewrite deleteChart_refused by exact E. repeat split.
Qed.


(** ** Manual creation, all or nothing *)

Lemma castString_truthy (v : value) :
  truthy v = true -> castString v = Str (ToString v).
Proof. destruct v; simpl; intros H; try reflexivity; discriminate. Qed.

(** X8.  [POST /] stores a chart exactly when it answers 201.  Either
    the answer is 201 with the stored chart, which is then the one
    chart appended to the collection (on the caller's file the request
    names, created by the caller, private, its title trimmed, its tags
    the two column names as the schema casts them, to strings); or the answer is a 400, a 404 or a 500 with
    a message and the chart collection is unchanged.  In both cases the
    file records and the upload directory are as before. *)
Theorem manual_creation_is_all_or_nothing (user : id) (req : chartRequest) (st : db) :
  let st' := after (createChart user req) st in
  files st' = files st /\ disk st' = disk st /\
  ((exists (chart : Chart) (file : File),
      answer (createChart user req) st
      = Ok {| status := 201; json := ChartBody "Chart created" chart |} /\
      charts st' = charts st ++ [chart] /\
      fileOfRequest st user req = Some file /\
      sourceFile chart = file_id file /\ createdBy chart = user /\
      title chart = trim (req_title req) /\
      description chart = req_description req /\
      chartType chart = req_chartType req /\
      isPublic chart = false /\
      tags chart = [Str (ToString (req_xColumn req)); Str (ToString (req_yColumn req))]) \/
   (exists (code : nat) (message : string),
      answer (createChart user req) st = Ok {| status := code; json := Message message |} /\
      In code [400; 404; 500] /\
      charts st' = charts st)).
Proof.
  intros st'. subst st'. unfold after, answer.
  set (Q := fun r : result response * db =>
    files (snd r) = files st /\ disk (snd r) = disk st /\
    ((exists (chart : Chart) (file : File),
        fst r = Ok {| status := 201; json := ChartBody "Chart created" chart |} /\
        charts (snd r) = charts st ++ [chart] /\
        fileOfRequest st user req = Some file /\
        sourceFile chart = file_id file /\ createdBy chart = user /\
        title chart = trim (req_title req) /\
        description chart = req_description req /\
        chartType chart = req_chartType req /\
        isPublic chart = false /\
        tags chart = [Str (ToString (req_xColumn req)); Str (ToString (req_yColumn req))]) \/
     (exists (code : nat) (message : string),
        fst r = Ok {| status := code; json := Message message |} /\
        In code [400; 404; 500] /\
        charts (snd r) = charts st))).
  change (Q (createChart user req st)).
  assert (R : forall code message st1,
             In code [400; 404; 500] -> charts st1 = charts st ->
             files st1 = files st -> disk st1 = disk st ->
             Q (Ok {| status := code; json := Message message |}, st1)).
  { intros code message st1 Hcode Hc Hf Hd. unfold Q. simpl.
    split; [exact Hf|]. split; [exact Hd|].
    right. exists code, message. auto. }
  unfold createChart, try_catch.
  destruct (req_sourceFile req) as [i|] eqn:Hsrc;
    [|apply R; simpl; auto].
  unfold bind, findFileById, respond, ret, readSheet.
  destruct (negb (truthy (Str (req_title req))) || _ || _ || _) eqn:Efields;
    [apply R; simpl; auto|].
  apply orb_false_iff in Efields as [Efields Hy].
  apply orb_false_iff in Efields as [_ Hx].
  apply negb_false_iff in Hx, Hy.
  cbv beta iota.
  destruct (find _ (files st)) as [file|] eqn:Efind; [|apply R; simpl; auto].
  destruct (uploadedBy file =? user)%nat eqn:Eown; cbn [negb]; [|apply R; simpl; auto].
  cbv beta iota.
  destruct (onDisk (disk st) (path file)) as [[table|]|];
    try (apply R; simpl; auto).
  cbv beta iota.
  destruct (List.length table <? 2)%nat; [apply R; simpl; auto|].
  destruct (List.length (dataRows table) =? 0)%nat; [apply R; simpl; auto|].
  destruct (indexOf (nth 0 table []) (req_xColumn req)) as [xIdx|];
    [|apply R; simpl; auto].
  destruct (indexOf (nth 0 table []) (req_yColumn req)) as [yIdx|];
    [|apply R; simpl; auto].
  destruct (List.length (cleanDataManual _ _ _ _) =? 0)%nat;
    [apply R; simpl; auto|].
  unfold newId, saveChart. cbv beta iota.
  match goal with |- context [valid ?c] => destruct (valid c) eqn:V end; cbv beta iota;
    [|apply R; simpl; auto].
  unfold Q. simpl. split; [reflexivity|]. split; [reflexivity|]. left.
  eexists. exists file. split; [reflexivity|]. split; [reflexivity|]. split.
  { unfold fileOfRequest. rewrite Hsrc, Efind, Eown. reflexivity. }
  repeat (split; [reflexivity|]).
  rewrite <- (castString_truthy _ Hx), <- (castString_truthy _ Hy). reflexivity.
Qed.

Lemma createChart_saves (user : id) (req : chartRequest) (st : db) (table : sheet)
  (xIdx yIdx : nat) :
  requiredFields req = true ->
  sheetOfRequest st user req = Some table ->
  2 <= List.length table ->
  dataRows table <> [] ->
  indexOf (nth 0 table []) (req_xColumn req) = Some xIdx ->
  indexOf (nth 0 table []) (req_yColumn req) = Some yIdx ->
  cleanDataManual (req_chartType req) (dataRows table) xIdx yIdx <> [] ->
  exists file : File,
    fileOfRequest st user req = Some file /\
    let c := {| chart_id := nextId st;
                title := req_title req;
                description := req_description req;
                chartType := req_chartType req;
                config := manualConfig (req_chartType req) (get (nth 0 table []) yIdx)
                            (cleanDataManual (req_chartType req) (dataRows table) xIdx yIdx);
                sourceFile := file_id file;
                createdBy := user;
                isPublic := false;
                tags := [req_xColumn req; req_yColumn req] |} in
    createChart user req st
    = if valid c
      then (Ok {| status := 201; json := ChartBody "Chart created" (stored c) |},
            withChart st (stored c))
      else (Ok {| status := 500; json := Message "Server error during chart creation" |},
            bump st).
Proof.
  unfold sheetOfRequest, fileOfRequest, requiredFields.
  destruct (req_sourceFile req) as [i|] eqn:Ei;
    [|rewrite andb_false_r; discriminate].
  destruct (find _ (files st)) as [file|] eqn:Efile; [|intros _; discriminate].
  destruct (uploadedBy file =? user)%nat eqn:Eowner; [|intros _; discriminate].
  destruct (onDisk (disk st) (path file)) as [[t|]|] eqn:Edisk; try (intros _; discriminate).
  intros Hreq H. injection H as ->. intros H2 Hrows Hx Hy Hclean.
  apply andb_prop in Hreq as [Hreq Hty]. apply andb_prop in Hreq as [Hreq Htx].
  apply andb_prop in Hreq as [Hreq _]. apply andb_prop in Hreq as [Ht Hc].
  exists file. split; [reflexivity|].
  unfold createChart, try_catch. rewrite Ei, Ht, Hc, Htx, Hty.
  unfold bind, findFileById, respond, ret, readSheet. cbn [negb orb]. cbv beta iota.
  rewrite Efile, Eowner. cbn [negb]. cbv beta iota. rewrite Edisk. cbv beta iota.
  destruct (Nat.ltb_spec (List.length table) 2) as [Hlt|_]; [lia|].
  destruct (Nat.eqb_spec (List.length (dataRows table)) 0) as [H0|_].
  { exfalso. apply Hrows. destruct (dataRows table); [reflexivity | discriminate]. }
  rewrite Hx, Hy.
  destruct (Nat.eqb_spec (List.length (cleanDataManual (req_chartType req)
                                         (dataRows table) xIdx yIdx)) 0) as [H0|_].
  { exfalso. apply Hclean. destruct (cleanDataManual _ _ _ _); [reflexivity | discriminate]. }
  unfold newId, saveChart. cbv beta iota zeta.
  match goal with |- context [valid ?c] => destruct (valid c) end; reflexivity.
Qed.

(** X9.  A request the schema refuses is answered 500.  When a request
    for manual creation has passed every check of the route (required
    fields, the caller's readable file, two rows, a non-empty data row,
    both columns found, a cleaned point left), the answer is decided by
    the chart schema alone: 201, the chart stored with its title
    trimmed, when the trimmed title is not empty and at most 100
    characters long, the description at most 500 and the chart type one
    of the enumeration; and otherwise (a title of white space only, a
    type such as "gauge") 500 "Server error during chart creation", not
    a 400, with no chart stored. *)
Theorem a_request_the_schema_refuses_is_answered_500
  (user : id) (req : chartRequest) (st : db) (table : sheet) (xIdx yIdx : nat) :
  requiredFields req = true ->
  sheetOfRequest st user req = Some table ->
  2 <= List.length table ->
  dataRows table <> [] ->
  indexOf (nth 0 table []) (req_xColumn req) = Some xIdx ->
  indexOf (nth 0 table []) (req_yColumn req) = Some yIdx ->
  cleanDataManual (req_chartType req) (dataRows table) xIdx yIdx <> [] ->
  let st' := after (createChart user req) st in
  if negb (String.eqb (trim (req_title req)) "")
     && (String.length (trim (req_title req)) <=? 100)%nat
     && match req_description req with
        | Some d => (String.length d <=? 500)%nat
        | None => true
        end
     && existsb (String.eqb (req_chartType req)) chartTypes
  then
    exists chart : Chart,
      answer (createChart user req) st
      = Ok {| status := 201; json := ChartBody "Chart created" chart |} /\
      charts st' = charts st ++ [chart] /\
      title chart = trim (req_title req) /\
      config chart
      = manualConfig (req_chartType req) (get (nth 0 table []) yIdx)
          (cleanDataManual (req_chartType req) (dataRows table) xIdx yIdx)
  else
    answer (createChart user req) st
    = Ok {| status := 500; json := Message "Server error during chart creation" |} /\
    charts st' = charts st.
Proof.
  intros Hreq Hsheet H2 Hrows Hx Hy Hclean st'. subst st'.
  destruct (@createChart_saves user req st table xIdx yIdx Hreq Hsheet H2 Hrows Hx Hy Hclean)
    as (file & _ & Hrun).
  cbv zeta in Hrun. unfold valid in Hrun. cbn [title description chartType] in Hrun.
  unfold after, answer. rewrite Hrun.
  destruct (negb (String.eqb (trim (req_title req)) "")
            && (String.length (trim (req_title req)) <=? 100)%nat
            && match req_description req with
               | Some d => (String.length d <=? 500)%nat
               | None => true
               end
            && existsb (String.eqb (req_chartType req)) chartTypes).
  - eexists. repeat split.
  - split; reflexivity.
Qed.

(** ** Uploads *)

(** X10.  An upload the middleware accepts is always stored.  When the
    filter accepts the file and the file is within the size limit, the
    route answers 201 with the file record, appends that record to the
    files and writes the bytes under the stored name, whatever the
    bytes are (a workbook or not, charts or none): a failure of the
    chart generation that follows is caught and never fails the upload.
    The charts it adds, if any, are charts of the uploader on the new
    file.  An upload the filter refuses, or one over the size limit,
    stores nothing. *)
Theorem an_accepted_upload_is_always_stored
  (overLimit : bool) (user : id) (f : incoming) (st : db) :
  let st' := after (uploadRoute overLimit user (Some f)) st in
  if fileFilter f && negb overLimit then
    answer (uploadRoute overLimit user (Some f)) st
    = Ok {| status := 201;
            json := FileBody "File uploaded successfully" (fileRecord user f (nextId st)) |} /\
    files st' = files st ++ [fileRecord user f (nextId st)] /\
    disk st' = (storedPath f, bytes f) :: disk st /\
    exists new : list Chart,
      charts st' = charts st ++ new /\
      Forall (fun c => createdBy c = user /\ sourceFile c = nextId st) new
  else st' = st.
Proof.
  intros st'. subst st'. unfold uploadRoute.
  destruct (fileFilter f) eqn:Hfilter, overLimit; cbn [andb negb];
    try reflexivity; try (apply upload_refused; exact Hfilter).
  unfold after, answer. rewrite (upload_accepted user f st Hfilter). simpl.
  split; [reflexivity|].
  destruct (@uploadCharts_appends (fun c => createdBy c = user /\ sourceFile c = nextId st)
              user (fileRecord user f (nextId st)) (withUpload st user f))
    as (Hf & Hd & _ & new & Hc & _ & HP).
  { intros c Hu Hs. split; [exact Hu | exact Hs]. }
  split; [exact Hf|]. split; [exact Hd|]. exists new. split; [exact Hc|].
  eapply Forall_impl; [|exact HP]. intros c (_ & _ & H). exact H.
Qed.

Lemma find_last {A : Type} (p : A -> bool) (l : list A) (a : A) :
  (forall x, In x l -> p x = false) -> p a = true -> find p (l ++ [a]) = Some a.
Proof.
  induction l as [|x l IH]; intros Hl Ha; simpl.
  - rewrite Ha. reflexivity.
  - rewrite (Hl x (or_introl eq_refl)). apply IH; [|exact Ha].
    intros y Hy. apply Hl. right. exact Hy.
Qed.

Lemma onDisk_none (d : list (string * option sheet)) (p : string) :
  onDisk d p = None -> filter (fun e => negb (String.eqb (fst e) p)) d = d.
Proof.
  induction d as [|[q w] d IH]; simpl; [reflexivity|].
  destruct (String.eqb q p); [discriminate|]. intros H. simpl. rewrite IH; auto.
Qed.

(** X11.  Deleting a file right after its upload undoes the upload.
    From a store the routes can reach, when nothing is stored yet under
    the name the upload gets, an accepted upload followed by the
    deletion of the new file by the uploader is answered 200 and leaves
    the file records, the charts (those made at the upload go with the
    file) and the upload directory exactly as they were before the
    upload. *)
Theorem deleting_an_upload_undoes_it (cs : list call) (user : id) (f : incoming) :
  let st := reached cs in
  fileFilter f = true ->
  onDisk (disk st) (storedPath f) = None ->
  let st1 := after (upload user (Some f)) st in
  let st2 := after (deleteFile user (nextId st)) st1 in
  answer (deleteFile user (nextId st)) st1
  = Ok {| status := 200; json := Message "File deleted successfully" |} /\
  files st2 = files st /\ charts st2 = charts st /\ disk st2 = disk st.
Proof.
  intros st Hfilter Hfree st1 st2.
  destruct (reached_sound cs) as (_ & (_ & _ & Hfid & Hcid) & _). fold st in Hfid, Hcid.
  pose proof (an_upload_effect := @uploadCharts_appends
                (fun c => sourceFile c = nextId st)
                user (fileRecord user f (nextId st)) (withUpload st user f)
                (fun c _ Hs => Hs)).
  assert (E1 : st1 = snd (uploadCharts user (fileRecord user f (nextId st))
                            (withUpload st user f))).
  { unfold st1, after. rewrite (upload_accepted user f st Hfilter). reflexivity. }
  rewrite <- E1 in an_upload_effect.
  destruct an_upload_effect as (Hf & Hd & _ & new & Hc & _ & HP).
  unfold withUpload in Hf, Hd, Hc. simpl in Hf, Hd, Hc.
  assert (Hfind : find (fun g => (file_id g =? nextId st)%nat) (files st1)
                  = Some (fileRecord user f (nextId st))).
  { rewrite Hf. apply find_last; [|apply Nat.eqb_refl].
    intros g Hg. apply Nat.eqb_neq. specialize (Hfid g Hg). lia. }
  assert (Hrun := @deleteFile_done user (nextId st) _ st1 Hfind eq_refl).
  unfold st2, after, answer. rewrite Hrun. simpl. split; [reflexivity|].
  rewrite Hf, Hc, Hd. rewrite !filter_app. simpl.
  rewrite Nat.eqb_refl, String.eqb_refl. simpl.
  split; [|split].
  - rewrite app_nil_r. apply filter_all. intros g Hg.
    apply negb_true_iff, Nat.eqb_neq. specialize (Hfid g Hg). lia.
  - rewrite (@filter_none _ _ new).
    + rewrite app_nil_r. apply filter_all. intros c Hin.
      apply negb_true_iff, Nat.eqb_neq. destruct (Hcid c Hin). lia.
    + intros c Hin. rewrite Forall_forall in HP. destruct (HP c Hin) as (_ & _ & Hs).
      apply negb_false_iff, Nat.eqb_eq. exact Hs.
  - apply onDisk_none. exact Hfree.
Qed.

(** ** Column names *)

Lemma indexOf_from_found (headers : array) (v : value) (start : nat) :
  In (Some v) headers -> strict_eq v v = true ->
  indexOf_from headers v start <> None.
Proof.
  revert start. induction headers as [|[w|] headers IH]; intros start Hin Hrefl; simpl.
  - destruct Hin.
  - destruct (strict_eq w v) eqn:E; [discriminate|].
    destruct Hin as [Hin|Hin]; [|apply IH; assumption].
    injection Hin as ->. congruence.
  - destruct Hin as [Hin|Hin]; [discriminate | apply IH; assumption].
Qed.

Lemma indexOf_from_sound (headers : array) (v : value) (start i : nat) :
  indexOf_from headers v start = Some i ->
  start <= i /\
  (exists w, nth_error headers (i - start) = Some (Some w) /\ strict_eq w v = true) /\
  (forall j w, j < i - start -> nth_error headers j = Some (Some w) ->
               strict_eq w v = false).
Proof.
  revert start. induction headers as [|[w|] headers IH]; intros start; simpl.
  - discriminate.
  - destruct (strict_eq w v) eqn:E.
    + intros H. injection H as <-. split; [lia|]. rewrite Nat.sub_diag. split.
      * exists w. auto.
      * intros j w' Hj. lia.
    + intros H. destruct (IH (S start) H) as (Hle & (w' & Hnth & Heq) & Hfirst).
      split; [lia|]. replace (i - start) with (S (i - S start)) by lia. split.
      * exists w'. auto.
      * intros [|j] w'' Hj; simpl.
        -- intros Hw. injection Hw as <-. exact E.
        -- apply Hfirst. lia.
  - intros H. destruct (IH (S start) H) as (Hle & (w' & Hnth & Heq) & Hfirst).
    split; [lia|]. replace (i - start) with (S (i - S start)) by lia. split.
    + exists w'. auto.
    + intros [|j] w'' Hj; simpl; [discriminate|]. apply Hfirst. lia.
Qed.

(** X13.  The columns a chart can be made of.  [GET /:id/columns]
    changes nothing and, for a readable file of the caller, answers 200
    with the first row of the first sheet (the empty list for an empty
    sheet).  That row is the one [POST /] resolves the column names in:
    a request on the same file whose two names are strings taken from
    the row is never refused as "Selected columns not found in file",
    and the column it charts for a name is the first one whose header
    cell is strictly equal to the name. *)
Theorem names_taken_from_the_columns_are_found
  (user i : id) (file : File) (json : sheet) (req : chartRequest) (x y : string) (st : db) :
  find (fun f => (file_id f =? i)%nat) (files st) = Some file ->
  uploadedBy file = user ->
  onDisk (disk st) (path file) = Some (Some json) ->
  req_sourceFile req = Some i ->
  req_xColumn req = Str x -> In (Some (Str x)) (nth 0 json []) ->
  req_yColumn req = Str y -> In (Some (Str y)) (nth 0 json []) ->
  columns user i st = (Ok {| statusCode := 200; payload := Sent (nth 0 json []) |}, st) /\
  columnMissing (nth 0 json []) req = false /\
  answer (createChart user req) st <> Ok columnNotFound /\
  exists xIdx yIdx,
    indexOf (nth 0 json []) (req_xColumn req) = Some xIdx /\
    indexOf (nth 0 json []) (req_yColumn req) = Some yIdx /\
    get (nth 0 json []) xIdx = Str x /\ get (nth 0 json []) yIdx = Str y /\
    (forall j, j < xIdx -> get (nth 0 json []) j <> Str x) /\
    (forall j, j < yIdx -> get (nth 0 json []) j <> Str y).
Proof.
  intros Hfind Hown Hdisk Hsrc Hx Hinx Hy Hiny.
  assert (Hfx := @indexOf_from_found _ _ 0 Hinx (String.eqb_refl x)).
  assert (Hfy := @indexOf_from_found _ _ 0 Hiny (String.eqb_refl y)).
  fold (indexOf (nth 0 json []) (Str x)) in Hfx.
  fold (indexOf (nth 0 json []) (Str y)) in Hfy.
  destruct (indexOf (nth 0 json []) (Str x)) as [xIdx|] eqn:Ex; [|congruence].
  destruct (indexOf (nth 0 json []) (Str y)) as [yIdx|] eqn:Ey; [|congruence].
  split; [|split; [|split]].
  - unfold columns, try_catch, bind, findFileById, readSheet. cbv beta iota.
    rewrite Hfind, Hown, Nat.eqb_refl. cbn [negb]. cbv beta iota.
    rewrite Hdisk. cbv beta iota.
    destruct json as [|headers json]; reflexivity.
  - unfold columnMissing. rewrite Hx, Hy, Ex, Ey. reflexivity.
  - unfold answer, createChart, try_catch. rewrite Hsrc.
    unfold bind, findFileById, respond, ret, readSheet.
    destruct (negb (truthy (Str (req_title req))) || _ || _ || _); [discriminate|].
    cbv beta iota. rewrite Hfind, Hown, Nat.eqb_refl. cbn [negb]. cbv beta iota.
    rewrite Hdisk. cbv beta iota.
    destruct (List.length json <? 2)%nat; [discriminate|].
    destruct (List.length (dataRows json) =? 0)%nat; [discriminate|].
    rewrite Hx, Hy, Ex, Ey.
    destruct (List.length (cleanDataManual _ _ _ _) =? 0)%nat; [discriminate|].
    unfold newId, saveChart. cbv beta iota.
    match goal with |- context [valid ?c] => destruct (valid c) end; discriminate.
  - exists xIdx, yIdx. rewrite Hx, Hy. split; [exact Ex|]. split; [exact Ey|].
    unfold indexOf in Ex, Ey.
    destruct (indexOf_from_sound _ _ _ Ex) as (_ & (wx & Hnx & Hex) & Hfirstx).
    destruct (indexOf_from_sound _ _ _ Ey) as (_ & (wy & Hny & Hey) & Hfirsty).
    rewrite Nat.sub_0_r in *.
    assert (Hs : forall (w : value) (s : string), strict_eq w (Str s) = true -> w = Str s).
    { intros [| | b | n | s' | t] s; simpl; try discriminate.
      intros E. apply String.eqb_eq in E. congruence. }
    unfold get. rewrite Hnx, Hny. rewrite (Hs _ _ Hex), (Hs _ _ Hey).
    split; [reflexivity|]. split; [reflexivity|]. split.
    + intros j Hj. destruct (nth_error (nth 0 json []) j) as [[w|]|] eqn:Ej; try discriminate.
      intros ->. pose proof (Hfirstx j _ Hj Ej) as F.
      simpl in F. rewrite String.eqb_refl in F. discriminate.
    + intros j Hj. destruct (nth_error (nth 0 json []) j) as [[w|]|] eqn:Ej; try discriminate.
      intros ->. pose proof (Hfirsty j _ Hj Ej) as F.
      simpl in F. rewrite String.eqb_refl in F. discriminate.
Qed.

(** ** The choice of columns in bulk auto-generation *)

Lemma filter_present_first {B : Type} (p : B -> bool) (f : value -> nat -> B)
  (a : array) (start : nat) (b : B) (rest : list B) :
  filter_present p (mapi_from f a start) = b :: rest ->
  exists i v,
    nth_error a i = Some (Some v) /\ b = f v (start + i) /\ p b = true /\
    forall j w, j < i -> nth_error a j = Some (Some w) -> p (f w (start + j)) = false.
Proof.
  revert start. induction a as [|[v|] a IH]; intros start; simpl.
  - discriminate.
  - destruct (p (f v start)) eqn:E.
    + intros H. injection H as <- _. exists 0, v. rewrite Nat.add_0_r.
      repeat split; auto. intros j w Hj. lia.
    + intros H. destruct (IH (S start) H) as (i & v' & Hnth & Hb & Hp & Hfirst).
      exists (S i), v'. replace (start + S i) with (S start + i) by lia.
      repeat split; auto. intros [|j] w Hj; simpl.
      * intros Hw. injection Hw as <-. rewrite Nat.add_0_r. exact E.
      * intros Hw. replace (start + S j) with (S start + j) by lia.
        apply (Hfirst j w); [lia | exact Hw].
  - intros H. destruct (IH (S start) H) as (i & v' & Hnth & Hb & Hp & Hfirst).
    exists (S i), v'. replace (start + S i) with (S start + i) by lia.
    repeat split; auto. intros [|j] w Hj; simpl; [discriminate|].
    intros Hw. replace (start + S j) with (S start + j) by lia.
    apply (Hfirst j w); [lia | exact Hw].
Qed.

Lemma analyse_index (rows : list array) (header : value) (index : nat) :
  Synth.index (analyse rows header index) = index /\
  Synth.header (analyse rows header index) = header /\
  (type (analyse rows header index) <> empty -> hasData (analyse rows header index) = true).
Proof.
  unfold analyse. destruct (Nat.eqb_spec (List.length (columnValues rows index)) 0) as [E|E];
    simpl.
  - repeat split. intros H. congruence.
  - repeat split. intros _. apply Nat.ltb_lt. lia.
Qed.

Lemma first_of_type (t : columnType) (headers : array) (rows : list array)
  (col : column) (rest : list column) :
  t <> empty ->
  filter_present (fun c => columnType_eqb (type c) t && hasData c)
    (columnAnalysis headers rows) = col :: rest ->
  exists i h,
    nth_error headers i = Some (Some h) /\ col = analyse rows h i /\
    type (analyse rows h i) = t /\
    forall j w, j < i -> nth_error headers j = Some (Some w) ->
                type (analyse rows w j) <> t.
Proof.
  intros Ht H. unfold columnAnalysis, mapi in H.
  apply filter_present_first in H as (i & h & Hnth & Hcol & Hp & Hfirst).
  assert (Heqb : forall a b, columnType_eqb a b = true <-> a = b).
  { intros [] []; simpl; split; congruence. }
  exists i, h. simpl in Hcol. split; [exact Hnth|]. split; [exact Hcol|]. split.
  - subst col. apply andb_prop in Hp as [Hp _]. apply Heqb. exact Hp.
  - intros j w Hj Hw Htype. specialize (Hfirst j w Hj Hw). simpl in Hfirst.
    destruct (analyse_index rows w j) as (_ & _ & Hdata).
    rewrite Hdata in Hfirst by congruence.
    rewrite andb_true_r in Hfirst. apply (proj2 (Heqb _ _)) in Htype. congruence.
Qed.

(** X14.  The columns bulk auto-generation charts.  Whenever it builds
    a chart from a sheet, the X axis is the first column, in column
    order, that the classifier calls categorical and the Y axis the
    first it calls numeric (columns without a header cell are not
    looked at): no earlier column has that type.  The chart is made of
    the cleaned rows of these two columns, its title and its dataset
    label naming their headers. *)
Theorem autogen_charts_the_first_categorical_and_the_first_numeric_column
  (user : id) (file : File) (json : sheet) (mk : id -> Chart) :
  draft user file json = Built mk ->
  let headers := nth 0 json [] in
  let rows := dataRows json in
  exists (xIdx yIdx : nat) (xHeader yHeader : value),
    nth_error headers xIdx = Some (Some xHeader) /\
    nth_error headers yIdx = Some (Some yHeader) /\
    type (analyse rows xHeader xIdx) = categorical /\
    type (analyse rows yHeader yIdx) = numeric /\
    (forall j h, j < xIdx -> nth_error headers j = Some (Some h) ->
                 type (analyse rows h j) <> categorical) /\
    (forall j h, j < yIdx -> nth_error headers j = Some (Some h) ->
                 type (analyse rows h j) <> numeric) /\
    forall i,
      config (mk i) = autogenConfig yHeader (cleanDataAuto rows xIdx yIdx) /\
      title (mk i) = (originalName file ++ " - " ++ ToString yHeader
                      ++ " by " ++ ToString xHeader)%string.
Proof.
  unfold draft.
  destruct (List.length json <? 2)%nat; [discriminate|].
  destruct (List.length (dataRows json) =? 0)%nat; [discriminate|].
  destruct (categoricalColumns _) as [|xColumn xs] eqn:Ex; [discriminate|].
  destruct (numericColumns _) as [|yColumn ys] eqn:Ey; [discriminate|].
  destruct (List.length (cleanDataAuto _ _ _) =? 0)%nat; [discriminate|].
  intros E. injection E as <-.
  unfold categoricalColumns in Ex. unfold numericColumns in Ey.
  apply first_of_type in Ex as (xIdx & xHeader & Hnx & -> & Htx & Hfx); [|discriminate].
  apply first_of_type in Ey as (yIdx & yHeader & Hny & -> & Hty & Hfy); [|discriminate].
  exists xIdx, yIdx, xHeader, yHeader.
  destruct (analyse_index (dataRows json) xHeader xIdx) as (Hix & Hhx & _).
  destruct (analyse_index (dataRows json) yHeader yIdx) as (Hiy & Hhy & _).
  repeat (split; [assumption|]).
  intros i. cbn [config title]. rewrite Hix, Hiy, Hhx, Hhy. split; reflexivity.
Qed.

(** ** How many points a chart has, and of what kind *)

Lemma firstn_incl {A : Type} (n : nat) (l : list A) (a : A) :
  In a (firstn n l) -> In a l.
Proof. intros H. rewrite <- (firstn_skipn n l). apply in_or_app. left. exact H. Qed.

Lemma length_insert_index {A : Type} (i : N) (a : A) (l : list (N * A)) :
  List.length (insert_index i a l) = S (List.length l).
Proof.
  induction l as [|[j b] l IH]; simpl; [reflexivity|].
  destruct (i <? j)%N; simpl; [reflexivity | now rewrite IH].
Qed.

Lemma length_entries (o : object) : List.length (entries o) = List.length o.
Proof.
  unfold entries. rewrite length_app, length_map.
  induction o as [|[k v] o IH]; simpl; [reflexivity|].
  unfold is_index_key at 1. simpl.
  destruct (array_index k); simpl; [rewrite length_insert_index|]; lia.
Qed.

Lemma length_put (o : object) (k : string) (v : value) :
  List.length (put o k v) <= S (List.length o).
Proof.
  induction o as [|[k' v'] o IH]; simpl; [lia|].
  destruct (String.eqb k' k); simpl; lia.
Qed.

Lemma length_aggregatedData (cleanData : list point) :
  List.length (aggregatedData cleanData) <= List.length cleanData.
Proof.
  unfold aggregatedData.
  assert (H : forall acc : object,
            List.length
              (fold_left
                 (fun acc item =>
                    let key := ToString (x item) in
                    let seen := lookup acc key in
                    assign acc key (plus (if truthy seen then seen else Num PrimFloat.zero)
                                         (Num (y item))))
                 cleanData acc)
            <= List.length acc + List.length cleanData).
  { induction cleanData as [|item l IH]; intros acc; simpl; [lia|].
    eapply Nat.le_trans; [apply IH|]. unfold assign.
    destruct (String.eqb (ToString (x item)) "__proto__"); [lia|].
    match goal with |- context [put acc ?k ?v] => pose proof (length_put acc k v) end.
    lia. }
  apply (H []).
Qed.

(** X15.  How many points a chart has, and of what kind.  For every
    sheet and every pair of columns, the configuration of bulk
    auto-generation has exactly min(20, n) labels and values, n being
    the number of rows whose X cell is not blank, and the configuration
    of manual creation, for a type other than pie and doughnut, exactly
    min(50, n); a pie or doughnut has at most 50.  In the first two the
    labels are strings and the values are numbers, none of them NaN. *)
Theorem charts_keep_to_the_cap_and_plot_no_NaN
  (chartType : string) (yHeader : value) (rows : list array) (xIdx yIdx : nat) :
  let n := List.length (keptRows rows xIdx) in
  let auto := autogenConfig yHeader (cleanDataAuto rows xIdx yIdx) in
  let manual := manualConfig chartType yHeader (cleanDataManual chartType rows xIdx yIdx) in
  let stringsAndNumbers (c : chartConfig) :=
    Forall (fun v => is_string v = true) (labels c) /\
    exists d, datasets c = [d] /\
              Forall (fun v => exists y, v = Num y /\ isNaN y = false) (data d) in
  (labelCount auto = Nat.min 20 n /\ dataCount auto = Nat.min 20 n /\
   stringsAndNumbers auto) /\
  labelCount manual <= 50 /\
  (isPieLike chartType = false ->
   labelCount manual = Nat.min 50 n /\ dataCount manual = Nat.min 50 n /\
   stringsAndNumbers manual).
Proof.
  intros n auto manual stringsAndNumbers.
  assert (Hpoints : forall k,
            let cleaned := firstn k (map (pointOf xIdx yIdx) (keptRows rows xIdx)) in
            List.length cleaned = Nat.min k n /\
            Forall (fun v => is_string v = true)
              (map (fun item => Str (ToString (x item))) cleaned) /\
            Forall (fun v => exists y', v = Num y' /\ isNaN y' = false)
              (map (fun item => Num (y item)) cleaned)).
  { intros k cleaned. split; [|split].
    - unfold cleaned. rewrite length_firstn, length_map. reflexivity.
    - apply Forall_forall. intros v Hin. apply in_map_iff in Hin as (item & <- & _).
      reflexivity.
    - apply Forall_forall. intros v Hin. apply in_map_iff in Hin as (item & <- & Hin).
      exists (y item). split; [reflexivity|].
      apply firstn_incl in Hin. apply in_map_iff in Hin as (row & <- & _).
      apply or_zero_not_NaN. }
  split; [|split].
  - subst auto. rewrite cleanDataAuto_kept.
    destruct (Hpoints 20) as (Hlen & Hl & Hd).
    unfold labelCount, dataCount, autogenConfig. cbn [labels datasets data].
    rewrite !length_map. split; [exact Hlen|]. split; [exact Hlen|].
    split; [exact Hl|]. eexists. split; [reflexivity|]. exact Hd.
  - subst manual. rewrite cleanDataManual_kept.
    destruct (Hpoints 50) as (Hlen & _).
    unfold labelCount, manualConfig. destruct (isPieLike chartType); cbn [labels].
    + rewrite length_map. unfold keys. rewrite length_map, length_entries.
      eapply Nat.le_trans; [apply length_aggregatedData|]. rewrite Hlen. lia.
    + rewrite length_map, Hlen. lia.
  - intros Hpie. subst manual. rewrite cleanDataManual_kept.
    destruct (Hpoints 50) as (Hlen & Hl & Hd).
    unfold labelCount, dataCount, manualConfig. rewrite Hpie.
    cbn [labels datasets data].
    rewrite !length_map. split; [exact Hlen|]. split; [exact Hlen|].
    split; [exact Hl|]. eexists. split; [reflexivity|]. exact Hd.
Qed.

(** ** The two tallies of the classifier *)

Lemma countIf_disjoint {A : Type} (p q r : A -> bool) (l : list A) :
  (forall a, p a = true -> q a = false) ->
  (forall a, p a = true -> r a = true) ->
  (forall a, q a = true -> r a = true) ->
  countIf p l + countIf q l <= countIf r l.
Proof.
  intros Hpq Hpr Hqr. induction l as [|a l IH]; simpl; [lia|].
  destruct (p a) eqn:Ep, (q a) eqn:Eq.
  - rewrite (Hpq a Ep) in Eq. discriminate.
  - rewrite (Hpr a Ep). lia.
  - rewrite (Hqr a Eq). lia.
  - destruct (r a); lia.
Qed.

(** X16.  A strict majority decides the type of a column.  No cell is
    counted both as numeric and as a non-numeric string, so the two
    tallies together never exceed the number of filled cells; hence a
    column more than half of whose filled cells parse as numbers is
    numeric, one more than half of whose filled cells are non-numeric
    strings is categorical, and a numeric column always has a cell that
    parses as a number. *)
Theorem a_strict_majority_decides_the_type
  (rows : list array) (header : value) (index : nat) :
  let filled := filledCells rows index in
  let n := numericCells rows index in
  let s := stringCells rows index in
  n + s <= filled /\
  (filled < 2 * n -> type (analyse rows header index) = numeric) /\
  (filled < 2 * s -> type (analyse rows header index) = categorical) /\
  (type (analyse rows header index) = numeric -> 0 < n).
Proof.
  intros filled n s.
  assert (Hsum : n + s <= filled).
  { apply countIf_disjoint.
    - intros v Hv. apply andb_prop in Hv as [Hb Hn]. rewrite Hb. simpl.
      unfold countsAsNumeric, countsAsString in *.
      destruct v as [| | b | y | t | t]; simpl in *; try reflexivity.
      + rewrite negb_true_iff in Hn. exact Hn.
    - intros v Hv. apply andb_prop in Hv as [Hb _]. exact Hb.
    - intros v Hv. apply andb_prop in Hv as [Hb _]. exact Hb. }
  split; [exact Hsum|]. rewrite analyse_type. fold filled n s.
  split; [|split].
  - intros H. destruct (Nat.eqb_spec filled 0) as [E|E]; [lia|].
    destruct (Nat.ltb_spec s n); [reflexivity | lia].
  - intros H. destruct (Nat.eqb_spec filled 0) as [E|E]; [lia|].
    destruct (Nat.ltb_spec s n); [lia | reflexivity].
  - destruct (Nat.eqb_spec filled 0) as [E|E]; [discriminate|].
    destruct (Nat.ltb_spec s n); [lia | discriminate].
Qed.

(** ** What a run of bulk auto-generation creates *)

Lemma distinct_after_filter {K E : Type} (key : E -> K) (keep : E -> bool)
  (xs : list E) (Hxs : NoDup (map key xs)) :
  NoDup (map key (filter keep xs)).
Proof.
  induction xs as [|e xs IH]; simpl; [constructor|].
  inversion Hxs as [|? ? Hnot Hrest]; subst.
  destruct (keep e); simpl; [|apply IH; exact Hrest].
  constructor; [|apply IH; exact Hrest].
  intros Hin. apply Hnot. apply in_map_iff in Hin as (e' & Hkey & Hin).
  apply filter_In in Hin as [Hin _]. apply in_map_iff. exists e'. auto.
Qed.

Lemma turns_pending (user : id) (fs : list File) (st : db) :
  NoDup (map file_id fs) ->
  map sourceFile (fst (turns user fs st))
  = map file_id
      (filter (fun f => negb (hasChart (charts st) (file_id f) user)
                        && chartable (disk st) user f) fs).
Proof.
  revert st. induction fs as [|f fs IH]; intros st Hnd; simpl; [reflexivity|].
  inversion Hnd as [|? ? Hnot Hrest]; subst.
  pose proof (turn_charts user f st) as Hc.
  destruct (turn_frame user f st) as (_ & Hd & _).
  rewrite map_app, (IH _ Hrest), Hd.
  destruct (fst (turn user f st)) as [c|] eqn:Emade.
  - destruct (turn_made user f st Emade) as (Hs & Hu & _ & Hno & Hable & _).
    rewrite Hno, Hable. simpl. rewrite Hs. f_equal. f_equal.
    apply filter_ext_in. intros g Hg. rewrite Hc, hasChart_app. simpl.
    assert (Hne : (sourceFile c =? file_id g)%nat = false).
    { apply Nat.eqb_neq. rewrite Hs. intros E. apply Hnot. rewrite E.
      apply in_map. exact Hg. }
    unfold hasChart at 2. simpl. rewrite Hne. simpl. rewrite orb_false_r. reflexivity.
  - apply (proj1 (turn_none user f st)) in Emade.
    assert (Hfalse : negb (hasChart (charts st) (file_id f) user)
                     && chartable (disk st) user f = false).
    { destruct Emade as [-> | ->]; [reflexivity | apply andb_false_r]. }
    rewrite Hfalse. simpl. rewrite Hc. simpl. rewrite app_nil_r. reflexivity.
Qed.

(** X17.  What a run of bulk auto-generation creates.  In a store the
    routes can reach, [POST /autogen] makes exactly one chart for each
    file of the caller that has no chart of the caller yet and can be
    charted (an Excel media type, a sheet from which a chart can be
    built, a title and a description the schema accepts), in the order
    of the files, and nothing else; the count it reports is the number
    of these files. *)
Theorem autogen_charts_every_pending_file_once (cs : list call) (user : id) :
  let st := reached cs in
  let pending :=
    filter (fun f => negb (hasChart (charts st) (file_id f) user)
                     && chartable (disk st) user f) (filesOf st user) in
  exists created : list Chart,
    answer (autogen user) st
    = Ok {| status := 201;
            json := AutogenBody "Auto-generated charts" (List.length pending)
                      (map (fun chart => (title chart, chart_id chart)) created) |} /\
    charts (after (autogen user) st) = charts st ++ created /\
    map sourceFile created = map file_id pending /\
    Forall (fun c => createdBy c = user /\ chartType c = "bar") created.
Proof.
  intros st pending. exists (fst (turns user (filesOf st user) st)).
  assert (Hsrc : map sourceFile (fst (turns user (filesOf st user) st))
                 = map file_id pending).
  { apply turns_pending. unfold filesOf. apply distinct_after_filter.
    destruct (reached_sound cs) as (_ & (Hnf & _) & _). exact Hnf. }
  unfold answer, after. rewrite autogen_run. simpl. split; [|split; [|split]].
  - unfold autogenReport. do 3 f_equal.
    rewrite <- (length_map sourceFile), Hsrc, length_map. reflexivity.
  - apply turns_charts.
  - exact Hsrc.
  - apply Forall_forall. intros c Hin.
    destruct (turns_made user (filesOf st user) st) as (_ & Hall).
    destruct (Hall c Hin) as (Hu & Ht & _). auto.
Qed.

(** ** The share list of a chart *)

Lemma shareOf_update (userId : id) (p : string) (now : Z) (l : list share) :
  shareOf userId l <> None ->
  shareOf userId (updateShare userId p now l)
  = Some {| Rest.user := userId; permissions := p; sharedAt := now |}.
Proof.
  unfold shareOf. induction l as [|s l IH]; simpl; [congruence|].
  destruct (Rest.user s =? userId)%nat eqn:E; simpl.
  - intros _. rewrite E. apply Nat.eqb_eq in E. rewrite E. reflexivity.
  - rewrite E. exact IH.
Qed.

Lemma shareOf_update_other (userId v : id) (p : string) (now : Z) (l : list share) :
  v <> userId -> shareOf v (updateShare userId p now l) = shareOf v l.
Proof.
  intros Hne. unfold shareOf. induction l as [|s l IH]; simpl; [reflexivity|].
  destruct (Rest.user s =? userId)%nat eqn:E; simpl.
  - apply Nat.eqb_eq in E. rewrite E. apply Nat.eqb_neq in Hne.
    rewrite Nat.eqb_sym, Hne. reflexivity.
  - destruct (Rest.user s =? v)%nat; [reflexivity | exact IH].
Qed.

Lemma users_update (userId : id) (p : string) (now : Z) (l : list share) :
  map Rest.user (updateShare userId p now l) = map Rest.user l.
Proof.
  induction l as [|s l IH]; simpl; [reflexivity|].
  destruct (Rest.user s =? userId)%nat; simpl; [reflexivity | now rewrite IH].
Qed.

Lemma valid_update (userId : id) (p : string) (now : Z) (l : list share) :
  existsb (String.eqb p) permissionsEnum = true ->
  forallb validShare l = true ->
  forallb validShare (updateShare userId p now l) = true.
Proof.
  intros Hp. induction l as [|s l IH]; simpl; [reflexivity|].
  intros H. apply andb_prop in H as [Hs Hl].
  destruct (Rest.user s =? userId)%nat; simpl.
  - rewrite Hl. unfold validShare at 1. simpl permissions. rewrite Hp. reflexivity.
  - rewrite Hs, (IH Hl). reflexivity.
Qed.

Lemma shareOf_absent (userId : id) (l : list share) :
  shareOf userId l = None <-> ~ In userId (map Rest.user l).
Proof.
  unfold shareOf. induction l as [|s l IH]; simpl; [tauto|].
  destruct (Nat.eqb_spec (Rest.user s) userId) as [E|E].
  - split; [discriminate|]. intros H. exfalso. apply H. left. exact E.
  - rewrite IH. tauto.
Qed.

Lemma shareOf_app (v : id) (l1 l2 : list share) :
  shareOf v (l1 ++ l2)
  = match shareOf v l1 with Some s => Some s | None => shareOf v l2 end.
Proof.
  unfold shareOf. induction l1 as [|s l1 IH]; simpl; [reflexivity|].
  destruct (Rest.user s =? v)%nat; [reflexivity | exact IH].
Qed.

Lemma shareWith_run (userId : id) (permissions : option string) (now : Z)
  (sharedWith : list share) :
  let p := match permissions with Some p => p | None => "view" end in
  forallb validShare sharedWith = true ->
  shareWith userId permissions now sharedWith
  = if existsb (String.eqb p) permissionsEnum
    then Ok (match shareOf userId sharedWith with
             | Some _ => updateShare userId p now sharedWith
             | None => sharedWith ++ [ {| Rest.user := userId; permissions := p;
                                          sharedAt := now |} ]
             end)
    else Throw "Chart validation failed".
Proof.
  intros p Hvalid. unfold shareWith, saveShares. fold p. fold (shareOf userId sharedWith).
  destruct (existsb (String.eqb p) permissionsEnum) eqn:Hp.
  - destruct (shareOf userId sharedWith) as [s|].
    + rewrite valid_update; [reflexivity | exact Hp | exact Hvalid].
    + rewrite forallb_app, Hvalid. simpl. unfold validShare. cbn [Rest.permissions].
      rewrite Hp. reflexivity.
  - destruct (shareOf userId sharedWith) as [s|] eqn:Hs.
    + assert (Hbad : forallb validShare (updateShare userId p now sharedWith) = false).
      { clear Hvalid. unfold shareOf in Hs. revert Hs.
        induction sharedWith as [|s' l IH]; simpl; [discriminate|].
        destruct (Rest.user s' =? userId)%nat; simpl.
        - intros _. unfold validShare at 1. cbn [Rest.permissions]. rewrite Hp. reflexivity.
        - intros H. rewrite (IH H). apply andb_false_r. }
      rewrite Hbad. reflexivity.
    + rewrite forallb_app. simpl. unfold validShare at 2. cbn [Rest.permissions].
      rewrite Hp. simpl. rewrite andb_false_r. reflexivity.
Qed.

Lemma unshareWith_run (userId : id) (sharedWith : list share) :
  forallb validShare sharedWith = true ->
  unshareWith userId sharedWith
  = Ok (filter (fun s => negb (Rest.user s =? userId)%nat) sharedWith).
Proof.
  intros Hvalid. unfold unshareWith, saveShares.
  assert (H : forallb validShare
                (filter (fun s => negb (Rest.user s =? userId)%nat) sharedWith) = true).
  { apply forallb_forall. intros s Hin. apply filter_In in Hin as [Hin _].
    rewrite forallb_forall in Hvalid. apply Hvalid. exact Hin. }
  rewrite H. reflexivity.
Qed.

Lemma shareOf_filter (userId v : id) (l : list share) :
  shareOf v (filter (fun s => negb (Rest.user s =? userId)%nat) l)
  = if (v =? userId)%nat then None else shareOf v l.
Proof.
  unfold shareOf. induction l as [|s l IH]; simpl.
  - destruct (v =? userId)%nat; reflexivity.
  - destruct (Nat.eqb_spec (Rest.user s) userId) as [E|E]; simpl.
    + rewrite IH. destruct (Nat.eqb_spec v userId) as [Ev|Ev]; [reflexivity|].
      destruct (Nat.eqb_spec (Rest.user s) v) as [E'|E']; [congruence | reflexivity].
    + destruct (Nat.eqb_spec (Rest.user s) v) as [E'|E'].
      * destruct (Nat.eqb_spec v userId) as [Ev|Ev]; [congruence | reflexivity].
      * exact IH.
Qed.

(** X18.  Sharing a chart sets the permission of one user.  On a share
    list that is valid, [shareWith] with a permission of the
    enumeration (or none, which stands for "view") saves a list in
    which the user has exactly the entry (user, permission, now): an
    entry the user already had is overwritten, its date refreshed, and
    the list keeps its length; otherwise one entry is added at the end.
    The entries of the other users are untouched.  A permission outside
    the enumeration is rejected by [save]. *)
Theorem sharing_sets_the_permission_of_one_user
  (userId : id) (permissions : option string) (now : Z) (sharedWith : list share) :
  forallb validShare sharedWith = true ->
  let p := match permissions with Some p => p | None => "view" end in
  if existsb (String.eqb p) permissionsEnum then
    exists saved : list share,
      shareWith userId permissions now sharedWith = Ok saved /\
      shareOf userId saved
      = Some {| Rest.user := userId; Rest.permissions := p; sharedAt := now |} /\
      (forall v, v <> userId -> shareOf v saved = shareOf v sharedWith) /\
      List.length saved
      = match shareOf userId sharedWith with
        | Some _ => List.length sharedWith
        | None => S (List.length sharedWith)
        end
  else shareWith userId permissions now sharedWith = Throw "Chart validation failed".
Proof.
  intros Hvalid p. rewrite (shareWith_run userId permissions now sharedWith Hvalid). fold p.
  destruct (existsb (String.eqb p) permissionsEnum); [|reflexivity].
  eexists. split; [reflexivity|].
  destruct (shareOf userId sharedWith) as [s|] eqn:Hs.
  - split; [apply shareOf_update; congruence|].
    split; [intros v Hv; apply shareOf_update_other; exact Hv|].
    rewrite <- (length_map Rest.user), users_update, length_map. reflexivity.
  - split; [|split].
    + rewrite shareOf_app, Hs. unfold shareOf. simpl. rewrite Nat.eqb_refl. reflexivity.
    + intros v Hv. rewrite shareOf_app. destruct (shareOf v sharedWith); [reflexivity|].
      unfold shareOf. simpl. apply Nat.eqb_neq in Hv. rewrite Nat.eqb_sym, Hv. reflexivity.
    + rewrite length_app. simpl. lia.
Qed.


(** X20.  Unsharing removes the user and undoes a first share.  On a
    valid share list [unshareWith] saves the list without the entries
    of the user, the others in their order; it changes nothing when the
    user is not in the list, and it takes back a [shareWith] of a user
    who was not in the list: the list is then as it was before. *)
Theorem unsharing_undoes_a_first_share
  (userId : id) (permissions : option string) (now : Z) (sharedWith : list share) :
  forallb validShare sharedWith = true ->
  exists saved : list share,
    unshareWith userId sharedWith = Ok saved /\
    shareOf userId saved = None /\
    (forall v, v <> userId -> shareOf v saved = shareOf v sharedWith) /\
    (shareOf userId sharedWith = None ->
     saved = sharedWith /\
     forall shared, shareWith userId permissions now sharedWith = Ok shared ->
                    unshareWith userId shared = Ok sharedWith).
Proof.
  intros Hvalid. rewrite (unshareWith_run userId sharedWith Hvalid).
  eexists. split; [reflexivity|].
  split; [rewrite shareOf_filter, Nat.eqb_refl; reflexivity|].
  split.
  { intros v Hv. rewrite shareOf_filter. apply Nat.eqb_neq in Hv. rewrite Hv. reflexivity. }
  intros Habsent.
  assert (Hsame : filter (fun s => negb (Rest.user s =? userId)%nat) sharedWith = sharedWith).
  { apply filter_all. intros s Hin. apply negb_true_iff, Nat.eqb_neq. intros E.
    apply shareOf_absent in Habsent. apply Habsent. rewrite <- E. apply in_map. exact Hin. }
  split; [exact Hsame|].
  intros shared. rewrite (shareWith_run userId permissions now sharedWith Hvalid), Habsent.
  destruct (existsb _ permissionsEnum) eqn:Hp; [|discriminate].
  intros E. injection E as <-.
  unfold unshareWith, saveShares. rewrite filter_app. simpl. rewrite Nat.eqb_refl. simpl.
  rewrite app_nil_r, Hsame, Hvalid. reflexivity.
Qed.

(** ** The creation form and the route it posts to *)

Lemma createChart_complete (user : id) (req : chartRequest) (st : db) :
  requiredFields req = true ->
  answer (createChart user req) st
  <> Ok {| status := 400; json := Message "Missing required fields" |}.
Proof.
  unfold requiredFields. intros Hreq.
  destruct (req_sourceFile req) as [i|] eqn:Hsrc; [|rewrite andb_false_r in Hreq; discriminate].
  apply andb_prop in Hreq as [Hreq Hy]. apply andb_prop in Hreq as [Hreq Hx].
  apply andb_prop in Hreq as [Hreq _]. apply andb_prop in Hreq as [Ht Hc].
  unfold answer, createChart, try_catch. rewrite Hsrc, Ht, Hc, Hx, Hy.
  unfold bind, findFileById, respond, ret, readSheet. cbn [negb orb]. cbv beta iota.
  destruct (find _ (files st)) as [file|]; [|discriminate].
  destruct (negb (uploadedBy file =? user)%nat); [discriminate|].
  cbv beta iota.
  destruct (onDisk (disk st) (path file)) as [[table|]|]; try discriminate.
  cbv beta iota.
  destruct (List.length table <? 2)%nat; [discriminate|].
  destruct (List.length (dataRows table) =? 0)%nat; [discriminate|].
  destruct (indexOf (nth 0 table []) (req_xColumn req)) as [xIdx|]; [|discriminate].
  destruct (indexOf (nth 0 table []) (req_yColumn req)) as [yIdx|]; [|discriminate].
  destruct (List.length (cleanDataManual _ _ _ _) =? 0)%nat; [discriminate|].
  unfold newId, saveChart. cbv beta iota.
  match goal with |- context [valid ?c] => destruct (valid c) end; discriminate.
Qed.

(** X21.  The creation form sends only complete requests.  With one
    of its four chart types selected, [handleSubmit] either shows its
    error, and then the title, the file or one of the two columns is
    empty, or hands over a body that passes every test of the first
    check of [POST /]: the route never answers it "Missing required
    fields", and its chart type is one the schema knows, so that the
    schema can refuse it only for its title or its description. *)
Theorem the_form_sends_only_complete_requests (f : form) :
  In (form_chartType f) formChartTypes ->
  match handleSubmit f with
  | inr req =>
      requiredFields req = true /\
      In (req_chartType req) chartTypes /\
      (forall user st,
         answer (createChart user req) st
         <> Ok {| status := 400; json := Message "Missing required fields" |})
  | inl message =>
      message = "Please fill all required fields" /\
      (form_title f = "" \/ form_sourceFile f = None \/
       form_xColumn f = "" \/ form_yColumn f = "")
  end.
Proof.
  intros Htype. unfold handleSubmit.
  assert (Hempty : forall s, truthy (Str s) = false -> s = "").
  { intros s H. simpl in H. apply negb_false_iff, String.eqb_eq in H. exact H. }
  destruct (truthy (Str (form_title f))) eqn:Ht, (form_sourceFile f) as [i|] eqn:Hs,
           (truthy (Str (form_xColumn f))) eqn:Hx, (truthy (Str (form_yColumn f))) eqn:Hy;
    cbn [negb orb];
    try (split; [reflexivity|];
         first [ left; apply Hempty; assumption
               | right; left; reflexivity
               | right; right; left; apply Hempty; assumption
               | right; right; right; apply Hempty; assumption ]).
  assert (Hreq : requiredFields
                   {| req_title := form_title f;
                      req_description := Some (form_description f);
                      req_chartType := form_chartType f;
                      req_sourceFile := Some i;
                      req_xColumn := Str (form_xColumn f);
                      req_yColumn := Str (form_yColumn f) |} = true).
  { unfold requiredFields. cbn [req_title req_chartType req_sourceFile req_xColumn req_yColumn].
    rewrite Ht, Hx, Hy.
    assert (Hc : truthy (Str (form_chartType f)) = true).
    { unfold formChartTypes in Htype. simpl in Htype.
      destruct Htype as [<-|[<-|[<-|[<-|[]]]]]; reflexivity. }
    rewrite Hc. reflexivity. }
  split; [exact Hreq|]. split.
  - unfold formChartTypes in Htype. simpl in Htype. unfold chartTypes. simpl.
    destruct Htype as [<-|[<-|[<-|[<-|[]]]]]; auto.
  - intros user st. apply createChart_complete. exact Hreq.
Qed.

(** ** Manual creation, twice *)

Lemma createChart_created (user : id) (req : chartRequest) (st : db) (chart : Chart) :
  answer (createChart user req) st
  = Ok {| status := 201; json := ChartBody "Chart created" chart |} ->
  exists (table : sheet) (xIdx yIdx : nat),
    requiredFields req = true /\
    sheetOfRequest st user req = Some table /\
    2 <= List.length table /\
    dataRows table <> [] /\
    indexOf (nth 0 table []) (req_xColumn req) = Some xIdx /\
    indexOf (nth 0 table []) (req_yColumn req) = Some yIdx /\
    cleanDataManual (req_chartType req) (dataRows table) xIdx yIdx <> [].
Proof.
  unfold answer, createChart, try_catch, sheetOfRequest, fileOfRequest, requiredFields.
  destruct (req_sourceFile req) as [i|]; [|discriminate].
  unfold bind, findFileById, respond, ret, readSheet.
  destruct (truthy (Str (req_title req))), (truthy (Str (req_chartType req))),
           (truthy (req_xColumn req)), (truthy (req_yColumn req));
    cbn [negb orb andb]; try (intros E; discriminate E).
  cbv beta iota.
  destruct (find _ (files st)) as [file|]; [|discriminate].
  destruct (uploadedBy file =? user)%nat; cbn [negb]; [|discriminate].
  cbv beta iota.
  destruct (onDisk (disk st) (path file)) as [[table|]|]; try discriminate.
  cbv beta iota.
  destruct (Nat.ltb_spec (List.length table) 2) as [|H2]; [discriminate|].
  destruct (Nat.eqb_spec (List.length (dataRows table)) 0) as [|Hrows]; [discriminate|].
  destruct (indexOf (nth 0 table []) (req_xColumn req)) as [xIdx|] eqn:Ex; [|discriminate].
  destruct (indexOf (nth 0 table []) (req_yColumn req)) as [yIdx|] eqn:Ey; [|discriminate].
  destruct (Nat.eqb_spec (List.length (cleanDataManual (req_chartType req)
                                         (dataRows table) xIdx yIdx)) 0) as [|Hclean];
    [discriminate|].
  intros _. exists table, xIdx, yIdx.
  split; [reflexivity|]. split; [reflexivity|]. split; [exact H2|]. split.
  { intros E. rewrite E in Hrows. apply Hrows. reflexivity. }
  split; [exact Ex|]. split; [exact Ey|].
  intros E. rewrite E in Hclean. apply Hclean. reflexivity.
Qed.

(** X22.  Manual creation does not look for an existing chart.  The
    duplicate check of the two automatic paths has no counterpart in
    [POST /]: a request that was answered 201 is answered 201 again
    when it is repeated, and the collection then ends with two charts
    that differ in their identifier only (same file, creator, type,
    title, description, configuration and tags). *)
Theorem manual_creation_does_not_look_for_duplicates
  (user : id) (req : chartRequest) (st : db) (chart : Chart) :
  answer (createChart user req) st
  = Ok {| status := 201; json := ChartBody "Chart created" chart |} ->
  let st1 := after (createChart user req) st in
  exists again : Chart,
    answer (createChart user req) st1
    = Ok {| status := 201; json := ChartBody "Chart created" again |} /\
    charts (after (createChart user req) st1) = charts st ++ [chart; again] /\
    chart_id again <> chart_id chart /\
    tuple again = tuple chart /\
    title again = title chart /\ description again = description chart /\
    config again = config chart /\ tags again = tags chart.
Proof.
  intros Hans st1.
  destruct (createChart_created _ _ _ Hans)
    as (table & xIdx & yIdx & Hreq & Hsheet & H2 & Hrows & Hx & Hy & Hclean).
  destruct (@createChart_saves user req st table xIdx yIdx Hreq Hsheet H2 Hrows Hx Hy Hclean)
    as (file & Hfile & Hrun).
  cbv zeta in Hrun. unfold answer in Hans. rewrite Hrun in Hans.
  match type of Hrun with context [valid ?ch] => set (c := ch) in * end.
  destruct (valid c) eqn:V; [|discriminate].
  simpl in Hans. injection Hans as <-.
  assert (E1 : st1 = withChart st (stored c)).
  { unfold st1, after. rewrite Hrun. reflexivity. }
  clearbody st1. subst st1.
  assert (Hsheet1 : sheetOfRequest (withChart st (stored c)) user req = Some table).
  { exact Hsheet. }
  destruct (@createChart_saves user req _ table xIdx yIdx Hreq Hsheet1 H2 Hrows Hx Hy Hclean)
    as (file1 & Hfile1 & Hrun1).
  assert (Efile : file1 = file).
  { change (fileOfRequest (withChart st (stored c)) user req)
      with (fileOfRequest st user req) in Hfile1. congruence. }
  subst file1. cbv zeta in Hrun1.
  match type of Hrun1 with context [valid ?ch] =>
    change (valid ch) with (valid c) in Hrun1; set (c1 := ch) in *
  end.
  rewrite V in Hrun1. exists (stored c1).
  unfold answer, after. rewrite Hrun1. simpl.
  split; [reflexivity|]. split; [rewrite <- app_assoc; reflexivity|].
  split; [lia|]. repeat split.
Qed.

(** ** The charts made at upload *)





(** ** A chart on a file and bulk auto-generation *)

Lemma autogen_skips_charted (user i : id) (st : db) :
  hasChart (charts st) i user = true ->
  chartsOn (after (autogen user) st) i = chartsOn st i.
Proof.
  intros Hhas. unfold chartsOn, after. rewrite autogen_run. simpl.
  rewrite turns_charts, filter_app.
  rewrite (@filter_none _ _ (fst (turns user (filesOf st user) st))); [apply app_nil_r|].
  intros c Hin. destruct (turns_made user (filesOf st user) st) as (_ & Hall).
  destruct (Hall c Hin) as (_ & _ & _ & Hno).
  apply Nat.eqb_neq. intros E. rewrite E in Hno. congruence.
Qed.

(** X24.  One chart on a file switches bulk auto-generation off for
    it.  [POST /autogen] looks for any chart of the caller on the file,
    of whatever type and however made: once the caller has a chart on a
    file, a run adds no chart on that file.  In particular, after a
    manual creation answered 201, bulk auto-generation leaves the charts
    of the file concerned as they are. *)
Theorem a_chart_on_a_file_switches_auto_generation_off (user : id) (st : db) :
  (forall i, hasChart (charts st) i user = true ->
             chartsOn (after (autogen user) st) i = chartsOn st i) /\
  (forall req chart,
     answer (createChart user req) st
     = Ok {| status := 201; json := ChartBody "Chart created" chart |} ->
     let st1 := after (createChart user req) st in
     chartsOn (after (autogen user) st1) (sourceFile chart)
     = chartsOn st1 (sourceFile chart)).
Proof.
  split; [intros i; apply autogen_skips_charted|].
  intros req chart Hans st1. apply autogen_skips_charted.
  destruct (createChart_created _ _ _ Hans)
    as (table & xIdx & yIdx & Hreq & Hsheet & H2 & Hrows & Hx & Hy & Hclean).
  destruct (@createChart_saves user req _ table xIdx yIdx Hreq Hsheet H2 Hrows Hx Hy Hclean)
    as (file & _ & Hrun).
  cbv zeta in Hrun. unfold answer in Hans. rewrite Hrun in Hans.
  unfold st1, after. rewrite Hrun.
  match type of Hrun with context [valid ?ch] => destruct (valid ch) end; [|discriminate].
  simpl in Hans. injection Hans as <-. simpl.
  rewrite hasChart_app. unfold hasChart at 2. simpl.
  rewrite !Nat.eqb_refl. simpl. apply orb_true_r.
Qed.

(** ** The upload filter *)

Lemma starts_with_prefix (p q l : list ascii) :
  starts_with (p ++ q) l = true -> starts_with p l = true.
Proof.
  revert l. induction p as [|a p IH]; intros l; simpl; [reflexivity|].
  destruct l as [|b l]; [discriminate|].
  intros H. apply andb_prop in H as [Hab H]. rewrite Hab. apply IH. exact H.
Qed.

Lemma includes_prefix (p q l : list ascii) :
  includes_chars (p ++ q) l = true -> includes_chars p l = true.
Proof.
  induction l as [|b l IH]; simpl.
  - rewrite !orb_false_r. apply starts_with_prefix.
  - intros H. apply orb_prop in H as [H|H].
    + rewrite (starts_with_prefix _ _ _ H). reflexivity.
    + rewrite (IH H). apply orb_true_r.
Qed.

(** X25.  What the upload filter accepts.  A file passes exactly when
    its media type is one of the two Excel types and the extension of
    its name (the last one, lower-cased) contains "xls": the
    alternative "xlsx" of the pattern adds nothing, the pattern is not
    anchored, and both tests are needed. *)
Theorem the_filter_wants_xls_in_the_extension (f : incoming) :
  fileFilter f
  = includes (toLowerCase (extname (originalname f))) "xls"
    && (String.eqb (in_mimetype f)
          "application/vnd.openxmlformats-officedocument.spreadsheetml.sheet"
        || String.eqb (in_mimetype f) "application/vnd.ms-excel").
Proof.
  unfold fileFilter, allowedMimeTypes. cbn [existsb]. rewrite orb_false_r.
  f_equal.
  destruct (includes (toLowerCase (extname (originalname f))) "xlsx") eqn:E;
    [|reflexivity].
  unfold includes in *. change (chars "xlsx") with (chars "xls" ++ chars "x") in E.
  rewrite (includes_prefix _ _ _ E). reflexivity.
Qed.

(** ** The properties at work on the sample data *)

Lemma a_call_leaves_the_other_users_alone_witness :
  let c := Request (Upload bob (Some regionUpload)) in
  caller c <> alice /\
  chartsOf (perform c (reached aliceCalls)) alice = chartsOf (reached aliceCalls) alice /\
  filesOf (perform c (reached aliceCalls)) alice = filesOf (reached aliceCalls) alice.
Proof.
  assert (H : caller (Request (Upload bob (Some regionUpload))) <> alice)
    by (vm_compute; lia).
  exact (conj H (@a_call_leaves_the_other_users_alone aliceCalls _ alice H)).
Defined.

Lemma a_file_of_someone_else_looks_missing_witness :
  mayDelete salesStore bob 0 = false /\
  (deleteFileAt bob (ObjectId 0) salesStore = (Ok fileNotFound, salesStore) /\
   columnsAt bob (ObjectId 0) salesStore
   = (Ok {| statusCode := 404; payload := Refused "File not found or access denied" |},
      salesStore) /\
   (requiredFields mixedRequest = true -> req_sourceFile mixedRequest = Some 0 ->
    createChartAt bob (ObjectId 0) mixedRequest salesStore = (Ok fileNotFound, salesStore))) /\
  (deleteFileAt bob (Malformed "abc") salesStore
   = (Ok {| status := 500; json := Message "Server error during file deletion" |},
      salesStore) /\
   columnsAt bob (Malformed "abc") salesStore
   = (Ok {| statusCode := 500; payload := Refused "Failed to get columns" |}, salesStore) /\
   (requiredFields mixedRequest = true -> truthy (Str "abc") = true ->
    createChartAt bob (Malformed "abc") mixedRequest salesStore
    = (Ok {| status := 500; json := Message "Server error during chart creation" |},
       salesStore))).
Proof.
  assert (H : mayDelete salesStore bob 0 = false) by (vm_compute; reflexivity).
  exact (conj H (@a_file_of_someone_else_looks_missing bob 0 "abc" mixedRequest salesStore H)).
Defined.

Lemma a_request_the_schema_refuses_is_answered_500_witness :
  (requiredFields blankTitleRequest = true /\
   sheetOfRequest salesStore alice blankTitleRequest = Some citySales /\
   2 <= List.length citySales /\
   dataRows citySales <> [] /\
   indexOf (nth 0 citySales []) (req_xColumn blankTitleRequest) = Some 0 /\
   indexOf (nth 0 citySales []) (req_yColumn blankTitleRequest) = Some 1 /\
   cleanDataManual (req_chartType blankTitleRequest) (dataRows citySales) 0 1 <> []) /\
  trim (req_title blankTitleRequest) = "" /\
  answer (createChart alice blankTitleRequest) salesStore
  = Ok {| status := 500; json := Message "Server error during chart creation" |} /\
  charts (after (createChart alice blankTitleRequest) salesStore) = charts salesStore.
Proof.
  assert (H1 : requiredFields blankTitleRequest = true) by (vm_compute; reflexivity).
  assert (H2 : sheetOfRequest salesStore alice blankTitleRequest = Some citySales)
    by (vm_compute; reflexivity).
  assert (H3 : 2 <= List.length citySales) by (simpl; lia).
  assert (H4 : dataRows citySales <> []) by (vm_compute; discriminate).
  assert (H5 : indexOf (nth 0 citySales []) (req_xColumn blankTitleRequest) = Some 0)
    by (vm_compute; reflexivity).
  assert (H6 : indexOf (nth 0 citySales []) (req_yColumn blankTitleRequest) = Some 1)
    by (vm_compute; reflexivity).
  assert (H7 : cleanDataManual (req_chartType blankTitleRequest) (dataRows citySales) 0 1
               <> []) by (vm_compute; discriminate).
  split; [repeat split; assumption|]. split; [vm_compute; reflexivity|].
  exact (@a_request_the_schema_refuses_is_answered_500
           alice blankTitleRequest salesStore citySales 0 1 H1 H2 H3 H4 H5 H6 H7).
Defined.

Lemma deleting_an_upload_undoes_it_witness :
  let st := reached [] in
  let st1 := after (upload alice (Some numbersUpload)) st in
  let st2 := after (deleteFile alice (nextId st)) st1 in
  (fileFilter numbersUpload = true /\
   onDisk (disk st) (storedPath numbersUpload) = None) /\
  List.length (charts st1) = 3 /\
  answer (deleteFile alice (nextId st)) st1
  = Ok {| status := 200; json := Message "File deleted successfully" |} /\
  files st2 = files st /\ charts st2 = charts st /\ disk st2 = disk st.
Proof.
  assert (H1 : fileFilter numbersUpload = true) by (vm_compute; reflexivity).
  assert (H2 : onDisk (disk (reached [])) (storedPath numbersUpload) = None)
    by (vm_compute; reflexivity).
  split; [split; assumption|]. split; [vm_compute; reflexivity|].
  exact (@deleting_an_upload_undoes_it [] alice numbersUpload H1 H2).
Defined.

Lemma a_deleted_file_is_gone_witness :
  let st' := after (deleteFile alice 0) salesStore in
  mayDelete salesStore alice 0 = true /\
  (forall u, mayDelete st' u 0 = false) /\
  chartsOn st' 0 = [] /\
  (forall u, deleteFile u 0 st' = (Ok fileNotFound, st')) /\
  (forall u, columns u 0 st'
             = (Ok {| statusCode := 404;
                      payload := Refused "File not found or access denied" |}, st')) /\
  (forall u req, requiredFields req = true -> req_sourceFile req = Some 0 ->
                 createChart u req st' = (Ok fileNotFound, st')) /\
  (forall u, chartsOn (after (autogen u) st') 0 = []).
Proof.
  assert (H : mayDelete salesStore alice 0 = true) by (vm_compute; reflexivity).
  exact (conj H (@a_deleted_file_is_gone alice 0 salesStore H)).
Defined.

Lemma names_taken_from_the_columns_are_found_witness :
  let headers := nth 0 citySales [] in
  (find (fun f => (file_id f =? 0)%nat) (files salesStore) = Some salesFile /\
   uploadedBy salesFile = alice /\
   onDisk (disk salesStore) (path salesFile) = Some (Some citySales) /\
   req_sourceFile mixedRequest = Some 0 /\
   req_xColumn mixedRequest = Str "City" /\ In (Some (Str "City")) headers /\
   req_yColumn mixedRequest = Str "Sales" /\ In (Some (Str "Sales")) headers) /\
  columns alice 0 salesStore
  = (Ok {| statusCode := 200; payload := Sent headers |}, salesStore) /\
  columnMissing headers mixedRequest = false /\
  answer (createChart alice mixedRequest) salesStore <> Ok columnNotFound /\
  exists xIdx yIdx,
    indexOf headers (req_xColumn mixedRequest) = Some xIdx /\
    indexOf headers (req_yColumn mixedRequest) = Some yIdx /\
    get headers xIdx = Str "City" /\ get headers yIdx = Str "Sales" /\
    (forall j, j < xIdx -> get headers j <> Str "City") /\
    (forall j, j < yIdx -> get headers j <> Str "Sales").
Proof.
  assert (H1 : find (fun f => (file_id f =? 0)%nat) (files salesStore) = Some salesFile)
    by (vm_compute; reflexivity).
  assert (H2 : uploadedBy salesFile = alice) by reflexivity.
  assert (H3 : onDisk (disk salesStore) (path salesFile) = Some (Some citySales))
    by (vm_compute; reflexivity).
  assert (H4 : req_sourceFile mixedRequest = Some 0) by reflexivity.
  assert (H5 : req_xColumn mixedRequest = Str "City") by reflexivity.
  assert (H6 : In (Some (Str "City")) (nth 0 citySales [])) by (simpl; auto).
  assert (H7 : req_yColumn mixedRequest = Str "Sales") by reflexivity.
  assert (H8 : In (Some (Str "Sales")) (nth 0 citySales [])) by (simpl; auto).
  split; [repeat split; assumption|].
  exact (@names_taken_from_the_columns_are_found
           alice 0 salesFile citySales mixedRequest "City" "Sales" salesStore
           H1 H2 H3 H4 H5 H6 H7 H8).
Defined.

Lemma autogen_charts_the_first_categorical_and_the_first_numeric_column_witness :
  let headers := nth 0 citySales [] in
  let rows := dataRows citySales in
  exists mk : id -> Chart,
    draft alice salesFile citySales = Built mk /\
    exists (xIdx yIdx : nat) (xHeader yHeader : value),
      nth_error headers xIdx = Some (Some xHeader) /\
      nth_error headers yIdx = Some (Some yHeader) /\
      type (analyse rows xHeader xIdx) = categorical /\
      type (analyse rows yHeader yIdx) = numeric /\
      (forall j h, j < xIdx -> nth_error headers j = Some (Some h) ->
                   type (analyse rows h j) <> categorical) /\
      (forall j h, j < yIdx -> nth_error headers j = Some (Some h) ->
                   type (analyse rows h j) <> numeric) /\
      forall i,
        config (mk i) = autogenConfig yHeader (cleanDataAuto rows xIdx yIdx) /\
        title (mk i) = (originalName salesFile ++ " - " ++ ToString yHeader
                        ++ " by " ++ ToString xHeader)%string.
Proof.
  assert (H := draft_citySales alice salesFile).
  eexists. split; [exact H|].
  exact (@autogen_charts_the_first_categorical_and_the_first_numeric_column
           alice salesFile citySales _ H).
Defined.

Lemma sharing_sets_the_permission_of_one_user_witness :
  forallb validShare sharedWithAlice = true /\
  exists saved : list share,
    shareWith alice (Some "edit") 1718000003600 sharedWithAlice = Ok saved /\
    shareOf alice saved
    = Some {| Rest.user := alice; Rest.permissions := "edit";
              sharedAt := 1718000003600 |} /\
    (forall v, v <> alice -> shareOf v saved = shareOf v sharedWithAlice) /\
    List.length saved = List.length sharedWithAlice.
Proof.
  assert (H : forallb validShare sharedWithAlice = true) by (vm_compute; reflexivity).
  exact (conj H (@sharing_sets_the_permission_of_one_user
                   alice (Some "edit") 1718000003600 sharedWithAlice H)).
Defined.

Lemma unsharing_undoes_a_first_share_witness :
  forallb validShare sharedWithAlice = true /\
  exists saved : list share,
    unshareWith bob sharedWithAlice = Ok saved /\
    shareOf bob saved = None /\
    (forall v, v <> bob -> shareOf v saved = shareOf v sharedWithAlice) /\
    (shareOf bob sharedWithAlice = None ->
     saved = sharedWithAlice /\
     forall shared,
       shareWith bob None 1718000003600 sharedWithAlice = Ok shared ->
       unshareWith bob shared = Ok sharedWithAlice).
Proof.
  assert (H : forallb validShare sharedWithAlice = true) by (vm_compute; reflexivity).
  exact (conj H (@unsharing_undoes_a_first_share bob None 1718000003600 sharedWithAlice H)).
Defined.

Lemma the_form_sends_only_complete_requests_witness :
  In (form_chartType salesForm) formChartTypes /\
  exists req : chartRequest,
    handleSubmit salesForm = inr req /\
    requiredFields req = true /\
    In (req_chartType req) chartTypes /\
    (forall user st,
       answer (createChart user req) st
       <> Ok {| status := 400; json := Message "Missing required fields" |}).
Proof.
  assert (H : In (form_chartType salesForm) formChartTypes) by (simpl; auto).
  split; [exact H|]. eexists. split; [reflexivity|].
  exact (@the_form_sends_only_complete_requests salesForm H).
Defined.

Lemma manual_creation_does_not_look_for_duplicates_witness :
  let st1 := after (createChart alice mixedRequest) salesStore in
  exists chart : Chart,
    answer (createChart alice mixedRequest) salesStore
    = Ok {| status := 201; json := ChartBody "Chart created" chart |} /\
    exists again : Chart,
      answer (createChart alice mixedRequest) st1
      = Ok {| status := 201; json := ChartBody "Chart created" again |} /\
      charts (after (createChart alice mixedRequest) st1)
      = charts salesStore ++ [chart; again] /\
      chart_id again <> chart_id chart /\
      tuple again = tuple chart /\
      title again = title chart /\ description again = description chart /\
      config again = config chart /\ tags again = tags chart.
Proof.
  assert (Hex : exists chart : Chart,
            answer (createChart alice mixedRequest) salesStore
            = Ok {| status := 201; json := ChartBody "Chart created" chart |})
    by (eexists; vm_compute; reflexivity).
  destruct Hex as [chart H]. exists chart. split; [exact H|].
  exact (@manual_creation_does_not_look_for_duplicates alice mixedRequest salesStore chart H).
Defined.

